(** * Jenkins sequential build automation: a shallow embedding

    The development embeds the methods of [JenkinsAutoBuildEnhanced]
    (file [jenkins_auto_build_enhanced.py]) that drive a build workflow:
    [trigger_build], [get_build_number_from_queue], [get_job_status],
    [wait_for_build_completion], [poll_interface], [get_jobs_list] and
    [run_build_workflow].  A second part embeds what surrounds the workflow:
    [load_config], [__init__], [get_crumb], [test_connection], [stop_build],
    [handle_interrupt] and [main].

    Conventions of the embedding.
    - Data received from the network (JSON bodies, the crumb, build numbers)
      is dynamically typed in the program and is a [value] here, with
      Python's truthiness.  JSON numbers are integers.
    - The configuration file is a typed record; a field read with
      [config.get(key, default)] is an [option] whose [None] is the absent key.
      Its numbers are integers, of a size [time.sleep] accepts.
    - Effects are explicit: a computation takes the mutable part of the
      object and the clock, and gives back a result, the new state and the
      list of events it produced, oldest first.
    - The program talks to the network through calls of the [requests]
      library ([session.get], [session.post], [requests.get]).  An [EHttp]
      event is one such call, and the oracle [respond], indexed by the
      number of calls made so far, gives what the call returns: the response
      at the end of the redirects the library follows inside the call, or
      nothing when the call raises.  A header that the library refuses to
      send makes [session.post] raise before the call is carried out.
    - [self.log] and [print] only write text; they do not influence control
      flow and are left out.  A URL built by an f-string is kept as its
      template and arguments.
    - Every method of the workflow leaves an [ECalled] event carrying the
      time it was entered and what it returned.
    - The clock counts whole seconds; it advances by the latency of each
      request and by the argument of each [time.sleep].
    - The [while] loop of [wait_for_build_completion] is a recursion on a
      fuel argument; a run that uses it up ends in [OutOfFuel], which is not
      a result of the program.  The theorem on that loop shows that fuel
      above the timeout is never used up. *)

From Stdlib Require Import ZArith List String Ascii Bool Lia.
Import ListNotations.
Local Open Scope string_scope.
Local Open Scope Z_scope.

Set Implicit Arguments.
Set Warnings "-register-all".

(** ** Python values *)

Inductive value : Type :=
| VNone
| VBool (b : bool)
| VInt (z : Z)
| VStr (s : string)
| VList (l : list value)
| VDict (d : list (string * value)).

(** [bool(v)] *)
Definition truthy (v : value) : bool :=
  match v with
  | VNone => false
  | VBool b => b
  | VInt z => negb (z =? 0)
  | VStr s => negb (s =? "")%string
  | VList l => match l with [] => false | _ => true end
  | VDict d => match d with [] => false | _ => true end
  end.

(** [v is None] *)
Definition is_none (v : value) : bool :=
  match v with
  | VNone => true
  | _ => false
  end.

(** [v != -1]: among the values only the integer -1 equals -1
    ([True] is 1 and [False] is 0). *)
Definition is_minus_one (v : value) : bool :=
  match v with
  | VInt z => z =? -1
  | _ => false
  end.

(** [v == 'SUCCESS'] *)
Definition str_equals (v : value) (s : string) : bool :=
  match v with
  | VStr s' => (s' =? s)%string
  | _ => false
  end.

(** A key can go into a [dict] when it is hashable. *)
Definition hashable (v : value) : bool :=
  match v with
  | VList _ | VDict _ => false
  | _ => true
  end.

Fixpoint assoc {A : Type} (k : string) (d : list (string * A)) : option A :=
  match d with
  | [] => None
  | (k', v) :: d' => if (k' =? k)%string then Some v else assoc k d'
  end.

(** [d[k] = v] on an insertion-ordered dictionary. *)
Fixpoint dict_set {A : Type} (k : string) (v : A) (d : list (string * A))
  : list (string * A) :=
  match d with
  | [] => [(k, v)]
  | (k', v') :: d' =>
      if (k' =? k)%string then (k', v) :: d' else (k', v') :: dict_set k v d'
  end.

(** [d.update(other)] *)
Definition dict_update {A : Type} (d other : list (string * A))
  : list (string * A) :=
  fold_left (fun acc kv => dict_set (fst kv) (snd kv) acc) other d.

(** ** Strings *)

(** [s.rstrip('/')] *)
Fixpoint rstrip_slash (s : string) : string :=
  match s with
  | EmptyString => EmptyString
  | String c r =>
      match rstrip_slash r with
      | EmptyString => if Ascii.eqb c "/" then EmptyString else String c EmptyString
      | r' => String c r'
      end
  end.

(** [s.startswith(p)] *)
Definition startswith (s p : string) : bool := String.prefix p s.

(** [c in s] for a character *)
Fixpoint contains_char (c : ascii) (s : string) : bool :=
  match s with
  | EmptyString => false
  | String c' r => Ascii.eqb c' c || contains_char c r
  end.

(** ** Header parts the library sends

    Before a request goes out [requests] matches the name of every header
    against [^[^:\s][^:\r\n]*$] and its value against [^\S[^\r\n]*$|^$]
    ([check_header_validity]); [http.client] then encodes the name as ASCII
    and the value as Latin-1 and refuses a line break that is left.  A
    string is the UTF-8 text of a Python [str] here.  The definitions follow
    [requests] 2.32, [urllib3] 1.26 and Python 3.11. *)

Definition line_feed : ascii := ascii_of_nat 10.
Definition carriage_return : ascii := ascii_of_nat 13.

(** The UTF-8 bytes [b0 b1 b2] begin a character outside ASCII that [\s]
    matches: U+0085, U+00A0, U+1680, U+2000 to U+200A, U+2028, U+2029,
    U+202F, U+205F, U+3000. *)
Definition space_code (b0 b1 b2 : nat) : bool :=
  ((b0 =? 194) && ((b1 =? 133) || (b1 =? 160))
   || (b0 =? 225) && (b1 =? 154) && (b2 =? 128)
   || (b0 =? 226) && (b1 =? 128)
      && ((128 <=? b2) && (b2 <=? 138)
          || (b2 =? 168) || (b2 =? 169) || (b2 =? 175))
   || (b0 =? 226) && (b1 =? 129) && (b2 =? 159)
   || (b0 =? 227) && (b1 =? 128) && (b2 =? 128))%nat.

(** The string begins with a character that [\s] matches. *)
Definition starts_with_space (s : string) : bool :=
  match s with
  | EmptyString => false
  | String c0 r0 =>
      let b0 := nat_of_ascii c0 in
      let b1 := match r0 with
                | String c1 _ => nat_of_ascii c1
                | EmptyString => 0%nat
                end in
      let b2 := match r0 with
                | String _ (String c2 _) => nat_of_ascii c2
                | _ => 0%nat
                end in
      ((9 <=? b0) && (b0 <=? 13) || (28 <=? b0) && (b0 <=? 32))%nat
      || space_code b0 b1 b2
  end.

(** [$] also matches before a line feed that ends the string. *)
Fixpoint without_final_newline (s : string) : string :=
  match s with
  | EmptyString => EmptyString
  | String c r =>
      match r with
      | EmptyString => if Ascii.eqb c line_feed then EmptyString else s
      | _ => String c (without_final_newline r)
      end
  end.

(** [^[^:\s][^:\r\n]*$] *)
Definition name_pattern (s : string) : bool :=
  match s with
  | EmptyString => false
  | String c r =>
      let r' := without_final_newline r in
      negb (Ascii.eqb c ":") && negb (starts_with_space s)
      && negb (contains_char ":" r')
      && negb (contains_char carriage_return r')
      && negb (contains_char line_feed r')
  end.

(** [^\S[^\r\n]*$|^$] *)
Definition value_pattern (s : string) : bool :=
  match without_final_newline s with
  | EmptyString => true
  | String c r =>
      negb (starts_with_space (String c r))
      && negb (contains_char carriage_return r)
      && negb (contains_char line_feed r)
  end.

(** [s.encode('ascii')] and [s.encode('latin-1')] succeed. *)
Fixpoint is_ascii (s : string) : bool :=
  match s with
  | EmptyString => true
  | String c r => (nat_of_ascii c <? 128)%nat && is_ascii r
  end.

Fixpoint is_latin1 (s : string) : bool :=
  match s with
  | EmptyString => true
  | String c r =>
      let n := nat_of_ascii c in
      if (n <? 128)%nat then is_latin1 r
      else if (n =? 194)%nat || (n =? 195)%nat then
             match r with
             | String _ r' => is_latin1 r'
             | EmptyString => false
             end
           else false
  end.

(** [urllib3] leaves out a header whose value is its [SKIP_HEADER] mark when
    the name, in lower case, is one of three, and raises for another name. *)
Definition lower_char (c : ascii) : ascii :=
  let n := nat_of_ascii c in
  if ((65 <=? n) && (n <=? 90))%nat then ascii_of_nat (n + 32) else c.

Fixpoint lower (s : string) : string :=
  match s with
  | EmptyString => EmptyString
  | String c r => String (lower_char c) (lower r)
  end.

Definition skip_header : string := "@@@SKIP_HEADER@@@".

Definition skippable (header_name : string) : bool :=
  let n := lower header_name in
  (n =? "accept-encoding")%string || (n =? "host")%string
  || (n =? "user-agent")%string.

(** ** Configuration *)

Definition params := list (string * string).

(** An element of the [jobs] array of the configuration file. *)
Inductive job_entry : Type :=
| JobObject (entry_name entry_description : option string)
            (entry_parameters : option params)
| JobString (s : string)
| JobOther.

Record Config : Type := {
  jenkins_url : string;
  username : string;
  branch : option string;
  enable_polling : option bool;
  polling_url : option string;
  wait_between_builds : option Z;
  timeout_seconds : option Z;          (* build_config *)
  check_interval_seconds : option Z;   (* build_config *)
  max_attempts : option Z;             (* polling_config *)
  interval_seconds : option Z;         (* polling_config *)
  expected_status_code : option Z;     (* polling_config *)
  jobs : option (list job_entry);
  first_job : option string;
  second_job : option string
}.

(** [d.get(key, default)] on a typed field *)
Definition get_default {A : Type} (o : option A) (default : A) : A :=
  match o with
  | Some a => a
  | None => default
  end.

Record Job : Type := {
  name : string;
  description : string;
  parameters : params
}.

(** ** HTTP *)

Inductive url : Type :=
| UBuildWithParameters (base job : string)   (* {base}/job/{job}/buildWithParameters *)
| UBuild (base job : string) (number : value) (* {base}/job/{job}/{number}/api/json *)
| ULastBuild (base job : string)             (* {base}/job/{job}/lastBuild/api/json *)
| UPlain (s : string).                       (* a URL held in a string *)

Inductive request : Type :=
| Get (u : url)
| Post (u : url) (data : params) (headers : list (value * value)).

Record response : Type := {
  status_code : Z;
  location : option string;   (* response.headers.get('Location') *)
  json_body : option value    (* response.json(); None when the body is not JSON *)
}.

(** The [requests] library and the network behind it: what the n-th call of
    the run returns and how many seconds it takes.  The response is the one
    the call returns, at the end of the redirects the library follows inside
    the call (all of [session.get], [session.post] and [requests.get] follow
    them); [None] is a call that raises (a transport failure, too many
    redirects). *)
Record Env : Type := {
  respond : nat -> request -> option response;
  latency : nat -> nat
}.

(** The immutable part of the object. *)
Record Builder : Type := {
  config : Config;
  crumb : value;
  session : Env
}.

(** ** Effects *)

Inductive exn : Type :=
| ConnectionError
| JSONDecodeError
| KeyError
| TypeError
| AttributeError
| ValueError
| InvalidHeader
| UnicodeEncodeError.

Inductive result (A : Type) : Type :=
| Ok (a : A)
| Raised (e : exn)
| OutOfFuel.
Arguments Raised {A} e.
Arguments OutOfFuel {A}.

Inductive method : Type :=
| MTriggerBuild (job_name : string)
| MGetBuildNumberFromQueue (job_name : string)
| MGetJobStatus (job_name : string) (build_number : value)
| MWaitForBuildCompletion (job_name : string) (build_number : value)
| MPollInterface
| MRunBuildWorkflow.

Inductive event : Type :=
| EHttp (t : Z) (req : request) (resp : option response)
| ESleep (secs : Z)
| ECalled (t : Z) (m : method) (r : result value).

(** The mutable part of the object, the clock and the number of calls of
    the library carried out so far. *)
Record State : Type := {
  current_job : option string;
  current_build_number : value;
  now : Z;
  sent : nat
}.

Record outcome (A : Type) : Type := Outcome {
  res : result A;
  final : State;
  emitted : list event
}.

Definition M (A : Type) : Type := State -> outcome A.

Definition ret {A : Type} (a : A) : M A :=
  fun s => Outcome (Ok a) s [].

Definition raise {A : Type} (e : exn) : M A :=
  fun s => Outcome (Raised e) s [].

Definition out_of_fuel {A : Type} : M A :=
  fun s => Outcome OutOfFuel s [].

Definition bind {A B : Type} (m : M A) (k : A -> M B) : M B :=
  fun s =>
    match m s with
    | Outcome (Ok a) s1 e1 =>
        match k a s1 with
        | Outcome r s2 e2 => Outcome r s2 (e1 ++ e2)
        end
    | Outcome (Raised e) s1 e1 => Outcome (Raised e) s1 e1
    | Outcome OutOfFuel s1 e1 => Outcome OutOfFuel s1 e1
    end.

Declare Scope py_scope.
Delimit Scope py_scope with py.
Notation "x <- m ;; k" := (bind m (fun x => k))
  (at level 100, m at next level, right associativity) : py_scope.
Notation "m ;; k" := (bind m (fun _ => k))
  (at level 100, right associativity) : py_scope.
Local Open Scope py_scope.

(** [try: m  except Exception as e: handler e] *)
Definition try_except {A : Type} (m : M A) (handler : exn -> M A) : M A :=
  fun s =>
    match m s with
    | Outcome (Raised e) s1 e1 =>
        match handler e s1 with
        | Outcome r s2 e2 => Outcome r s2 (e1 ++ e2)
        end
    | o => o
    end.

(** Entering and leaving a method. *)
Definition called {A : Type} (inj : A -> value) (m : method) (body : M A) : M A :=
  fun s =>
    match body s with
    | Outcome r s1 e1 =>
        Outcome r s1
          (e1 ++ [ECalled (now s) m match r with
                                    | Ok a => Ok (inj a)
                                    | Raised e => Raised e
                                    | OutOfFuel => OutOfFuel
                                    end])
    end.

Definition time_time : M Z :=
  fun s => Outcome (Ok (now s)) s [].

(** [time.sleep(secs)]; a negative argument is a [ValueError]. *)
Definition time_sleep (secs : Z) : M unit :=
  fun s =>
    if secs <? 0 then Outcome (Raised ValueError) s []
    else Outcome (Ok tt)
           {| current_job := current_job s;
              current_build_number := current_build_number s;
              now := now s + secs;
              sent := sent s |}
           [ESleep secs].

(** One call of the library that is carried out: [session.get(url)],
    [requests.get(url)], or a [session.post] whose headers can be sent. *)
Definition http (env : Env) (req : request) : M response :=
  fun s =>
    let answer := respond env (sent s) req in
    let s' := {| current_job := current_job s;
                 current_build_number := current_build_number s;
                 now := now s + Z.of_nat (latency env (sent s));
                 sent := S (sent s) |} in
    Outcome (match answer with Some r => Ok r | None => Raised ConnectionError end)
            s' [EHttp (now s) req answer].

(** Why a call of [session.post] raises before a request goes out, if it
    does, for a header the program passes.  A name that is not a string has
    no [lower] when the headers are merged with those of the session
    ([AttributeError]); a header whose value is [None] is left out by that
    merge, whatever its name.  A value that is not a string, or a part that
    does not match its pattern, is an [InvalidHeader] of [requests]; the
    mark [skip_header] under a name that cannot be skipped is refused by
    [urllib3]; a part that cannot be encoded, or a line feed that the
    pattern let pass at the end of a part, is refused by [http.client]. *)
Definition refused_header (h : value * value) : option exn :=
  match h with
  | (VStr header_name, VNone) => None
  | (VStr header_name, VStr header_value) =>
      if negb (name_pattern header_name && value_pattern header_value)
      then Some InvalidHeader
      else if (header_value =? skip_header)%string
      then (if skippable header_name then None else Some ValueError)
      else if negb (is_ascii header_name) then Some UnicodeEncodeError
      else if contains_char line_feed header_name then Some ValueError
      else if negb (is_latin1 header_value) then Some UnicodeEncodeError
      else if contains_char line_feed header_value then Some ValueError
      else None
  | (VStr header_name, _) => Some InvalidHeader
  | _ => Some AttributeError
  end.

Fixpoint refused (headers : list (value * value)) : option exn :=
  match headers with
  | [] => None
  | h :: rest =>
      match refused_header h with
      | Some e => Some e
      | None => refused rest
      end
  end.

(** [session.post(url, data=data, headers=headers)]: the library checks the
    headers first and raises, with nothing sent, when it refuses one.
    Otherwise the call is carried out; what else may fail in it is an answer
    [None] of [respond]. *)
Definition session_post (env : Env) (u : url) (data : list (string * string))
    (headers : list (value * value)) : M response :=
  match refused headers with
  | Some e => raise e
  | None => http env (Post u data headers)
  end.

(** [self.current_job = j; self.current_build_number = n] *)
Definition set_tracking (j : option string) (n : value) : M unit :=
  fun s =>
    Outcome (Ok tt)
      {| current_job := j; current_build_number := n;
         now := now s; sent := sent s |} [].

(** [response.json()] *)
Definition json (r : response) : M value :=
  match json_body r with
  | Some v => ret v
  | None => raise JSONDecodeError
  end.

(** [v.get(key)]: only a [dict] has the method. *)
Definition py_get (v : value) (key : string) : M value :=
  match v with
  | VDict d => ret (get_default (assoc key d) VNone)
  | _ => raise AttributeError
  end.

(** [v[key]] with a string key *)
Definition py_item (v : value) (key : string) : M value :=
  match v with
  | VDict d => match assoc key d with
               | Some x => ret x
               | None => raise KeyError
               end
  | _ => raise TypeError
  end.

(** [v.get(key, default)] *)
Definition py_get_default (v : value) (key : string) (default : value) : M value :=
  match v with
  | VDict d => ret (get_default (assoc key d) default)
  | _ => raise AttributeError
  end.

(** Truthiness of an optional string argument ([None] and [''] are falsy). *)
Definition truthy_str (o : option string) : bool :=
  match o with
  | Some s => negb (s =? "")%string
  | None => false
  end.

(** ** Queue resolution *)

Inductive loop_step (A : Type) : Type :=
| Return (a : A)
| Break
| Continue.
Arguments Break {A}.
Arguments Continue {A}.

(** The body of [for attempt in range(30)] and the loop itself; the loop gives
    [Some v] when the body returned [v] and [None] when it ran to its end or
    left by [break]. *)
Fixpoint queue_loop (self : Builder) (queue_api_url : string)
    (attempts : list nat) : M (option value) :=
  match attempts with
  | [] => ret None
  | _ :: rest =>
      step <- try_except
        (queue_response <- http (session self) (Get (UPlain queue_api_url)) ;;
         if status_code queue_response =? 200 then
           queue_data <- json queue_response ;;
           executable <- py_get queue_data "executable" ;;
           found <- (if truthy executable then
                       build_number <- py_get executable "number" ;;
                       if truthy build_number then ret (Some build_number)
                       else ret None
                     else ret None) ;;
           match found with
           | Some build_number => ret (Return build_number)
           | None =>
               cancelled <- py_get queue_data "cancelled" ;;
               if truthy cancelled then ret (Return VNone)
               else time_sleep 2 ;; ret Continue
           end
         else ret Break)
        (fun _ => ret Break) ;;
      match step with
      | Return v => ret (Some v)
      | Break => ret None
      | Continue => queue_loop self queue_api_url rest
      end
  end.

(** The queue item's status URL, from the [Location] header. *)
Definition queue_api_url (self : Builder) (location0 : string) : string :=
  let jenkins_url0 := rstrip_slash (jenkins_url (config self)) in
  let queue_url :=
    if startswith location0 "http" then location0
    else if startswith location0 "/" then jenkins_url0 ++ location0
         else jenkins_url0 ++ "/" ++ location0 in
  queue_url ++ "api/json".

Definition get_build_number_from_queue (self : Builder) (response0 : response)
    (job_name : string) : M value :=
  called (fun v => v) (MGetBuildNumberFromQueue job_name)
    (try_except
       (if negb (truthy_str (location response0)) then ret VNone
        else
          let location0 := get_default (location response0) "" in
          found <- queue_loop self (queue_api_url self location0) (seq 0 30) ;;
          match found with
          | Some v => ret v
          | None => ret VNone
          end)
       (fun _ => ret VNone)).

(** ** Build trigger *)

(** [response0] is what [session.post] returns, the response at the end of
    the redirects the library follows.  A crumb the library refuses as a
    header makes the call raise before anything is sent; the [except] clause
    turns that into [None], as it does every other exception. *)
Definition trigger_build (self : Builder) (job_name : string)
    (branch0 : option string) (parameters0 : option params) : M value :=
  called (fun v => v) (MTriggerBuild job_name)
    (try_except
       (let branch1 := if truthy_str branch0 then get_default branch0 ""
                       else get_default (branch (config self)) "master" in
        let jenkins_url0 := rstrip_slash (jenkins_url (config self)) in
        headers <- (if truthy (crumb self) then
                      c <- py_item (crumb self) "crumb" ;;
                      field <- py_item (crumb self) "crumbRequestField" ;;
                      if hashable field then ret [(field, c)] else raise TypeError
                    else ret []) ;;
        let u := UBuildWithParameters jenkins_url0 job_name in
        let build_params :=
          match parameters0 with
          | Some (p :: ps) => dict_update [("BRANCH", branch1)] (p :: ps)
          | _ => [("BRANCH", branch1)]
          end in
        response0 <- session_post (session self) u build_params headers ;;
        if (status_code response0 =? 200) || (status_code response0 =? 201) then
          build_number <- get_build_number_from_queue self response0 job_name ;;
          if truthy build_number then ret build_number
          else ret (VInt (-1))
        else ret VNone)
       (fun _ => ret VNone)).

(** ** Build status and completion *)

Definition get_job_status (self : Builder) (job_name : string)
    (build_number : value) : M value :=
  called (fun v => v) (MGetJobStatus job_name build_number)
    (try_except
       (let jenkins_url0 := rstrip_slash (jenkins_url (config self)) in
        let u := if truthy build_number && negb (is_minus_one build_number)
                 then UBuild jenkins_url0 job_name build_number
                 else ULastBuild jenkins_url0 job_name in
        response0 <- http (session self) (Get u) ;;
        if status_code response0 =? 200 then json response0
        else ret VNone)
       (fun _ => ret VNone)).

(** The [while time.time() - start_time < timeout] loop.  [fuel] bounds the
    number of iterations the model follows. *)
Fixpoint wait_loop (fuel : nat) (self : Builder) (job_name : string)
    (build_number : value) (start_time timeout check_interval : Z) : M bool :=
  match fuel with
  | O => out_of_fuel
  | S fuel' =>
      t <- time_time ;;
      if t - start_time <? timeout then
        status <- get_job_status self job_name build_number ;;
        verdict <- (if truthy status then
                      result0 <- py_get status "result" ;;
                      building <- py_get_default status "building" (VBool false) ;;
                      if negb (truthy building) && truthy result0 then
                        if str_equals result0 "SUCCESS" then ret (Some true)
                        else ret (Some false)
                      else ret None
                    else ret None) ;;
        match verdict with
        | Some b => ret b
        | None =>
            time_sleep check_interval ;;
            wait_loop fuel' self job_name build_number
                      start_time timeout check_interval
        end
      else ret false
  end.

Definition wait_for_build_completion (fuel : nat) (self : Builder)
    (job_name : string) (build_number : value) : M bool :=
  called VBool (MWaitForBuildCompletion job_name build_number)
    (let timeout := get_default (timeout_seconds (config self)) 1800 in
     let check_interval := get_default (check_interval_seconds (config self)) 30 in
     start_time <- time_time ;;
     wait_loop fuel self job_name build_number start_time timeout check_interval).

(** ** External endpoint poller *)

(** [range(1, max_attempts + 1)] *)
Definition attempts_range (max_attempts0 : Z) : list Z :=
  map Z.of_nat (seq 1 (Z.to_nat max_attempts0)).

(** The body of [for attempt in range(1, max_attempts + 1)] and the loop; the
    result is [true] when the body returned [True] and [false] when the loop
    ran to its end. *)
Fixpoint poll_loop (self : Builder) (interface_url : string)
    (max_attempts0 interval expected_status : Z) (attempts : list Z) : M bool :=
  match attempts with
  | [] => ret false
  | attempt :: rest =>
      matched <- try_except
        (response0 <- http (session self) (Get (UPlain interface_url)) ;;
         if status_code response0 =? expected_status then ret true
         else ret false)
        (fun _ => ret false) ;;
      if matched then ret true
      else
        (if attempt <? max_attempts0 then time_sleep interval else ret tt) ;;
        poll_loop self interface_url max_attempts0 interval expected_status rest
  end.

Definition poll_interface (self : Builder) (interface_url : option string)
    : M bool :=
  called VBool MPollInterface
    (interface_url0 <- (if truthy_str interface_url
                        then ret (get_default interface_url "")
                        else match polling_url (config self) with
                             | Some u => ret u
                             | None => raise KeyError
                             end) ;;
     let max_attempts0 := get_default (max_attempts (config self)) 60 in
     let interval := get_default (interval_seconds (config self)) 30 in
     let expected_status := get_default (expected_status_code (config self)) 200 in
     poll_loop self interface_url0 max_attempts0 interval expected_status
               (attempts_range max_attempts0)).

(** ** Job list *)

Definition job_of_entry (e : job_entry) : list Job :=
  match e with
  | JobObject (Some n) d p =>
      [ {| name := n;
           description := get_default d n;
           parameters := get_default p [] |} ]
  | JobObject None _ _ => []
  | JobString s => [ {| name := s; description := s; parameters := [] |} ]
  | JobOther => []
  end.

Definition get_jobs_list (self : Builder) : list Job :=
  match jobs (config self) with
  | Some (e :: es) => flat_map job_of_entry (e :: es)
  | _ =>
      let first_job0 := get_default (first_job (config self)) "tdms-stock-boot" in
      let second_job0 := get_default (second_job (config self))
                           "tdms-stock-boot-slave-rights-collection" in
      {| name := first_job0; description := "第一个任务"; parameters := [] |}
      :: (if negb (second_job0 =? "")%string
             && negb (second_job0 =? first_job0)%string
          then [ {| name := second_job0; description := "第二个任务";
                    parameters := [] |} ]
          else [])
  end.

(** ** Workflow *)

(** [for remaining in range(wait_time, 0, -1): time.sleep(1)] *)
Fixpoint countdown (remaining : nat) : M unit :=
  match remaining with
  | O => ret tt
  | S r => time_sleep 1 ;; countdown r
  end.

(** [for i, job in enumerate(jobs)]: [total] is [len(jobs)], [i] the index of
    the head of [rest].  The result is [false] when the body returned [False]
    and [true] when the loop ran to its end. *)
Fixpoint workflow_loop (fuel : nat) (self : Builder) (branch0 : string)
    (enable_polling0 : bool) (wait_time : Z) (total : nat) (i : nat)
    (rest : list Job) : M bool :=
  match rest with
  | [] => ret true
  | job :: rest' =>
      let job_name := name job in
      let job_params := parameters job in
      build_number <- trigger_build self job_name (Some branch0)
                        (match job_params with
                         | [] => None
                         | _ => Some job_params
                         end) ;;
      if is_none build_number then ret false
      else
        set_tracking (Some job_name) build_number ;;
        completed <- wait_for_build_completion fuel self job_name build_number ;;
        if negb completed then ret false
        else
          set_tracking None VNone ;;
          go_on <- (if Z.of_nat i <? Z.of_nat total - 1 then
                      polled <- (if (Nat.eqb i 0) && enable_polling0
                                 then poll_interface self None
                                 else ret true) ;;
                      if negb polled then ret false
                      else
                        (if wait_time >? 0
                         then countdown (Z.to_nat wait_time)
                         else ret tt) ;;
                        ret true
                    else ret true) ;;
          if go_on
          then workflow_loop fuel self branch0 enable_polling0 wait_time
                             total (S i) rest'
          else ret false
  end.

Definition run_build_workflow (fuel : nat) (self : Builder) : M bool :=
  called VBool MRunBuildWorkflow
    (let branch0 := get_default (branch (config self)) "master" in
     let enable_polling0 := get_default (enable_polling (config self)) false in
     let wait_time := get_default (wait_between_builds (config self)) 30 in
     let jobs0 := get_jobs_list self in
     match jobs0 with
     | [] => ret false
     | _ => workflow_loop fuel self branch0 enable_polling0 wait_time
                          (List.length jobs0) 0 jobs0
     end).

(** ** Observations on a run *)

(** The calls of the library that were carried out, oldest first, each as
    the request it makes. *)
Definition requests (evs : list event) : list request :=
  flat_map (fun e => match e with
                     | EHttp _ req _ => [req]
                     | _ => []
                     end) evs.

(** The requests and sleeps of a run, without the call records. *)
Definition effects (evs : list event) : list event :=
  filter (fun e => match e with
                   | ECalled _ _ _ => false
                   | _ => true
                   end) evs.

(** What the orchestrator asked of its three collaborators, and what each
    answered. *)
Inductive step : Type :=
| Triggered (job_name : string) (r : result value)
| Waited (job_name : string) (build_number : value) (r : result value)
| Polled (r : result value).

Definition steps (evs : list event) : list step :=
  flat_map (fun e => match e with
                     | ECalled _ (MTriggerBuild j) r => [Triggered j r]
                     | ECalled _ (MWaitForBuildCompletion j n) r => [Waited j n r]
                     | ECalled _ MPollInterface r => [Polled r]
                     | _ => []
                     end) evs.

(** The jobs whose trigger was invoked, in order. *)
Fixpoint triggered (ss : list step) : list string :=
  match ss with
  | [] => []
  | Triggered j _ :: ss' => j :: triggered ss'
  | _ :: ss' => triggered ss'
  end.

(** What each trigger returned, in order. *)
Fixpoint trigger_results (ss : list step) : list (string * result value) :=
  match ss with
  | [] => []
  | Triggered j r :: ss' => (j, r) :: trigger_results ss'
  | _ :: ss' => trigger_results ss'
  end.

(** What each completion wait returned, in order. *)
Fixpoint wait_results (ss : list step) : list (string * result value) :=
  match ss with
  | [] => []
  | Waited j _ r :: ss' => (j, r) :: wait_results ss'
  | _ :: ss' => wait_results ss'
  end.

(** What each external poll returned, in order. *)
Fixpoint poll_results (ss : list step) : list (result value) :=
  match ss with
  | [] => []
  | Polled r :: ss' => r :: poll_results ss'
  | _ :: ss' => poll_results ss'
  end.

(** A result of type [bool] as the call record shows it. *)
Definition shown (r : result bool) : result value :=
  match r with
  | Ok b => Ok (VBool b)
  | Raised e => Raised e
  | OutOfFuel => OutOfFuel
  end.

(** The status snapshots a run of the completion poller looked at, each with
    the time its poll was started. *)
Definition snapshots (evs : list event) : list (Z * value) :=
  flat_map (fun e => match e with
                     | ECalled t (MGetJobStatus _ _) (Ok v) => [(t, v)]
                     | _ => []
                     end) evs.

(** [building] false (or absent) and a [result] present, on a snapshot. *)
Definition terminal (status : value) : bool :=
  match status with
  | VDict (f :: d) =>
      negb (truthy (get_default (assoc "building" (f :: d)) (VBool false)))
      && truthy (get_default (assoc "result" (f :: d)) VNone)
  | _ => false
  end.

Definition result_of (status : value) : value :=
  match status with
  | VDict d => get_default (assoc "result" d) VNone
  | _ => VNone
  end.

(** Success and failure as the completion poller reads a snapshot. *)
Definition succeeded (status : value) : bool :=
  terminal status && str_equals (result_of status) "SUCCESS".

Definition failed (status : value) : bool :=
  terminal status && negb (str_equals (result_of status) "SUCCESS").

Definition is_object (v : value) : bool :=
  match v with
  | VDict _ => true
  | _ => false
  end.

(** ** The external endpoint *)

(** The answer has the expected status; a transport failure never has. *)
Definition answer_matches (expected_status : Z) (a : option response) : bool :=
  match a with
  | Some r => status_code r =? expected_status
  | None => false
  end.

(** [interface_url or self.config['polling_url']], when there is one. *)
Definition polling_target (self : Builder) (interface_url : option string)
  : option string :=
  if truthy_str interface_url then interface_url
  else polling_url (config self).

(** The HTTP exchanges of a run. *)
Definition exchanges (evs : list event) : list event :=
  filter (fun e => match e with
                   | EHttp _ _ _ => true
                   | _ => false
                   end) evs.

(** [pause] between any two consecutive elements, and nowhere else. *)
Fixpoint interleaved (pause : event) (l : list event) : list event :=
  match l with
  | [] => []
  | x :: rest =>
      match rest with
      | [] => [x]
      | _ => x :: pause :: interleaved pause rest
      end
  end.

(** ** Answers of the queue item endpoint *)

(** No build number under [executable] yet. *)
Definition no_number (queue_data : list (string * value)) : bool :=
  match assoc "executable" queue_data with
  | None => true
  | Some (VDict executable) =>
      negb (truthy (get_default (assoc "number" executable) VNone))
  | Some other => negb (truthy other)
  end.

(** Status 200, no build number yet and not cancelled. *)
Definition is_pending (a : option response) : bool :=
  match a with
  | Some r =>
      (status_code r =? 200)
      && match json_body r with
         | Some (VDict queue_data) =>
             no_number queue_data
             && negb (truthy (get_default (assoc "cancelled" queue_data) VNone))
         | _ => false
         end
  | None => false
  end.

(** Status 200 with an [executable] object whose [number] is a build number. *)
Definition resolved_number (a : option response) : option value :=
  match a with
  | Some r =>
      if status_code r =? 200 then
        match json_body r with
        | Some (VDict queue_data) =>
            match assoc "executable" queue_data with
            | Some (VDict executable) =>
                match assoc "number" executable with
                | Some n => if truthy n then Some n else None
                | None => None
                end
            | _ => None
            end
        | _ => None
        end
      else None
  | None => None
  end.

(** The poll ends in an exception: a transport failure, a body that is not
    JSON or not an object, or an [executable] that is truthy and not an
    object. *)
Definition poll_raises (a : option response) : bool :=
  match a with
  | None => true
  | Some r =>
      (status_code r =? 200)
      && match json_body r with
         | None => true
         | Some (VDict queue_data) =>
             match assoc "executable" queue_data with
             | None => false
             | Some (VDict _) => false
             | Some other => truthy other
             end
         | Some _ => true
         end
  end.

(** A transport failure, or a status other than 200. *)
Definition is_rejected (a : option response) : bool :=
  match a with
  | Some r => negb (status_code r =? 200)
  | None => true
  end.

(** ** Auxiliary descriptions used in the proofs *)

(** The URL [get_job_status] asks. *)
Definition status_url (self : Builder) (job : string) (bn : value) : url :=
  if truthy bn && negb (is_minus_one bn)
  then UBuild (rstrip_slash (jenkins_url (config self))) job bn
  else ULastBuild (rstrip_slash (jenkins_url (config self))) job.

(** What [get_job_status] makes of an answer. *)
Definition status_of_answer (a : option response) : value :=
  match a with
  | Some r => if status_code r =? 200
              then match json_body r with Some v => v | None => VNone end
              else VNone
  | None => VNone
  end.

(** What one pass of the completion loop concludes from a snapshot:
    a verdict, nothing yet, or the [AttributeError] of [status.get] on a
    truthy value that is not a [dict]. *)
Definition verdict_of (status : value) : result (option bool) :=
  if terminal status then Ok (Some (str_equals (result_of status) "SUCCESS"))
  else match status with
       | VDict _ => Ok None
       | _ => if truthy status then Raised AttributeError else Ok None
       end.

(** The headers [trigger_build] prepares from the crumb, or the exception
    the preparation ends with. *)
Definition prepared_headers (c : value) : exn + list (value * value) :=
  if truthy c then
    match c with
    | VDict d =>
        match assoc "crumb" d with
        | Some token =>
            match assoc "crumbRequestField" d with
            | Some field => if hashable field then inr [(field, token)]
                            else inl TypeError
            | None => inl KeyError
            end
        | None => inl KeyError
        end
    | _ => inl TypeError
    end
  else inr [].

(** The headers [trigger_build] passes to a [session.post] that is carried
    out, or the exception that keeps the call from being carried out: that
    of the preparation, or that of the library when it refuses a header. *)
Definition crumb_headers (c : value) : exn + list (value * value) :=
  match prepared_headers c with
  | inr headers =>
      match refused headers with
      | Some e => inl e
      | None => inr headers
      end
  | inl e => inl e
  end.

(** The form data [trigger_build] posts. *)
Definition build_params (self : Builder) (branch0 : option string)
    (parameters0 : option params) : params :=
  let branch1 := if truthy_str branch0 then get_default branch0 ""
                 else get_default (branch (config self)) "master" in
  match parameters0 with
  | Some (p :: ps) => dict_update [("BRANCH", branch1)] (p :: ps)
  | _ => [("BRANCH", branch1)]
  end.

(** The [session.post] of [trigger_build], once the headers are prepared. *)
Definition trigger_request (self : Builder) (job_name : string)
    (branch0 : option string) (parameters0 : option params)
    (headers : list (value * value)) : request :=
  Post (UBuildWithParameters (rstrip_slash (jenkins_url (config self))) job_name)
       (build_params self branch0 parameters0) headers.

(** The trigger was accepted: status 200 or 201. *)
Definition accepted (r : response) : bool :=
  (status_code r =? 200) || (status_code r =? 201).

(** What one pass of the queue loop does with an answer. *)
Definition queue_verdict (a : option response) : loop_step value :=
  match a with
  | None => Break
  | Some r =>
      if status_code r =? 200 then
        match json_body r with
        | Some (VDict queue_data) =>
            let executable := get_default (assoc "executable" queue_data) VNone in
            let cancelled := get_default (assoc "cancelled" queue_data) VNone in
            let otherwise := if truthy cancelled then Return VNone else Continue in
            if truthy executable then
              match executable with
              | VDict ex =>
                  let n := get_default (assoc "number" ex) VNone in
                  if truthy n then Return n else otherwise
              | _ => Break
              end
            else otherwise
        | _ => Break
        end
      else Break
  end.

(** The attempts still to make are [j, j+1, ..., j+m-1], and the last of
    them is [max_attempts0]. *)
Definition counts_up_to_max (max_attempts0 : Z) (j m : nat) : Prop :=
  (0 < m)%nat -> Z.of_nat (j + m) - 1 = max_attempts0.

(** The protocol of the orchestrator, as the steps it takes from job [i] on
    over the remaining job names, and the result it ends with.  [polling] is
    [enable_polling]. *)
Inductive workflow_steps (polling : bool)
  : nat -> list string -> list step -> result bool -> Prop :=
| WS_done i :
    workflow_steps polling i [] [] (Ok true)
| WS_trigger_failed i j rest :
    workflow_steps polling i (j :: rest) [Triggered j (Ok VNone)] (Ok false)
| WS_wait_failed i j rest n r :
    is_none n = false -> r <> Ok true ->
    workflow_steps polling i (j :: rest)
      [Triggered j (Ok n); Waited j n (shown r)] r
| WS_poll_failed j j' rest n r :
    is_none n = false -> polling = true -> r <> Ok true ->
    workflow_steps polling 0 (j :: j' :: rest)
      [Triggered j (Ok n); Waited j n (Ok (VBool true)); Polled (shown r)] r
| WS_polled j j' rest n ss r :
    is_none n = false -> polling = true ->
    workflow_steps polling 1 (j' :: rest) ss r ->
    workflow_steps polling 0 (j :: j' :: rest)
      (Triggered j (Ok n) :: Waited j n (Ok (VBool true))
       :: Polled (Ok (VBool true)) :: ss) r
| WS_next i j rest n ss r :
    is_none n = false ->
    (i = 0%nat -> polling = false \/ rest = []) ->
    workflow_steps polling (S i) rest ss r ->
    workflow_steps polling i (j :: rest)
      (Triggered j (Ok n) :: Waited j n (Ok (VBool true)) :: ss) r.

(** The tracked build of a state, and how the steps of the orchestrator move
    it: a trigger that returns a build number sets it, a completion wait
    that returns [True] clears it, nothing else touches it. *)
Definition tracking (s : State) : option string * value :=
  (current_job s, current_build_number s).

Definition track (h : option string * value) (st : step)
  : option string * value :=
  match st with
  | Triggered j (Ok n) => if is_none n then h else (Some j, n)
  | Waited _ _ (Ok (VBool true)) => (None, VNone)
  | _ => h
  end.

Definition tracking_after (ss : list step) (h : option string * value)
  : option string * value :=
  fold_left track ss h.

(** Each pass of a loop that sends one request and then sleeps for
    [interval] seconds takes time. *)
Definition time_passes (env : Env) (interval : Z) : Prop :=
  forall n, 0 < Z.of_nat (latency env n) + interval.

(** Every JSON body the peer sends with status 200 is an object. *)
Definition sends_objects (env : Env) : Prop :=
  forall n req r v,
    respond env n req = Some r -> status_code r = 200 ->
    json_body r = Some v -> is_object v = true.

(** The snapshots of a run of the completion loop: none of them terminal,
    except that the last one may be, and then it carries the verdict. *)
Inductive poll_history : list (Z * value) -> option bool -> Prop :=
| PH_nil : poll_history [] None
| PH_last t v :
    terminal v = true ->
    poll_history [(t, v)] (Some (str_equals (result_of v) "SUCCESS"))
| PH_cons t v l o :
    terminal v = false -> poll_history l o -> poll_history ((t, v) :: l) o.

(** The clock when status query number [k] (counted from 0) of a completion
    wait begins, for a wait that gets that far.  The wait begins at [start]
    with [made] calls of the library behind it, and every round takes the
    latency of its query and the sleep that follows it. *)
Fixpoint poll_time (env : Env) (check_interval start : Z) (made k : nat) : Z :=
  match k with
  | O => start
  | S k' =>
      poll_time env check_interval
                (start + Z.of_nat (latency env made) + check_interval)
                (S made) k'
  end.

(** What status query number [k] of that wait gives [get_job_status]: what
    it makes of the answer to call number [made + k]. *)
Definition poll_status (self : Builder) (job : string) (bn : value)
    (made k : nat) : value :=
  status_of_answer
    (respond (session self) (made + k) (Get (status_url self job bn))).

(** ** Sample configurations and peers *)

Definition idle : State :=
  {| current_job := None; current_build_number := VNone; now := 0; sent := 0 |}.

Definition sample_config (polling : bool) (job_list : option (list job_entry))
  : Config :=
  {| jenkins_url := "http://ci.example/";
     username := "builder";
     branch := None;
     enable_polling := Some polling;
     polling_url := Some "http://health.example/ready";
     wait_between_builds := Some 1;
     timeout_seconds := Some 10;
     check_interval_seconds := Some 2;
     max_attempts := Some 3;
     interval_seconds := Some 1;
     expected_status_code := None;
     jobs := job_list;
     first_job := None;
     second_job := None |}.

Definition plain_response (code : Z) : response :=
  {| status_code := code; location := None; json_body := None |}.

Definition queued_response (loc : string) : response :=
  {| status_code := 201; location := Some loc; json_body := None |}.

Definition json_response (v : value) : response :=
  {| status_code := 200; location := None; json_body := Some v |}.

Definition queue_item_waiting : response :=
  json_response (VDict [("why", VStr "waiting for an executor")]).

Definition queue_item_started (number : Z) : response :=
  json_response (VDict [("executable", VDict [("number", VInt number)])]).

Definition build_snapshot (number : Z) (building : bool) (result0 : value)
  : response :=
  json_response (VDict [("number", VInt number); ("building", VBool building);
                        ("result", result0)]).

(** A queue item that gets its build number 42 on the third poll. *)
Definition queue_peer : Env :=
  {| respond := fun n _ => if (n <? 2)%nat then Some queue_item_waiting
                           else Some (queue_item_started 42);
     latency := fun _ => 0%nat |}.

(** A build that is seen running three times and then succeeded. *)
Definition build_peer : Env :=
  {| respond := fun n _ => if (n <? 3)%nat then Some (build_snapshot 42 true VNone)
                           else Some (build_snapshot 42 false (VStr "SUCCESS"));
     latency := fun _ => 0%nat |}.

(** An endpoint that answers 500, then fails to connect, then answers 200. *)
Definition flaky_endpoint : Env :=
  {| respond := fun n _ => match n with
                           | O => Some (plain_response 500)
                           | S O => None
                           | _ => Some (plain_response 200)
                           end;
     latency := fun _ => 0%nat |}.

(** A server that accepts every trigger without a [Location] header, reports
    every build as finished with [result0], and whose health endpoint answers
    with status [health]. *)
Definition workflow_peer (result0 : string) (health : Z) : Env :=
  {| respond := fun _ req =>
       match req with
       | Post _ _ _ => Some (plain_response 201)
       | Get (UPlain _) => Some (plain_response health)
       | Get _ => Some (build_snapshot 7 false (VStr result0))
       end;
     latency := fun _ => 1%nat |}.

Definition sample_builder (cfg : Config) (peer : Env) : Builder :=
  {| config := cfg; crumb := VNone; session := peer |}.


(** * Start-up, interruption and the command line

    The rest of the class and [main].  The methods of this part are not in
    [method]; they leave no call record.  The [Authorization] header that
    [__init__] puts on the session, the logger and the registration of the
    signal handlers are not part of a request or of the state followed here
    and are left out. *)

(** ** Text *)

(** The digits of a decimal number, most significant first. *)
Fixpoint digits (d : Decimal.uint) : string :=
  match d with
  | Decimal.Nil => ""
  | Decimal.D0 r => String "0" (digits r)
  | Decimal.D1 r => String "1" (digits r)
  | Decimal.D2 r => String "2" (digits r)
  | Decimal.D3 r => String "3" (digits r)
  | Decimal.D4 r => String "4" (digits r)
  | Decimal.D5 r => String "5" (digits r)
  | Decimal.D6 r => String "6" (digits r)
  | Decimal.D7 r => String "7" (digits r)
  | Decimal.D8 r => String "8" (digits r)
  | Decimal.D9 r => String "9" (digits r)
  end.

(** [str(z)] for an integer *)
Definition str_of_int (z : Z) : string :=
  match z with
  | Z0 => "0"
  | Zpos p => digits (Pos.to_uint p)
  | Zneg p => "-" ++ digits (Pos.to_uint p)
  end.

Definition double_quote : ascii := ascii_of_nat 34.

Definition hex_digit (n : nat) : ascii :=
  nth n (list_ascii_of_string "0123456789abcdef") "0"%char.

(** One character of [repr(s)], inside the quotes [quote]. *)
Definition repr_char (quote c : ascii) : string :=
  let n := nat_of_ascii c in
  if Ascii.eqb c quote || Ascii.eqb c "\" then String "\" (String c "")
  else if (n =? 9)%nat then "\t"
  else if (n =? 10)%nat then "\n"
  else if (n =? 13)%nat then "\r"
  else if (n <? 32)%nat || (n =? 127)%nat
       then "\x" ++ String (hex_digit (n / 16)) (String (hex_digit (n mod 16)) "")
       else String c "".

Fixpoint repr_chars (quote : ascii) (s : string) : string :=
  match s with
  | EmptyString => ""
  | String c r => repr_char quote c ++ repr_chars quote r
  end.

(** [repr(s)] for a string: single quotes, unless the string holds a single
    quote and no double quote.  A character outside ASCII is copied as it is
    (Python escapes those that are not printable). *)
Definition repr_str (s : string) : string :=
  let quote := if contains_char "'" s && negb (contains_char double_quote s)
               then double_quote else "'"%char in
  String quote (repr_chars quote s ++ String quote "").

(** [repr(v)] *)
Fixpoint py_repr (v : value) : string :=
  match v with
  | VNone => "None"
  | VBool true => "True"
  | VBool false => "False"
  | VInt z => str_of_int z
  | VStr s => repr_str s
  | VList l => "[" ++ String.concat ", " (map py_repr l) ++ "]"
  | VDict d =>
      "{" ++ String.concat ", "
               (map (fun kv => match kv with
                               | (k, x) => repr_str k ++ ": " ++ py_repr x
                               end) d) ++ "}"
  end.

(** [str(v)], as an f-string renders [{v}] *)
Definition py_str (v : value) : string :=
  match v with
  | VStr s => s
  | _ => py_repr v
  end.

(** [needle in s] for strings *)
Definition is_substring (needle s : string) : bool :=
  match String.index 0 needle s with
  | Some _ => true
  | None => false
  end.

(** [key in v]: a key of a [dict], an element of a [list], a substring of a
    [str]; the other values are not iterable. *)
Definition py_in (key : string) (v : value) : M bool :=
  match v with
  | VDict d => ret (match assoc key d with Some _ => true | None => false end)
  | VList l => ret (existsb (fun x => str_equals x key) l)
  | VStr s => ret (is_substring key s)
  | _ => raise TypeError
  end.

(** ** Leaving the process *)

(** How a call that may end the process comes back: it returns, or
    [sys.exit(code)] was called.  [SystemExit] is not an [Exception]: an
    [except Exception] clause lets it pass. *)
Inductive completion (A : Type) : Type :=
| Normal (a : A)
| SystemExit (code : Z).
Arguments SystemExit {A} code.

(** [sys.exit(code)] *)
Definition sys_exit {A : Type} (code : Z) : M (completion A) :=
  ret (SystemExit code).

(** Sequencing of calls that may end the process. *)
Definition and_then {A B : Type} (m : M (completion A))
    (k : A -> M (completion B)) : M (completion B) :=
  c <- m ;;
  match c with
  | Normal a => k a
  | SystemExit code => ret (SystemExit code)
  end.

(** ** The configuration file *)

(** What is found at the path of the configuration file: nothing, a file
    that cannot be read as JSON, or a JSON value.  [typed] is the record the
    methods read the value as. *)
Inductive config_file : Type :=
| Absent
| Broken
| Parsed (raw : value) (typed : Config).

(** [for field in required_fields: if field not in config: sys.exit(1)] *)
Fixpoint check_required (required_fields : list string) (config0 : value)
  : M (completion unit) :=
  match required_fields with
  | [] => ret (Normal tt)
  | field :: rest =>
      present <- py_in field config0 ;;
      if negb present then sys_exit 1
      else check_required rest config0
  end.

Definition load_config (config_file0 : config_file) : M (completion Config) :=
  match config_file0 with
  | Absent => sys_exit 1
  | Broken => try_except (raise JSONDecodeError) (fun _ => sys_exit 1)
  | Parsed config0 typed =>
      try_except
        (and_then
           (check_required ["jenkins_url"; "username"; "password_or_token"]
                           config0)
           (fun _ =>
              polling <- py_get_default config0 "enable_polling" (VBool false) ;;
              and_then
                (if truthy polling then
                   present <- py_in "polling_url" config0 ;;
                   if negb present then sys_exit 1 else ret (Normal tt)
                 else ret (Normal tt))
                (fun _ => ret (Normal typed))))
        (fun _ => sys_exit 1)
  end.

(** ** The crumb, the connection test and the stop request *)

Definition get_crumb (self : Builder) : M value :=
  try_except
    (let jenkins_url0 := rstrip_slash (jenkins_url (config self)) in
     let crumb_url := jenkins_url0 ++ "/crumbIssuer/api/json" in
     response0 <- http (session self) (Get (UPlain crumb_url)) ;;
     if status_code response0 =? 200 then
       crumb_data <- json response0 ;;
       (* the log line reads crumb_data.get('crumbRequestField') *)
       py_get crumb_data "crumbRequestField" ;;
       ret crumb_data
     else ret VNone)
    (fun _ => ret VNone).

Definition test_connection (self : Builder) : M bool :=
  try_except
    (let jenkins_url0 := rstrip_slash (jenkins_url (config self)) in
     let u := jenkins_url0 ++ "/api/json" in
     response0 <- http (session self) (Get (UPlain u)) ;;
     if status_code response0 =? 200 then
       data <- json response0 ;;
       (* the log line reads data.get('version', 'Unknown') *)
       py_get_default data "version" (VStr "Unknown") ;;
       ret true
     else ret false)
    (fun _ => ret false).

(** [response0] is what [session.post] returns, the response at the end of
    the redirects the library follows; a header the library refuses makes
    the call raise before anything is sent, which gives [False]. *)
Definition stop_build (self : Builder) (job_name : string)
    (build_number : value) : M bool :=
  try_except
    (let jenkins_url0 := rstrip_slash (jenkins_url (config self)) in
     let u := jenkins_url0 ++ "/job/" ++ job_name ++ "/"
              ++ py_str build_number ++ "/stop" in
     headers <- (if truthy (crumb self) then
                   c <- py_item (crumb self) "crumb" ;;
                   field <- py_item (crumb self) "crumbRequestField" ;;
                   if hashable field then ret [(field, c)] else raise TypeError
                 else ret []) ;;
     response0 <- session_post (session self) (UPlain u) [] headers ;;
     if (status_code response0 =? 200) || (status_code response0 =? 201)
        || (status_code response0 =? 302)
     then ret true
     else ret false)
    (fun _ => ret false).

(** ** Construction *)

Definition __init__ (config_file0 : config_file) (session0 : Env)
  : M (completion Builder) :=
  and_then (load_config config_file0)
    (fun config0 =>
       set_tracking None VNone ;;
       crumb0 <- get_crumb {| config := config0; crumb := VNone;
                              session := session0 |} ;;
       ret (Normal {| config := config0; crumb := crumb0;
                      session := session0 |})).

(** ** Interruption *)

(** [self.current_job] and [self.current_build_number] *)
Definition get_tracking : M (option string * value) :=
  fun s => Outcome (Ok (current_job s, current_build_number s)) s [].

(** [choice in ['y', 'yes', ...]] *)
Definition one_of (choice : string) (words : list string) : bool :=
  existsb (String.eqb choice) words.

(** The [while True] loop of the question.  [answers] are the lines still to
    come on standard input, each as [input(...).strip().lower()] gives it;
    when they have run out [input] raises [EOFError], which the bare
    [except] around the loop catches. *)
Fixpoint ask_loop (self : Builder) (answers : list string) : M unit :=
  match answers with
  | [] => ret tt
  | choice :: rest =>
      if one_of choice ["y"; "yes"; "是"] then
        tracked <- get_tracking ;;
        stop_build self
          (match fst tracked with Some j => j | None => "None" end)
          (snd tracked) ;;
        ret tt
      else if one_of choice ["n"; "no"; "否"] then ret tt
      else ask_loop self rest
  end.

Definition handle_interrupt (self : Builder) (answers : list string)
  : M (completion unit) :=
  tracked <- get_tracking ;;
  (if truthy_str (fst tracked) && truthy (snd tracked)
   then try_except (ask_loop self answers) (fun _ => ret tt)
   else ret tt) ;;
  sys_exit 1.

(** ** The command line *)

(** The parsed arguments: [--config], [--test], [--dry-run]. *)
Record Args : Type := {
  args_config : string;
  args_test : bool;
  args_dry_run : bool
}.

(** [main]; [files] is the file system, [network] the peer of every
    request.  The workflow gets [fuel] as above.  No [KeyboardInterrupt] is
    raised in the runs followed here, so its clause is left out. *)
Definition main (fuel : nat) (args : Args) (files : string -> config_file)
    (network : Env) : M (completion unit) :=
  try_except
    (and_then (__init__ (files (args_config args)) network)
       (fun jenkins_builder =>
          and_then
            (if args_test args then
               connected <- test_connection jenkins_builder ;;
               if connected then sys_exit 0 else sys_exit 1
             else ret (Normal tt))
            (fun _ =>
               and_then
                 (if args_dry_run args then
                    (* prints the configuration and the job list *)
                    let jobs0 := get_jobs_list jenkins_builder in
                    sys_exit 0
                  else ret (Normal tt))
                 (fun _ =>
                    success <- run_build_workflow fuel jenkins_builder ;;
                    if success then sys_exit 0 else sys_exit 1))))
    (fun _ => sys_exit 1).

(** ** Auxiliary descriptions of this part *)

(** What [get_crumb] makes of the answer of the crumb issuer. *)
Definition crumb_of_answer (a : option response) : value :=
  match a with
  | Some r =>
      if status_code r =? 200 then
        match json_body r with
        | Some (VDict d) => VDict d
        | _ => VNone
        end
      else VNone
  | None => VNone
  end.

(** The URLs of this part. *)
Definition crumb_url (self : Builder) : url :=
  UPlain (rstrip_slash (jenkins_url (config self)) ++ "/crumbIssuer/api/json").

Definition api_url (self : Builder) : url :=
  UPlain (rstrip_slash (jenkins_url (config self)) ++ "/api/json").

Definition stop_url (self : Builder) (job_name : string) (build_number : value)
  : url :=
  UPlain (rstrip_slash (jenkins_url (config self)) ++ "/job/" ++ job_name
          ++ "/" ++ py_str build_number ++ "/stop").

(** The stop request was accepted: status 200, 201 or 302. *)
Definition stopped (r : response) : bool :=
  (status_code r =? 200) || (status_code r =? 201) || (status_code r =? 302).

(** What the question ends with: [Some true] for a yes, [Some false] for a
    no, [None] when the input ends before either. *)
Fixpoint decision (answers : list string) : option bool :=
  match answers with
  | [] => None
  | choice :: rest =>
      if one_of choice ["y"; "yes"; "是"] then Some true
      else if one_of choice ["n"; "no"; "否"] then Some false
      else decision rest
  end.

(** A state after [n] requests at time [t] in which nothing is tracked. *)
Definition untracked (t : Z) (n : nat) : State :=
  {| current_job := None; current_build_number := VNone; now := t; sent := n |}.

(** The state after one request to [env]. *)
Definition after_request (env : Env) (s : State) : State :=
  {| current_job := current_job s;
     current_build_number := current_build_number s;
     now := now s + Z.of_nat (latency env (sent s));
     sent := S (sent s) |}.

(** What [test_connection] makes of an answer: status 200 and a JSON object. *)
Definition connected (a : option response) : bool :=
  match a with
  | Some r =>
      (status_code r =? 200)
      && match json_body r with
         | Some v => is_object v
         | None => false
         end
  | None => false
  end.

(** [key in v] holds and raises nothing. *)
Definition has_key (key : string) (v : value) : bool :=
  match v with
  | VDict d => match assoc key d with Some _ => true | None => false end
  | _ => false
  end.

(** What [load_config] asks of the JSON value in the file. *)
Definition valid_config (raw : value) : bool :=
  has_key "jenkins_url" raw && has_key "username" raw
  && has_key "password_or_token" raw
  && match raw with
     | VDict d =>
         negb (truthy (get_default (assoc "enable_polling" d) (VBool false)))
         || has_key "polling_url" raw
     | _ => false
     end.

(** What [load_config] comes back with. *)
Definition loaded (f : config_file) : completion Config :=
  match f with
  | Parsed raw typed => if valid_config raw then Normal typed else SystemExit 1
  | _ => SystemExit 1
  end.

(** The object while [__init__] fetches its crumb, and once it is made. *)
Definition unfinished (cfg : Config) (env : Env) : Builder :=
  {| config := cfg; crumb := VNone; session := env |}.

Definition constructed (cfg : Config) (env : Env) (a : option response)
  : Builder :=
  {| config := cfg; crumb := crumb_of_answer a; session := env |}.

(** The job name [handle_interrupt] passes to [stop_build]. *)
Definition tracked_name (s : State) : string :=
  match current_job s with
  | Some j => j
  | None => "None"
  end.

(** A job and a build number are tracked. *)
Definition is_tracking (s : State) : bool :=
  truthy_str (current_job s) && truthy (current_build_number s).

(** The exit status [main] gives a result of the workflow. *)
Definition exit_status (r : result bool) : result (completion unit) :=
  match r with
  | Ok true => Ok (SystemExit 0)
  | Ok false => Ok (SystemExit 1)
  | Raised _ => Ok (SystemExit 1)
  | OutOfFuel => OutOfFuel
  end.

(** ** Sample files and peers of this part *)

(** A configuration file with the required keys, read as [cfg]. *)
Definition sample_file (cfg : Config) : config_file :=
  Parsed (VDict [("jenkins_url", VStr "http://ci.example/");
                 ("username", VStr "builder");
                 ("password_or_token", VStr "secret")]) cfg.

Definition sample_crumb : value :=
  VDict [("crumbRequestField", VStr "Jenkins-Crumb"); ("crumb", VStr "0a1b")].

(** A server with CSRF protection: it gives out [sample_crumb], answers the
    other GETs of plain URLs with [probe], accepts every POST without a
    [Location] header and reports every build as finished with [result0]. *)
Definition protected_peer (probe : response) (result0 : string) : Env :=
  {| respond := fun _ req =>
       match req with
       | Post _ _ _ => Some (plain_response 201)
       | Get (UPlain u) =>
           if (u =? "http://ci.example/crumbIssuer/api/json")%string
           then Some (json_response sample_crumb)
           else Some probe
       | Get _ => Some (build_snapshot 7 false (VStr result0))
       end;
     latency := fun _ => 1%nat |}.

(** A state in which build [number] of job [boot] is tracked. *)
Definition tracking_boot (number : value) : State :=
  {| current_job := Some "boot"; current_build_number := number;
     now := 100; sent := 5 |}.

(** A file system that holds [sample_file cfg] at every path. *)
Definition sample_files (cfg : Config) : string -> config_file :=
  fun _ => sample_file cfg.

Definition sample_args (test dry_run : bool) : Args :=
  {| args_config := "jenkins_config.json";
     args_test := test;
     args_dry_run := dry_run |}.

(** A server like [workflow_peer] whose build status is a JSON array. *)
Definition odd_status_peer : Env :=
  {| respond := fun _ req =>
       match req with
       | Post _ _ _ => Some (plain_response 201)
       | Get (UPlain _) => Some (plain_response 200)
       | Get _ => Some (json_response (VList [VStr "SUCCESS"]))
       end;
     latency := fun _ => 1%nat |}.

(** [cfg] with other settings of the completion wait. *)
Definition with_build_config (cfg : Config) (timeout check_interval : Z)
  : Config :=
  {| jenkins_url := jenkins_url cfg;
     username := username cfg;
     branch := branch cfg;
     enable_polling := enable_polling cfg;
     polling_url := polling_url cfg;
     wait_between_builds := wait_between_builds cfg;
     timeout_seconds := Some timeout;
     check_interval_seconds := Some check_interval;
     max_attempts := max_attempts cfg;
     interval_seconds := interval_seconds cfg;
     expected_status_code := expected_status_code cfg;
     jobs := jobs cfg;
     first_job := first_job cfg;
     second_job := second_job cfg |}.

(** [cfg] without a [polling_url]. *)
Definition without_polling_url (cfg : Config) : Config :=
  {| jenkins_url := jenkins_url cfg;
     username := username cfg;
     branch := branch cfg;
     enable_polling := enable_polling cfg;
     polling_url := None;
     wait_between_builds := wait_between_builds cfg;
     timeout_seconds := timeout_seconds cfg;
     check_interval_seconds := check_interval_seconds cfg;
     max_attempts := max_attempts cfg;
     interval_seconds := interval_seconds cfg;
     expected_status_code := expected_status_code cfg;
     jobs := jobs cfg;
     first_job := first_job cfg;
     second_job := second_job cfg |}.

(** An entry of [jobs] that [get_jobs_list] keeps: a string, or an object
    with a [name]. *)
Definition usable (e : job_entry) : bool :=
  match e with
  | JobString _ => true
  | JobObject (Some _) _ _ => true
  | _ => false
  end.

(** The branch [trigger_build] builds. *)
Definition branch_of (self : Builder) (branch0 : option string) : string :=
  if truthy_str branch0 then get_default branch0 ""
  else get_default (branch (config self)) "master".

(** The sleeps of a run, in seconds, oldest first. *)
Definition pauses (evs : list event) : list Z :=
  flat_map (fun e => match e with
                     | ESleep secs => [secs]
                     | _ => []
                     end) evs.

(** The object with another [jenkins_url]. *)
Definition with_jenkins_url (self : Builder) (u : string) : Builder :=
  {| config :=
       {| jenkins_url := u;
          username := username (config self);
          branch := branch (config self);
          enable_polling := enable_polling (config self);
          polling_url := polling_url (config self);
          wait_between_builds := wait_between_builds (config self);
          timeout_seconds := timeout_seconds (config self);
          check_interval_seconds := check_interval_seconds (config self);
          max_attempts := max_attempts (config self);
          interval_seconds := interval_seconds (config self);
          expected_status_code := expected_status_code (config self);
          jobs := jobs (config self);
          first_job := first_job (config self);
          second_job := second_job (config self) |};
     crumb := crumb self;
     session := session self |}.

(** A crumb whose value is a number, as a server may send it. *)
Definition numeric_crumb : value :=
  VDict [("crumbRequestField", VStr "Jenkins-Crumb"); ("crumb", VInt 12345)].

(** A server that gives out [numeric_crumb] and accepts every POST. *)
Definition numeric_peer : Env :=
  {| respond := fun _ req =>
       match req with
       | Get (UPlain _) => Some (json_response numeric_crumb)
       | _ => Some (plain_response 201)
       end;
     latency := fun _ => 1%nat |}.
(** * Properties *)

(** ** The monad *)

Lemma res_bind {A B} (m : M A) (k : A -> M B) s :
  res (bind m k s) =
  match res (m s) with
  | Ok a => res (k a (final (m s)))
  | Raised e => Raised e
  | OutOfFuel => OutOfFuel
  end.
Proof.
  unfold bind. destruct (m s) as [[a|e|] s1 e1]; cbn; try reflexivity.
  destruct (k a s1); reflexivity.
Qed.

Lemma final_bind {A B} (m : M A) (k : A -> M B) s :
  final (bind m k s) =
  match res (m s) with
  | Ok a => final (k a (final (m s)))
  | _ => final (m s)
  end.
Proof.
  unfold bind. destruct (m s) as [[a|e|] s1 e1]; cbn; try reflexivity.
  destruct (k a s1); reflexivity.
Qed.

Lemma emitted_bind {A B} (m : M A) (k : A -> M B) s :
  emitted (bind m k s) =
  (emitted (m s) ++ match res (m s) with
                    | Ok a => emitted (k a (final (m s)))
                    | _ => []
                    end)%list.
Proof.
  unfold bind. destruct (m s) as [[a|e|] s1 e1]; cbn;
    try (now rewrite app_nil_r).
  destruct (k a s1); reflexivity.
Qed.

Lemma bind_run {A B} {m : M A} (k : A -> M B) {s r s1 e1} :
  m s = Outcome r s1 e1 ->
  bind m k s =
  match r with
  | Ok a => Outcome (res (k a s1)) (final (k a s1)) (e1 ++ emitted (k a s1))
  | Raised e => Outcome (Raised e) s1 e1
  | OutOfFuel => Outcome OutOfFuel s1 e1
  end.
Proof.
  intros H. unfold bind. rewrite H. destruct r; try reflexivity.
  destruct (k a s1); reflexivity.
Qed.

Lemma bind_silent {A B} {m : M A} (k : A -> M B) {s s1 a} :
  m s = Outcome (Ok a) s1 [] -> bind m k s = k a s1.
Proof.
  intros H. rewrite (bind_run _ H). cbn. now destruct (k a s1).
Qed.

Lemma bind_ret {A B} (a : A) (k : A -> M B) s : bind (ret a) k s = k a s.
Proof. now apply bind_silent. Qed.

Lemma bind_assoc {A B C} (m : M A) (f : A -> M B) (g : B -> M C) s :
  bind (bind m f) g s = bind m (fun x => bind (f x) g) s.
Proof.
  unfold bind. destruct (m s) as [[a|e|] s1 e1]; try reflexivity.
  destruct (f a s1) as [[b|e|] s2 e2]; try reflexivity.
  destruct (g b s2). now rewrite app_assoc.
Qed.

Lemma bind_raise {A B} (e : exn) (k : A -> M B) s :
  bind (raise e) k s = Outcome (Raised e) s [].
Proof. reflexivity. Qed.

Lemma try_run {A} {m : M A} h {s r s1 e1} :
  m s = Outcome r s1 e1 ->
  try_except m h s =
  match r with
  | Raised e => Outcome (res (h e s1)) (final (h e s1)) (e1 ++ emitted (h e s1))
  | _ => Outcome r s1 e1
  end.
Proof.
  intros H. unfold try_except. rewrite H. destruct r; try reflexivity.
  destruct (h e s1); reflexivity.
Qed.

Lemma called_run {A} (inj : A -> value) c {body : M A} {s r s1 e1} :
  body s = Outcome r s1 e1 ->
  called inj c body s =
  Outcome r s1 (e1 ++ [ECalled (now s) c match r with
                                         | Ok a => Ok (inj a)
                                         | Raised e => Raised e
                                         | OutOfFuel => OutOfFuel
                                         end]).
Proof. intros H. unfold called. now rewrite H. Qed.

Lemma res_called {A} (inj : A -> value) c (body : M A) s :
  res (called inj c body s) = res (body s).
Proof. unfold called. now destruct (body s). Qed.

Lemma final_called {A} (inj : A -> value) c (body : M A) s :
  final (called inj c body s) = final (body s).
Proof. unfold called. now destruct (body s). Qed.

Lemma emitted_called {A} (inj : A -> value) c (body : M A) s :
  emitted (called inj c body s) =
  (emitted (body s) ++
   [ECalled (now s) c match res (body s) with
                      | Ok a => Ok (inj a)
                      | Raised e => Raised e
                      | OutOfFuel => OutOfFuel
                      end])%list.
Proof. unfold called. now destruct (body s). Qed.

Lemma http_run env req s :
  http env req s =
  Outcome match respond env (sent s) req with
          | Some r => Ok r
          | None => Raised ConnectionError
          end
          {| current_job := current_job s;
             current_build_number := current_build_number s;
             now := now s + Z.of_nat (latency env (sent s));
             sent := S (sent s) |}
          [EHttp (now s) req (respond env (sent s) req)].
Proof. reflexivity. Qed.

Lemma bind_time {B} (k : Z -> M B) s : bind time_time k s = k (now s) s.
Proof. now apply bind_silent. Qed.

Lemma bind_sleep_negative {B} secs (k : unit -> M B) s :
  (secs <? 0) = true ->
  bind (time_sleep secs) k s = Outcome (Raised ValueError) s [].
Proof. intros H. unfold bind, time_sleep. now rewrite H. Qed.

Lemma bind_sleep {B} secs (k : unit -> M B) s :
  (secs <? 0) = false ->
  let s' := {| current_job := current_job s;
               current_build_number := current_build_number s;
               now := now s + secs;
               sent := sent s |} in
  bind (time_sleep secs) k s =
  Outcome (res (k tt s')) (final (k tt s')) (ESleep secs :: emitted (k tt s')).
Proof.
  intros H s'. unfold bind, time_sleep. rewrite H. fold s'.
  now destruct (k tt s').
Qed.

Lemma outcome_eta {A} (o : outcome A) : Outcome (res o) (final o) (emitted o) = o.
Proof. now destruct o. Qed.

Lemma requests_app a b : requests (a ++ b)%list = (requests a ++ requests b)%list.
Proof. apply flat_map_app. Qed.

Lemma steps_app a b : steps (a ++ b)%list = (steps a ++ steps b)%list.
Proof. apply flat_map_app. Qed.

Lemma snapshots_app a b : snapshots (a ++ b)%list = (snapshots a ++ snapshots b)%list.
Proof. apply flat_map_app. Qed.

Lemma effects_app a b : effects (a ++ b)%list = (effects a ++ effects b)%list.
Proof. apply filter_app. Qed.


Lemma requests_http t req a l : requests (EHttp t req a :: l) = req :: requests l.
Proof. reflexivity. Qed.

Lemma requests_sleep secs l : requests (ESleep secs :: l) = requests l.
Proof. reflexivity. Qed.

Lemma requests_called t c r l : requests (ECalled t c r :: l) = requests l.
Proof. reflexivity. Qed.

Lemma steps_http t req a l : steps (EHttp t req a :: l) = steps l.
Proof. reflexivity. Qed.

Lemma steps_sleep secs l : steps (ESleep secs :: l) = steps l.
Proof. reflexivity. Qed.

Lemma effects_http t req a l :
  effects (EHttp t req a :: l) = EHttp t req a :: effects l.
Proof. reflexivity. Qed.

Lemma effects_sleep secs l : effects (ESleep secs :: l) = ESleep secs :: effects l.
Proof. reflexivity. Qed.

Lemma exchanges_http t req a l :
  exchanges (EHttp t req a :: l) = EHttp t req a :: exchanges l.
Proof. reflexivity. Qed.

Lemma exchanges_sleep secs l : exchanges (ESleep secs :: l) = exchanges l.
Proof. reflexivity. Qed.

(** ** Job list *)

(** C9.  Without a non-empty [jobs] list in the configuration,
    [get_jobs_list] gives one or two jobs, all with empty parameters: the
    first is named by [first_job] (or its built-in default), and a second
    one, named by [second_job] (or its built-in default), is present exactly
    when that name is not empty and differs from the first. *)
Theorem get_jobs_list_legacy (self : Builder) :
  jobs (config self) = None \/ jobs (config self) = Some [] ->
  let first := get_default (first_job (config self)) "tdms-stock-boot" in
  let second := get_default (second_job (config self))
                  "tdms-stock-boot-slave-rights-collection" in
  let l := get_jobs_list self in
  l <> [] /\
  (List.length l = 1 \/ List.length l = 2)%nat /\
  Forall (fun j => parameters j = []) l /\
  nth_error (map name l) 0 = Some first /\
  (List.length l = 2%nat <-> second <> "" /\ second <> first) /\
  (List.length l = 2%nat -> nth_error (map name l) 1 = Some second).
Proof.
  intros H first second l.
  assert (E : l = {| name := first; description := "第一个任务"; parameters := [] |}
                  :: (if negb (second =? "")%string && negb (second =? first)%string
                      then [ {| name := second; description := "第二个任务";
                                parameters := [] |} ]
                      else [])).
  { unfold l, get_jobs_list. destruct H as [-> | ->]; reflexivity. }
  rewrite E. clear E.
  destruct (String.eqb_spec second ""), (String.eqb_spec second first); simpl;
    repeat split; try discriminate; auto; try tauto; try congruence;
    repeat constructor; intros; intuition (try discriminate; try congruence).
Qed.

Lemma get_job_status_run self job bn s :
  let a := respond (session self) (sent s) (Get (status_url self job bn)) in
  get_job_status self job bn s =
  Outcome (Ok (status_of_answer a))
          {| current_job := current_job s;
             current_build_number := current_build_number s;
             now := now s + Z.of_nat (latency (session self) (sent s));
             sent := S (sent s) |}
          [EHttp (now s) (Get (status_url self job bn)) a;
           ECalled (now s) (MGetJobStatus job bn) (Ok (status_of_answer a))].
Proof.
  unfold get_job_status, called, try_except, bind, http, status_url. simpl.
  destruct (respond (session self) (sent s) _) as [r|]; simpl; [|reflexivity].
  destruct (status_code r =? 200); simpl; [|reflexivity].
  unfold json. destruct (json_body r); reflexivity.
Qed.

Lemma verdict_block (status : value) s :
  (if truthy status then
     result0 <- py_get status "result" ;;
     building <- py_get_default status "building" (VBool false) ;;
     if negb (truthy building) && truthy result0 then
       if str_equals result0 "SUCCESS" then ret (Some true)
       else ret (Some false)
     else ret None
   else ret None)%py s = Outcome (verdict_of status) s [].
Proof.
  unfold verdict_of, terminal, result_of.
  destruct status as [| b | z | str | l | d]; cbn [truthy].
  - reflexivity.
  - destruct b; reflexivity.
  - destruct (z =? 0); reflexivity.
  - destruct (str =? "")%string; reflexivity.
  - destruct l; reflexivity.
  - destruct d as [|f d]; [reflexivity|].
    unfold bind, py_get, py_get_default, ret. cbn [res final emitted app].
    destruct (negb (truthy (get_default (assoc "building" (f :: d)) (VBool false)))
              && truthy (get_default (assoc "result" (f :: d)) VNone)); cbn.
    + destruct (str_equals _ _); reflexivity.
    + reflexivity.
Qed.

Lemma wait_loop_unfold fuel self job bn start timeout interval s :
  wait_loop (S fuel) self job bn start timeout interval s =
  if now s - start <? timeout then
    let o := get_job_status self job bn s in
    match res o with
    | Ok status =>
        match verdict_of status with
        | Ok (Some b) => Outcome (Ok b) (final o) (emitted o)
        | Ok None =>
            if interval <? 0 then Outcome (Raised ValueError) (final o) (emitted o)
            else
              let s' := {| current_job := current_job (final o);
                           current_build_number := current_build_number (final o);
                           now := now (final o) + interval;
                           sent := sent (final o) |} in
              let o' := wait_loop fuel self job bn start timeout interval s' in
              Outcome (res o') (final o') (emitted o ++ ESleep interval :: emitted o')
        | Raised e => Outcome (Raised e) (final o) (emitted o)
        | OutOfFuel => Outcome OutOfFuel (final o) (emitted o)
        end
    | Raised e => Outcome (Raised e) (final o) (emitted o)
    | OutOfFuel => Outcome OutOfFuel (final o) (emitted o)
    end
  else Outcome (Ok false) s [].
Proof.
  cbn [wait_loop]. rewrite bind_time.
  destruct (now s - start <? timeout); [|reflexivity].
  cbv zeta.
  destruct (get_job_status self job bn s) as [r f e] eqn:E.
  rewrite (bind_run _ E). cbn [res final emitted].
  destruct r as [v| |]; try reflexivity.
  rewrite (bind_run _ (verdict_block v f)).
  destruct (verdict_of v) as [[b|]| |]; cbn [res final emitted ret]; rewrite ?app_nil_r;
    try reflexivity.
  destruct (interval <? 0) eqn:Ei.
  - rewrite bind_sleep_negative by exact Ei. cbn. now rewrite app_nil_r.
  - rewrite bind_sleep by exact Ei. reflexivity.
Qed.

Lemma verdict_of_some v b :
  verdict_of v = Ok (Some b) ->
  terminal v = true /\ b = str_equals (result_of v) "SUCCESS".
Proof.
  unfold verdict_of. destruct (terminal v).
  - intros [= <-]. auto.
  - destruct v; try destruct (truthy _); discriminate.
Qed.

Lemma verdict_of_not_some v :
  (forall b, verdict_of v <> Ok (Some b)) -> terminal v = false.
Proof.
  unfold verdict_of. destruct (terminal v); [|reflexivity].
  intros H. exfalso. eapply H. reflexivity.
Qed.

Section WaitLoop.
Variables (self : Builder) (job : string) (bn : value).
Variables (start timeout interval : Z).

Let loop fuel := wait_loop fuel self job bn start timeout interval.

Lemma wait_loop_history fuel s :
  exists verdict,
    poll_history (snapshots (emitted (loop fuel s))) verdict /\
    Forall (fun tv => fst tv - start < timeout) (snapshots (emitted (loop fuel s))) /\
    match verdict with
    | Some b => res (loop fuel s) = Ok b
    | None => res (loop fuel s) <> Ok true
    end.
Proof.
  revert s. induction fuel as [|fuel IH]; intros s.
  - exists None. cbn. repeat split; try constructor. discriminate.
  - unfold loop. rewrite wait_loop_unfold.
    destruct (Z.ltb_spec (now s - start) timeout) as [Hlt|Hge].
    2:{ exists None. cbn. repeat split; try constructor. discriminate. }
    rewrite get_job_status_run. cbv zeta. cbn [res final emitted].
    set (v := status_of_answer _).
    destruct (verdict_of v) as [[b|]| |] eqn:Ev.
    + apply verdict_of_some in Ev as [Ht ->].
      exists (Some (str_equals (result_of v) "SUCCESS")). cbn.
      repeat split; repeat constructor; auto.
    + assert (Ht : terminal v = false)
        by (apply verdict_of_not_some; intros b; rewrite Ev; discriminate).
      destruct (interval <? 0).
      * exists None. cbn. split; [|split].
        -- apply PH_cons; auto. constructor.
        -- repeat constructor. auto.
        -- discriminate.
      * match goal with |- context [wait_loop fuel self job bn start timeout interval ?s'] =>
          destruct (IH s') as (verdict & Hh & Hf & Hr) end.
        exists verdict. cbn [res final emitted]. cbn. split; [|split].
        -- apply PH_cons; auto.
        -- constructor; auto.
        -- exact Hr.
    + assert (Ht : terminal v = false)
        by (apply verdict_of_not_some; intros b; rewrite Ev; discriminate).
      exists None. cbn. split; [|split].
      * apply PH_cons; auto. constructor.
      * repeat constructor. auto.
      * discriminate.
    + assert (Ht : terminal v = false)
        by (apply verdict_of_not_some; intros b; rewrite Ev; discriminate).
      exists None. cbn. split; [|split].
      * apply PH_cons; auto. constructor.
      * repeat constructor. auto.
      * discriminate.
Qed.
End WaitLoop.

Lemma poll_history_none l :
  poll_history l None -> Forall (fun tv => terminal (snd tv) = false) l.
Proof.
  intros H. remember None as o eqn:E. induction H; try discriminate; auto.
Qed.

Lemma poll_history_some l b :
  poll_history l (Some b) ->
  (Exists (fun tv => succeeded (snd tv) = true) l <-> b = true) /\
  (Exists (fun tv => failed (snd tv) = true) l <-> b = false) /\
  Exists (fun tv => terminal (snd tv) = true) l.
Proof.
  intros H. remember (Some b) as o eqn:E. revert b E.
  induction H as [|t v Ht|t v l o Ht H IH]; intros b E; try discriminate.
  - injection E as <-. unfold succeeded, failed. cbn.
    rewrite !Exists_cons, !Exists_nil. cbn. rewrite Ht. cbn.
    destruct (str_equals (result_of v) "SUCCESS"); cbn; intuition discriminate.
  - destruct (IH b E) as (I1 & I2 & I3).
    rewrite !Exists_cons. unfold succeeded at 1, failed at 1. cbn. rewrite Ht. cbn.
    intuition discriminate.
Qed.

Lemma verdict_of_ok v :
  v = VNone \/ is_object v = true -> exists o, verdict_of v = Ok o.
Proof.
  unfold verdict_of. intros [-> | H].
  - cbn. eauto.
  - destruct v; try discriminate. destruct (terminal _); eauto.
Qed.

Lemma status_of_answer_object env n req :
  sends_objects env ->
  let v := status_of_answer (respond env n req) in
  v = VNone \/ is_object v = true.
Proof.
  intros H. cbn. unfold status_of_answer.
  destruct (respond env n req) as [r|] eqn:E; auto.
  destruct (Z.eqb_spec (status_code r) 200); auto.
  destruct (json_body r) eqn:Ej; eauto.
Qed.

Section WaitLoopReturns.
Variables (self : Builder) (job : string) (bn : value).
Variables (start timeout interval : Z).
Hypothesis interval_nonneg : 0 <= interval.
Hypothesis progress : time_passes (session self) interval.
Hypothesis objects : sends_objects (session self).

Lemma wait_loop_returns fuel s :
  Z.max 0 (timeout - (now s - start)) < Z.of_nat fuel ->
  exists b, res (wait_loop fuel self job bn start timeout interval s) = Ok b.
Proof.
  revert s. induction fuel as [|fuel IH]; intros s Hf.
  - cbn in Hf. lia.
  - rewrite wait_loop_unfold.
    destruct (Z.ltb_spec (now s - start) timeout) as [Hlt|Hge]; [|cbn; eauto].
    rewrite get_job_status_run. cbv zeta. cbn [res final emitted].
    match goal with |- context [status_of_answer (respond ?e ?n ?r)] =>
      destruct (verdict_of_ok (@status_of_answer_object e n r objects)) as [o ->]
    end.
    destruct o as [b|]; [cbn; eauto|].
    destruct (Z.ltb_spec interval 0) as [?|_]; [lia|].
    cbn [res]. apply IH. cbn [now]. specialize (progress (sent s)). lia.
Qed.
End WaitLoopReturns.

Lemma poll_history_prefix l o :
  poll_history l o ->
  forall k d, (S k < List.length l)%nat -> terminal (snd (nth k l d)) = false.
Proof.
  induction 1 as [|t v Ht|t v l o Ht H IH]; intros k d Hk; cbn in Hk; try lia.
  destruct k as [|k]; [exact Ht|]. cbn [nth]. apply IH. lia.
Qed.

Lemma nth_map_seq (A : Type) (f : nat -> A) n k d :
  (k < n)%nat -> nth k (map f (seq 0 n)) d = f k.
Proof.
  intros H. rewrite (nth_indep _ d (f 0%nat)) by (now rewrite length_map, length_seq).
  rewrite map_nth. now rewrite seq_nth.
Qed.

Lemma poll_status_shift self job bn made k :
  poll_status self job bn (S made) k = poll_status self job bn made (S k).
Proof. unfold poll_status. now rewrite Nat.add_succ_r. Qed.

Lemma poll_time_from_start env interval :
  time_passes env interval ->
  forall k start made, start <= poll_time env interval start made k.
Proof.
  intros Hp. induction k as [|k IH]; intros start made; cbn [poll_time]; [lia|].
  specialize (IH (start + Z.of_nat (latency env made) + interval) (S made)).
  specialize (Hp made). lia.
Qed.

Section WaitLoopPolls.
Variables (self : Builder) (job : string) (bn : value).
Variables (start timeout interval : Z).

Let loop fuel := wait_loop fuel self job bn start timeout interval.
Let expected (s : State) (k : nat) : Z * value :=
  (poll_time (session self) interval (now s) (sent s) k,
   poll_status self job bn (sent s) k).

Lemma expected_shift s s' :
  now s' = now s + Z.of_nat (latency (session self) (sent s)) + interval ->
  sent s' = S (sent s) ->
  forall n, map (expected s') (seq 0 n) = map (expected s) (seq 1 n).
Proof.
  intros Hn Hs n. rewrite <- seq_shift, map_map. apply map_ext. intros k.
  unfold expected. rewrite Hn, Hs, poll_status_shift. reflexivity.
Qed.

Lemma wait_loop_polls fuel : forall s,
  let seen := snapshots (emitted (loop fuel s)) in
  seen = map (expected s) (seq 0 (List.length seen)) /\
  requests (emitted (loop fuel s))
  = repeat (Get (status_url self job bn)) (List.length seen).
Proof.
  induction fuel as [|fuel IH]; intros s; [cbn; auto|].
  cbv zeta. unfold loop. rewrite wait_loop_unfold.
  destruct (now s - start <? timeout); [|cbn; auto].
  rewrite get_job_status_run. cbv zeta. cbn [res final emitted].
  assert (E0 : expected s 0
               = (now s, status_of_answer
                           (respond (session self) (sent s)
                              (Get (status_url self job bn))))).
  { unfold expected, poll_status. cbn [poll_time]. now rewrite Nat.add_0_r. }
  destruct (verdict_of _) as [[b|]| e |];
    try (cbn; rewrite E0; split; reflexivity).
  destruct (interval <? 0); [cbn; rewrite E0; split; reflexivity|].
  match goal with |- context [wait_loop fuel self job bn start timeout interval ?s0] =>
    set (s' := s0)
  end.
  destruct (IH s') as (I1 & I2).
  pose proof (@expected_shift s s' eq_refl eq_refl) as Sh.
  unfold loop in I1, I2. cbn [emitted].
  rewrite snapshots_app, requests_app.
  change (snapshots (ESleep interval :: ?l)) with (snapshots l).
  change (requests (ESleep interval :: ?l)) with (requests l).
  remember (snapshots (emitted (wait_loop fuel self job bn start timeout
                                  interval s'))) as seen' eqn:Eseen.
  remember (requests (emitted (wait_loop fuel self job bn start timeout
                                 interval s'))) as reqs' eqn:Ereqs.
  clear Eseen Ereqs.
  cbn [snapshots requests flat_map app List.length seq map repeat].
  rewrite E0, <- Sh, <- I1, <- I2. split; reflexivity.
Qed.

Hypothesis interval_nonneg : 0 <= interval.
Hypothesis progress : time_passes (session self) interval.
Hypothesis objects : sends_objects (session self).

Lemma wait_loop_keeps_polling fuel : forall s k,
  Z.max 0 (timeout - (now s - start)) < Z.of_nat fuel ->
  (forall i, (i < k)%nat -> terminal (poll_status self job bn (sent s) i) = false) ->
  poll_time (session self) interval (now s) (sent s) k - start < timeout ->
  (k < List.length (snapshots (emitted (loop fuel s))))%nat.
Proof.
  induction fuel as [|fuel IH]; intros s k Hf Hk Ht; [cbn in Hf; lia|].
  pose proof (@poll_time_from_start _ _ progress k (now s) (sent s)) as Hs.
  unfold loop. rewrite wait_loop_unfold.
  destruct (Z.ltb_spec (now s - start) timeout) as [_|]; [|lia].
  rewrite get_job_status_run. cbv zeta. cbn [res final emitted].
  destruct k as [|k].
  { destruct (verdict_of _) as [[b|]| e |]; try (cbn; lia).
    destruct (interval <? 0); cbn [emitted]; rewrite ?snapshots_app; cbn; lia. }
  assert (T0 : terminal (status_of_answer
                           (respond (session self) (sent s)
                              (Get (status_url self job bn)))) = false).
  { specialize (Hk 0%nat). unfold poll_status in Hk. rewrite Nat.add_0_r in Hk.
    apply Hk. lia. }
  match goal with |- context [status_of_answer (respond ?e ?n ?r)] =>
    destruct (verdict_of_ok (@status_of_answer_object e n r objects)) as [o Ho]
  end.
  rewrite Ho. destruct o as [b|].
  { apply verdict_of_some in Ho as [Ho _]. congruence. }
  destruct (Z.ltb_spec interval 0) as [|_]; [lia|].
  cbn [emitted]. rewrite snapshots_app. cbn [snapshots flat_map app List.length].
  fold snapshots. apply -> Nat.succ_lt_mono.
  apply IH.
  - cbn [now]. specialize (progress (sent s)). lia.
  - intros i Hi. cbn [sent]. rewrite poll_status_shift. apply Hk. lia.
  - exact Ht.
Qed.
End WaitLoopPolls.

Lemma wait_for_build_completion_polls fuel self job bn s :
  let timeout := get_default (timeout_seconds (config self)) 1800 in
  let interval := get_default (check_interval_seconds (config self)) 30 in
  let o := wait_for_build_completion fuel self job bn s in
  let seen := snapshots (emitted o) in
  seen = map (fun k => (poll_time (session self) interval (now s) (sent s) k,
                        poll_status self job bn (sent s) k))
             (seq 0 (List.length seen)) /\
  requests (emitted o) = repeat (Get (status_url self job bn)) (List.length seen) /\
  ((0 < fuel)%nat -> 0 < timeout -> seen <> []).
Proof.
  cbv zeta. unfold wait_for_build_completion. rewrite emitted_called, bind_time.
  rewrite snapshots_app, requests_app. cbn [snapshots requests flat_map app].
  rewrite !app_nil_r.
  destruct (wait_loop_polls self job bn (now s)
              (get_default (timeout_seconds (config self)) 1800)
              (get_default (check_interval_seconds (config self)) 30) fuel s)
    as (Hm & Hq).
  split; [exact Hm|]. split; [exact Hq|].
  intros Hf Ht. destruct fuel as [|fuel]; [lia|].
  rewrite wait_loop_unfold.
  destruct (Z.ltb_spec (now s - now s) (get_default (timeout_seconds (config self)) 1800))
    as [_|]; [|lia].
  rewrite get_job_status_run. cbv zeta. cbn [res final emitted].
  destruct (verdict_of _) as [[b|]| e |]; try (cbn; discriminate).
  destruct (_ <? 0); cbn [emitted]; rewrite ?snapshots_app; cbn; discriminate.
Qed.

(** C4.  Take a check interval that is not negative, rounds of the loop that
    take time, enough fuel for the deadline and status payloads that are
    JSON objects.  Then [wait_for_build_completion] returns, and:
    - every snapshot it looks at comes from a status query begun before the
      deadline [start + timeout];
    - it returns [True] exactly when one of them is terminal with result
      SUCCESS; a snapshot that is terminal with another result makes it
      return [False]; and so does a run in which no snapshot is terminal;
    - the snapshots are what the status queries were answered with, one
      query each, in order and at the times the latencies and sleeps give;
    - it keeps asking: a status that no terminal status precedes and whose
      query would begin before the deadline is looked at;
    - so, whatever the sequence of answers, the first terminal status decides
      when its query begins before the deadline ([True] for SUCCESS,
      [False] for any other result, and no query follows it), and when no
      status asked for before the deadline is terminal the result is
      [False]. *)
Theorem wait_for_build_completion_verdict
    (fuel : nat) (self : Builder) (job_name : string) (build_number : value)
    (s : State) :
  let timeout := get_default (timeout_seconds (config self)) 1800 in
  let check_interval := get_default (check_interval_seconds (config self)) 30 in
  let o := wait_for_build_completion fuel self job_name build_number s in
  let seen := snapshots (emitted o) in
  let begins k := poll_time (session self) check_interval (now s) (sent s) k in
  let status k := poll_status self job_name build_number (sent s) k in
  0 <= check_interval ->
  time_passes (session self) check_interval ->
  (Z.to_nat timeout < fuel)%nat ->
  sends_objects (session self) ->
  (exists b, res o = Ok b) /\
  Forall (fun tv => fst tv < now s + timeout) seen /\
  (res o = Ok true <-> Exists (fun tv => succeeded (snd tv) = true) seen) /\
  (Exists (fun tv => failed (snd tv) = true) seen -> res o = Ok false) /\
  (Forall (fun tv => terminal (snd tv) = false) seen -> res o = Ok false) /\
  seen = map (fun k => (begins k, status k)) (seq 0 (List.length seen)) /\
  requests (emitted o)
  = repeat (Get (status_url self job_name build_number)) (List.length seen) /\
  (forall k,
      (forall i, (i < k)%nat -> terminal (status i) = false) ->
      begins k < now s + timeout ->
      (k < List.length seen)%nat) /\
  (forall k,
      (forall i, (i < k)%nat -> terminal (status i) = false) ->
      terminal (status k) = true ->
      begins k < now s + timeout ->
      res o = Ok (str_equals (result_of (status k)) "SUCCESS")
      /\ List.length seen = S k) /\
  ((forall k, begins k < now s + timeout -> terminal (status k) = false) ->
   res o = Ok false).
Proof.
  intros timeout check_interval o seen begins status Hc Hprog Hfuel Hobj.
  assert (Eo : res o = res (wait_loop fuel self job_name build_number (now s)
                              timeout check_interval s)).
  { unfold o, wait_for_build_completion. rewrite res_called.
    rewrite bind_time. reflexivity. }
  assert (Es : seen = snapshots (emitted (wait_loop fuel self job_name build_number
                              (now s) timeout check_interval s))).
  { unfold seen, o, wait_for_build_completion. rewrite emitted_called.
    rewrite bind_time.
    rewrite snapshots_app. cbn. now rewrite app_nil_r. }
  assert (Er : requests (emitted o)
               = requests (emitted (wait_loop fuel self job_name build_number
                                      (now s) timeout check_interval s))).
  { unfold o, wait_for_build_completion. rewrite emitted_called.
    rewrite bind_time.
    rewrite requests_app. cbn. now rewrite app_nil_r. }
  destruct (@wait_loop_returns self job_name build_number (now s) timeout
              check_interval Hc Hprog Hobj fuel s) as [b Hb]; [lia|].
  destruct (wait_loop_history self job_name build_number (now s) timeout
              check_interval fuel s) as (verdict & Hh & Hd & Hr).
  destruct (wait_loop_polls self job_name build_number (now s) timeout
              check_interval fuel s) as (Hm & Hq).
  pose proof (fun k => @wait_loop_keeps_polling self job_name build_number
                         (now s) timeout check_interval Hc Hprog Hobj fuel s k
                         ltac:(lia)) as Hk.
  cbv beta zeta in Hk.
  rewrite <- Es in Hh, Hd, Hm, Hq, Hk. rewrite <- Eo in Hr, Hb.
  rewrite <- Er in Hq.
  fold begins status in Hm, Hk.
  assert (Hlive : forall k,
             (forall i, (i < k)%nat -> terminal (status i) = false) ->
             begins k < now s + timeout -> (k < List.length seen)%nat).
  { intros k H1 H2. apply Hk; [exact H1 | unfold begins in H2; lia]. }
  assert (Hnth : forall k, (k < List.length seen)%nat ->
                           nth k seen (0, VNone) = (begins k, status k)).
  { intros k Hlt. rewrite Hm at 1.
    exact (@nth_map_seq _ (fun k => (begins k, status k)) _ k (0, VNone) Hlt). }
  assert (Hdeadline : Forall (fun tv => fst tv < now s + timeout) seen).
  { eapply Forall_impl; [|exact Hd]. cbn. intros; lia. }
  assert (C3 : res o = Ok true <-> Exists (fun tv => succeeded (snd tv) = true) seen).
  { destruct verdict as [b'|].
    - destruct (poll_history_some Hh) as (I1 & _). rewrite Hr, I1.
      split; congruence.
    - pose proof (poll_history_none Hh) as Hn. split; [intros H; congruence|].
      intros H. exfalso. apply Exists_exists in H as (x & Hin & Hx).
      rewrite Forall_forall in Hn. specialize (Hn x Hin).
      unfold succeeded in Hx. rewrite Hn in Hx. discriminate. }
  assert (C4 : Exists (fun tv => failed (snd tv) = true) seen -> res o = Ok false).
  { destruct verdict as [b'|].
    - destruct (poll_history_some Hh) as (_ & I2 & _). intros H.
      apply I2 in H. congruence.
    - pose proof (poll_history_none Hh) as Hn.
      intros _. destruct b; congruence. }
  assert (C5 : Forall (fun tv => terminal (snd tv) = false) seen -> res o = Ok false).
  { destruct verdict as [b'|].
    - destruct (poll_history_some Hh) as (_ & _ & I3).
      intros H. exfalso. apply Exists_exists in I3 as (x & Hin & Hx).
      rewrite Forall_forall in H. specialize (H x Hin). congruence.
    - intros _. destruct b; congruence. }
  split; [eauto|]. split; [exact Hdeadline|]. split; [exact C3|].
  split; [exact C4|]. split; [exact C5|]. split; [exact Hm|].
  split; [exact Hq|]. split; [exact Hlive|]. split.
  - intros k Hbefore Hterm Hin.
    pose proof (Hlive k Hbefore Hin) as Hlt.
    assert (Hmem : In (begins k, status k) seen).
    { rewrite <- (Hnth k Hlt). apply nth_In. exact Hlt. }
    split.
    + destruct (str_equals (result_of (status k)) "SUCCESS") eqn:Esucc.
      * apply C3. apply Exists_exists. exists (begins k, status k).
        split; [exact Hmem|]. unfold succeeded. cbn [snd].
        now rewrite Hterm, Esucc.
      * apply C4. apply Exists_exists. exists (begins k, status k).
        split; [exact Hmem|]. unfold failed. cbn [snd].
        now rewrite Hterm, Esucc.
    + destruct (Nat.lt_ge_cases (S k) (List.length seen)) as [Hmore|Hle]; [|lia].
      pose proof (poll_history_prefix Hh (0, VNone) Hmore) as Hnt.
      rewrite (Hnth k Hlt) in Hnt. cbn [snd] in Hnt. congruence.
  - intros Hnone. apply C5. apply Forall_forall. intros x Hin.
    destruct (In_nth _ _ (0, VNone) Hin) as (k & Hlt & Hx).
    rewrite (Hnth k Hlt) in Hx.
    rewrite Forall_forall in Hdeadline. specialize (Hdeadline _ Hin).
    subst x. cbn [fst snd] in *. apply Hnone. exact Hdeadline.
Qed.

(** ** Status queries *)

Section WaitLoopFrame.
Variables (self : Builder) (job : string) (bn : value).
Variables (start timeout interval : Z).

Lemma wait_loop_frame fuel s :
  let o := wait_loop fuel self job bn start timeout interval s in
  current_job (final o) = current_job s /\
  current_build_number (final o) = current_build_number s /\
  steps (emitted o) = [] /\
  Forall (fun r => r = Get (status_url self job bn)) (requests (emitted o)).
Proof.
  revert s. induction fuel as [|fuel IH]; intros s.
  - cbn. auto.
  - cbv zeta. rewrite wait_loop_unfold.
    destruct (now s - start <? timeout); [|cbn; auto].
    rewrite get_job_status_run. cbv zeta. cbn [res final emitted].
    destruct (verdict_of _) as [[b|]| |]; try (cbn; auto).
    destruct (interval <? 0); [cbn; auto|].
    match goal with |- context [wait_loop fuel self job bn start timeout interval ?s'] =>
      destruct (IH s') as (I1 & I2 & I3 & I4) end.
    cbn [res final emitted]. rewrite I1, I2. cbn. auto.
Qed.
End WaitLoopFrame.

Lemma wait_for_build_completion_frame fuel self job bn s :
  let o := wait_for_build_completion fuel self job bn s in
  current_job (final o) = current_job s /\
  current_build_number (final o) = current_build_number s /\
  steps (emitted o) = [Waited job bn (shown (res o))] /\
  Forall (fun r => r = Get (status_url self job bn)) (requests (emitted o)).
Proof.
  cbv zeta. unfold wait_for_build_completion.
  rewrite res_called, final_called, emitted_called.
  rewrite bind_time.
  match goal with |- context [wait_loop fuel self job bn ?a ?b ?c s] =>
    destruct (wait_loop_frame self job bn a b c fuel s) as (I1 & I2 & I3 & I4) end.
  rewrite steps_app, requests_app, I3. cbn. rewrite app_nil_r. auto.
Qed.

(** C8.  A build number that is falsy (0, None, the empty string, ...) or the
    sentinel -1 makes [get_job_status], and with it every poll of
    [wait_for_build_completion], ask the lastBuild endpoint of the job. *)
Theorem falsy_build_number_queries_last_build
    (fuel : nat) (self : Builder) (job_name : string) (build_number : value)
    (s : State) :
  truthy build_number = false \/ build_number = VInt (-1) ->
  let last_build :=
    Get (ULastBuild (rstrip_slash (jenkins_url (config self))) job_name) in
  requests (emitted (get_job_status self job_name build_number s)) = [last_build] /\
  Forall (fun r => r = last_build)
         (requests (emitted (wait_for_build_completion fuel self job_name
                                                       build_number s))).
Proof.
  intros H last_build.
  assert (E : status_url self job_name build_number =
              ULastBuild (rstrip_slash (jenkins_url (config self))) job_name).
  { unfold status_url. destruct H as [-> | ->]; reflexivity. }
  split.
  - rewrite get_job_status_run. cbn. now rewrite E.
  - destruct (wait_for_build_completion_frame fuel self job_name build_number s)
      as (_ & _ & _ & F).
    rewrite E in F. exact F.
Qed.

Lemma falsy_build_number_queries_last_build_witness :
  let self := sample_builder (sample_config false None) build_peer in
  requests (emitted (get_job_status self "boot" (VInt 0) idle))
    = [Get (ULastBuild "http://ci.example" "boot")] /\
  Forall (fun r => r = Get (ULastBuild "http://ci.example" "boot"))
         (requests (emitted (wait_for_build_completion 11 self "boot" (VInt 0) idle))).
Proof.
  intros self.
  exact (@falsy_build_number_queries_last_build 11 self "boot" (VInt 0) idle
           (or_introl eq_refl)).
Defined.


(** ** Queue resolution *)

Lemma ret_run {A} (a : A) s : ret a s = Outcome (Ok a) s [].
Proof. reflexivity. Qed.

Ltac step_ret :=
  match goal with
  | |- context [bind (ret ?a) ?k ?s] => rewrite (bind_ret a k s)
  end.

Lemma queue_try_block self u s :
  let a := respond (session self) (sent s) (Get (UPlain u)) in
  let s1 := {| current_job := current_job s;
               current_build_number := current_build_number s;
               now := now s + Z.of_nat (latency (session self) (sent s));
               sent := S (sent s) |} in
  let ev := EHttp (now s) (Get (UPlain u)) a in
  try_except
    (queue_response <- http (session self) (Get (UPlain u)) ;;
     if status_code queue_response =? 200 then
       queue_data <- json queue_response ;;
       executable <- py_get queue_data "executable" ;;
       found <- (if truthy executable then
                   build_number <- py_get executable "number" ;;
                   if truthy build_number then ret (Some build_number)
                   else ret None
                 else ret None) ;;
       match found with
       | Some build_number => ret (Return build_number)
       | None =>
           cancelled <- py_get queue_data "cancelled" ;;
           if truthy cancelled then ret (Return VNone)
           else time_sleep 2 ;; ret Continue
       end
     else ret Break)
    (fun _ => ret Break) s =
  match queue_verdict a with
  | Continue =>
      Outcome (Ok Continue)
              {| current_job := current_job s;
                 current_build_number := current_build_number s;
                 now := now s1 + 2;
                 sent := S (sent s) |}
              [ev; ESleep 2]
  | v => Outcome (Ok v) s1 [ev]
  end.
Proof.
  intros a s1 ev.
  pose proof (http_run (session self) (Get (UPlain u)) s) as Hh.
  fold a s1 ev in Hh. unfold queue_verdict.
  destruct a as [r|].
  2:{ rewrite (try_run _ (bind_run _ Hh)). reflexivity. }
  match goal with |- try_except (bind _ ?K) _ _ = _ =>
    pose proof (bind_run K Hh) as Hb; cbv iota beta in Hb
  end.
  match type of Hb with _ = Outcome (res ?X) _ _ =>
    destruct X as [rX sX eX] eqn:HK
  end.
  cbn [res final emitted app] in Hb. rewrite (try_run _ Hb). clear Hb Hh.
  revert HK.
  destruct (status_code r =? 200); [|intros [= <- <- <-]; reflexivity].
  unfold json. destruct (json_body r) as [qd|]; [|intros [= <- <- <-]; reflexivity].
  step_ret.
  destruct qd as [| | | | |qd]; try (intros [= <- <- <-]; reflexivity).
  cbn [py_get]. step_ret. cbv zeta.
  set (executable := get_default (assoc "executable" qd) VNone).
  set (cancelled := get_default (assoc "cancelled" qd) VNone).
  assert (Hother :
    (cancelled0 <- ret cancelled ;;
     if truthy cancelled0 then ret (Return VNone)
     else time_sleep 2 ;; ret Continue) s1 =
    if truthy cancelled then Outcome (Ok (Return VNone)) s1 []
    else Outcome (Ok Continue)
           {| current_job := current_job s;
              current_build_number := current_build_number s;
              now := now s1 + 2;
              sent := S (sent s) |} [ESleep 2]).
  { step_ret.
    destruct (truthy cancelled); [reflexivity|].
    rewrite bind_sleep by reflexivity. reflexivity. }
  destruct (truthy executable) eqn:Te.
  - destruct executable as [| | | | |ex] eqn:Ee;
      try (cbn [py_get]; rewrite bind_assoc, bind_raise; intros [= <- <- <-];
           reflexivity).
    cbn [py_get]. rewrite bind_assoc. step_ret.
    destruct (truthy (get_default (assoc "number" ex) VNone)).
    + step_ret. intros [= <- <- <-]. reflexivity.
    + step_ret; rewrite Hother. destruct (truthy cancelled);
        intros [= <- <- <-]; reflexivity.
  - step_ret; rewrite Hother. destruct (truthy cancelled);
      intros [= <- <- <-]; reflexivity.
Qed.

Lemma queue_loop_unfold self u x rest s :
  let a := respond (session self) (sent s) (Get (UPlain u)) in
  let s1 := {| current_job := current_job s;
               current_build_number := current_build_number s;
               now := now s + Z.of_nat (latency (session self) (sent s));
               sent := S (sent s) |} in
  let ev := EHttp (now s) (Get (UPlain u)) a in
  queue_loop self u (x :: rest) s =
  match queue_verdict a with
  | Return v => Outcome (Ok (Some v)) s1 [ev]
  | Break => Outcome (Ok None) s1 [ev]
  | Continue =>
      let s2 := {| current_job := current_job s;
                   current_build_number := current_build_number s;
                   now := now s1 + 2;
                   sent := S (sent s) |} in
      let o' := queue_loop self u rest s2 in
      Outcome (res o') (final o') (ev :: ESleep 2 :: emitted o')
  end.
Proof.
  intros a s1 ev. cbn [queue_loop].
  pose proof (queue_try_block self u s) as HT. cbv zeta in HT.
  fold a in HT. fold s1 in HT. fold ev in HT.
  destruct (queue_verdict a); rewrite (bind_run _ HT); reflexivity.
Qed.

Lemma pending_verdict a : is_pending a = true -> queue_verdict a = Continue.
Proof.
  unfold is_pending, queue_verdict, no_number.
  destruct a as [r|]; [|discriminate].
  destruct (status_code r =? 200); [|discriminate]. cbn.
  destruct (json_body r) as [[| | | | |qd]|]; try discriminate.
  destruct (assoc "executable" qd) as [[| b | z | str | l | ex]|]; cbn;
    try destruct b; try destruct (z =? 0); try destruct (str =? "")%string;
    try destruct l; try destruct ex; cbn;
    try destruct (truthy (get_default (assoc "cancelled" qd) VNone)); cbn;
    try discriminate; try reflexivity.
  all: destruct (truthy _); cbn; try discriminate; reflexivity.
Qed.

Lemma resolved_verdict a v : resolved_number a = Some v -> queue_verdict a = Return v.
Proof.
  unfold resolved_number, queue_verdict.
  destruct a as [r|]; [|discriminate].
  destruct (status_code r =? 200); [|discriminate].
  destruct (json_body r) as [[| | | | |qd]|]; try discriminate.
  destruct (assoc "executable" qd) as [[| | | | |ex]|]; try discriminate. cbn.
  destruct (assoc "number" ex) as [n|] eqn:En; [|discriminate].
  destruct (truthy n) eqn:Tn; [|discriminate]. intros [= <-].
  destruct ex; [discriminate|]. cbn [get_default]. now rewrite Tn.
Qed.

Lemma raises_verdict a : poll_raises a = true -> queue_verdict a = Break.
Proof.
  unfold poll_raises, queue_verdict. destruct a as [r|]; [|reflexivity].
  destruct (status_code r =? 200); [|reflexivity]. cbn.
  destruct (json_body r) as [[| | | | |qd]|]; try reflexivity.
  destruct (assoc "executable" qd) as [[| b | z | str | l | ex]|]; cbn;
    try discriminate; intros ->; reflexivity.
Qed.

Lemma rejected_verdict a : is_rejected a = true -> queue_verdict a = Break.
Proof.
  unfold is_rejected, queue_verdict. destruct a as [r|]; [|reflexivity].
  destruct (status_code r =? 200); [discriminate|reflexivity].
Qed.

Section QueueLoop.
Variables (self : Builder) (u : string).

Let answer (n : nat) := respond (session self) n (Get (UPlain u)).

Lemma queue_loop_frame attempts s :
  let o := queue_loop self u attempts s in
  (exists found, res o = Ok found) /\
  current_job (final o) = current_job s /\
  current_build_number (final o) = current_build_number s /\
  sent (final o) = (sent s + List.length (requests (emitted o)))%nat /\
  steps (emitted o) = [] /\
  (List.length (requests (emitted o)) <= List.length attempts)%nat /\
  Forall (fun r => r = Get (UPlain u)) (requests (emitted o)).
Proof.
  revert s. induction attempts as [|x rest IH]; intros s.
  - cbn. repeat split; eauto; try lia.
  - cbv zeta. rewrite queue_loop_unfold.
    destruct (queue_verdict _); cbv zeta; cbn [res final emitted].
    + cbn. repeat split; eauto; try lia.
    + cbn. repeat split; eauto; try lia.
    + match goal with |- context [queue_loop self u rest ?s'] =>
        pose proof (IH s') as IH'; cbv zeta in IH';
        set (o' := queue_loop self u rest s') in *
      end.
      destruct IH' as (I0 & I1 & I2 & I3 & I4 & I5 & I6).
      rewrite requests_http, requests_sleep, steps_http, steps_sleep.
      split; [exact I0|]. split; [exact I1|]. split; [exact I2|].
      split; [rewrite I3; cbn; lia|]. split; [exact I4|].
      split; [cbn; lia|]. constructor; auto.
Qed.

Lemma queue_loop_resolves k : forall attempts s v,
  (k < List.length attempts)%nat ->
  (forall i, (i < k)%nat -> is_pending (answer (sent s + i)) = true) ->
  resolved_number (answer (sent s + k)) = Some v ->
  let o := queue_loop self u attempts s in
  res o = Ok (Some v) /\ List.length (requests (emitted o)) = S k.
Proof.
  induction k as [|k IH]; intros attempts s v Hk Hp Hr;
    destruct attempts as [|x rest]; cbn in Hk; try lia;
    cbv zeta; rewrite queue_loop_unfold; fold (answer (sent s)).
  - rewrite Nat.add_0_r in Hr. rewrite (resolved_verdict _ Hr). cbn. auto.
  - rewrite (pending_verdict _); [| rewrite <- (Nat.add_0_r (sent s)); apply Hp; lia].
    cbv zeta. cbn [res final emitted].
    match goal with |- context [queue_loop self u rest ?s'] =>
      destruct (IH rest s' v) as (I1 & I2) end.
    + lia.
    + intros i Hi. cbn [sent]. replace (S (sent s) + i)%nat with (sent s + S i)%nat by lia.
      apply Hp. lia.
    + cbn [sent]. replace (S (sent s) + k)%nat with (sent s + S k)%nat by lia. exact Hr.
    + rewrite requests_http, requests_sleep. split; [exact I1|].
      cbn [List.length]. now rewrite I2.
Qed.

Lemma queue_loop_breaks k : forall attempts s,
  (k < List.length attempts)%nat ->
  (forall i, (i < k)%nat -> is_pending (answer (sent s + i)) = true) ->
  queue_verdict (answer (sent s + k)) = Break ->
  res (queue_loop self u attempts s) = Ok None.
Proof.
  induction k as [|k IH]; intros attempts s Hk Hp Hr;
    destruct attempts as [|x rest]; cbn in Hk; try lia;
    rewrite queue_loop_unfold; fold (answer (sent s)).
  - rewrite Nat.add_0_r in Hr. rewrite Hr. reflexivity.
  - rewrite (pending_verdict _); [| rewrite <- (Nat.add_0_r (sent s)); apply Hp; lia].
    cbv zeta. cbn [res]. apply IH.
    + lia.
    + intros i Hi. cbn [sent]. replace (S (sent s) + i)%nat with (sent s + S i)%nat by lia.
      apply Hp. lia.
    + cbn [sent]. replace (S (sent s) + k)%nat with (sent s + S k)%nat by lia. exact Hr.
Qed.

Lemma queue_loop_exhausts : forall attempts s,
  (forall i, (i < List.length attempts)%nat ->
             is_pending (answer (sent s + i)) = true) ->
  let o := queue_loop self u attempts s in
  res o = Ok None /\ List.length (requests (emitted o)) = List.length attempts.
Proof.
  induction attempts as [|x rest IH]; intros s Hp.
  - cbn. auto.
  - cbv zeta. rewrite queue_loop_unfold. fold (answer (sent s)).
    rewrite (pending_verdict (answer (sent s)))
      by (rewrite <- (Nat.add_0_r (sent s)); apply Hp; cbn; lia).
    cbv zeta. cbn [res final emitted].
    match goal with |- context [queue_loop self u rest ?s'] =>
      destruct (IH s') as (I1 & I2) end.
    + intros i Hi. cbn [sent]. replace (S (sent s) + i)%nat with (sent s + S i)%nat by lia.
      apply Hp. cbn. lia.
    + rewrite requests_http, requests_sleep. split; [exact I1|].
      cbn [List.length]. now rewrite I2.
Qed.
End QueueLoop.

Lemma get_build_number_from_queue_run self r job s :
  get_build_number_from_queue self r job s =
  if truthy_str (location r) then
    let o' := queue_loop self (queue_api_url self (get_default (location r) ""))
                         (seq 0 30) s in
    let v := match res o' with Ok (Some v) => v | _ => VNone end in
    Outcome (Ok v) (final o')
            (emitted o' ++ [ECalled (now s) (MGetBuildNumberFromQueue job) (Ok v)])
  else
    Outcome (Ok VNone) s [ECalled (now s) (MGetBuildNumberFromQueue job) (Ok VNone)].
Proof.
  unfold get_build_number_from_queue, called.
  destruct (truthy_str (location r)); cbn [negb]; [|reflexivity].
  cbv zeta.
  set (u := queue_api_url self (get_default (location r) "")).
  destruct (queue_loop_frame self u (seq 0 30) s) as ([found Hres] & _).
  destruct (queue_loop self u (seq 0 30) s) as [r' f e] eqn:E.
  cbn [res] in Hres. subst r'.
  rewrite (try_run _ (bind_run _ E)). cbn [res final emitted].
  destruct found; cbn; rewrite ?app_nil_r; reflexivity.
Qed.

Arguments get_build_number_from_queue : simpl never.

(** C3.  With a [Location] header present, queue resolution sends at most 30
    polls, all to the queue item's status URL.  When the first [k] answers
    are pending and answer [k] (counting from 0, [k < 30]) carries a build
    number, that number is returned after exactly [k + 1] polls; when all 30
    answers are pending, [None] is returned after exactly 30 polls. *)
Theorem queue_resolution_polls
    (self : Builder) (response0 : response) (job_name : string) (s : State) :
  truthy_str (location response0) = true ->
  let u := Get (UPlain (queue_api_url self (get_default (location response0) ""))) in
  let answer i := respond (session self) (sent s + i) u in
  let o := get_build_number_from_queue self response0 job_name s in
  let polls := requests (emitted o) in
  (List.length polls <= 30)%nat /\
  Forall (fun r => r = u) polls /\
  (forall k v,
      (k < 30)%nat ->
      (forall i, (i < k)%nat -> is_pending (answer i) = true) ->
      resolved_number (answer k) = Some v ->
      res o = Ok v /\ List.length polls = S k) /\
  ((forall i, (i < 30)%nat -> is_pending (answer i) = true) ->
   res o = Ok VNone /\ List.length polls = 30%nat).
Proof.
  intros Hloc u answer o polls.
  unfold polls, o. rewrite get_build_number_from_queue_run, Hloc. cbv zeta.
  cbn [res emitted]. rewrite requests_app. cbn [requests flat_map app].
  rewrite app_nil_r.
  set (q := queue_api_url self (get_default (location response0) "")) in *.
  destruct (queue_loop_frame self q (seq 0 30) s)
    as (_ & _ & _ & _ & _ & Hlen & Hall).
  rewrite length_seq in Hlen.
  split; [exact Hlen|]. split; [exact Hall|]. split.
  - intros k v Hk Hp Hr.
    destruct (@queue_loop_resolves self q k (seq 0 30) s v) as (I1 & I2);
      [rewrite length_seq; exact Hk | exact Hp | exact Hr |].
    rewrite I1, I2. auto.
  - intros Hp.
    destruct (@queue_loop_exhausts self q (seq 0 30) s) as (I1 & I2).
    { rewrite length_seq. exact Hp. }
    rewrite I1, I2, length_seq. auto.
Qed.

(** ** External endpoint poller *)

Lemma poll_try_block self u expected s :
  let a := respond (session self) (sent s) (Get (UPlain u)) in
  try_except
    (response0 <- http (session self) (Get (UPlain u)) ;;
     if status_code response0 =? expected then ret true else ret false)
    (fun _ => ret false) s =
  Outcome (Ok (answer_matches expected a))
          {| current_job := current_job s;
             current_build_number := current_build_number s;
             now := now s + Z.of_nat (latency (session self) (sent s));
             sent := S (sent s) |}
          [EHttp (now s) (Get (UPlain u)) a].
Proof.
  intros a.
  pose proof (http_run (session self) (Get (UPlain u)) s) as Hh. fold a in Hh.
  unfold answer_matches.
  destruct a as [r|]; rewrite (try_run _ (bind_run _ Hh)); [|reflexivity].
  destruct (status_code r =? expected); reflexivity.
Qed.

Lemma poll_loop_unfold self u max_attempts0 interval expected attempt rest s :
  let a := respond (session self) (sent s) (Get (UPlain u)) in
  let s1 := {| current_job := current_job s;
               current_build_number := current_build_number s;
               now := now s + Z.of_nat (latency (session self) (sent s));
               sent := S (sent s) |} in
  let ev := EHttp (now s) (Get (UPlain u)) a in
  poll_loop self u max_attempts0 interval expected (attempt :: rest) s =
  if answer_matches expected a then Outcome (Ok true) s1 [ev]
  else if attempt <? max_attempts0 then
         if interval <? 0 then Outcome (Raised ValueError) s1 [ev]
         else
           let s2 := {| current_job := current_job s;
                        current_build_number := current_build_number s;
                        now := now s1 + interval;
                        sent := S (sent s) |} in
           let o' := poll_loop self u max_attempts0 interval expected rest s2 in
           Outcome (res o') (final o') (ev :: ESleep interval :: emitted o')
       else
         let o' := poll_loop self u max_attempts0 interval expected rest s1 in
         Outcome (res o') (final o') (ev :: emitted o').
Proof.
  intros a s1 ev. cbn [poll_loop].
  pose proof (poll_try_block self u expected s) as HT. cbv zeta in HT.
  fold a in HT. fold s1 in HT. fold ev in HT.
  rewrite (bind_run _ HT).
  destruct (answer_matches expected a); [reflexivity|].
  destruct (attempt <? max_attempts0).
  - destruct (interval <? 0) eqn:Ei.
    + rewrite bind_sleep_negative by exact Ei. reflexivity.
    + rewrite bind_sleep by exact Ei. reflexivity.
  - step_ret. reflexivity.
Qed.

Section PollLoop.
Variables (self : Builder) (u : string) (max_attempts0 interval expected : Z).

Let answer (n : nat) := respond (session self) n (Get (UPlain u)).
Let loop := poll_loop self u max_attempts0 interval expected.

Lemma poll_loop_frame attempts s :
  let o := loop attempts s in
  current_job (final o) = current_job s /\
  current_build_number (final o) = current_build_number s /\
  steps (emitted o) = [] /\
  (List.length (requests (emitted o)) <= List.length attempts)%nat /\
  Forall (fun r => r = Get (UPlain u)) (requests (emitted o)).
Proof.
  unfold loop. revert s. induction attempts as [|x rest IH]; intros s.
  - cbn. repeat split; auto.
  - cbv zeta. rewrite poll_loop_unfold.
    destruct (answer_matches _ _); cbv zeta.
    { cbn. repeat split; auto; try lia. }
    destruct (x <? max_attempts0); [destruct (interval <? 0)|].
    + cbn. repeat split; auto; try lia.
    + match goal with |- context [poll_loop _ _ _ _ _ rest ?s'] =>
        destruct (IH s') as (I1 & I2 & I3 & I4 & I5) end.
      cbn [res final emitted].
      rewrite requests_http, requests_sleep, steps_http, steps_sleep.
      split; [exact I1|]. split; [exact I2|]. split; [exact I3|].
      split; [cbn [List.length]; lia|]. constructor; auto.
    + match goal with |- context [poll_loop _ _ _ _ _ rest ?s'] =>
        destruct (IH s') as (I1 & I2 & I3 & I4 & I5) end.
      cbn [res final emitted].
      rewrite requests_http, steps_http.
      split; [exact I1|]. split; [exact I2|]. split; [exact I3|].
      split; [cbn [List.length]; lia|]. constructor; auto.
Qed.

Hypothesis interval_nonneg : 0 <= interval.

Lemma poll_loop_pauses m : forall j s,
  counts_up_to_max max_attempts0 j m ->
  let o := loop (map Z.of_nat (seq j m)) s in
  (exists b, res o = Ok b) /\
  ((0 < m)%nat -> exchanges (emitted o) <> []) /\
  effects (emitted o) = interleaved (ESleep interval) (exchanges (emitted o)).
Proof.
  unfold loop. induction m as [|m IH]; intros j s Hc.
  - cbn. repeat split; eauto. lia.
  - cbv zeta. cbn [seq map]. rewrite poll_loop_unfold.
    destruct (answer_matches _ _); cbv zeta.
    { cbn. repeat split; eauto. discriminate. }
    assert (Hj : (Z.of_nat j <? max_attempts0) = negb (Nat.eqb m 0)).
    { unfold counts_up_to_max in Hc. specialize (Hc ltac:(lia)).
      destruct m; cbn; [apply Z.ltb_ge | apply Z.ltb_lt]; lia. }
    rewrite Hj.
    destruct m as [|m'].
    + cbn. repeat split; eauto. discriminate.
    + cbn [Nat.eqb negb].
      destruct (Z.ltb_spec interval 0); [lia|].
      match goal with |- context [poll_loop _ _ _ _ _ ?l ?s'] =>
        destruct (IH (S j) s') as (I1 & I2 & I3);
        [ unfold counts_up_to_max in *; intros _; rewrite <- Hc by lia; lia
        | set (o' := poll_loop self u max_attempts0 interval expected l s') in * ]
      end.
      cbn [res final emitted].
      rewrite effects_http, effects_sleep, exchanges_http, exchanges_sleep.
      split; [exact I1|]. split; [discriminate|].
      rewrite I3. cbn [interleaved].
      destruct (exchanges (emitted o')) eqn:E;
        [exfalso; apply I2; [lia|reflexivity] | reflexivity].
Qed.
End PollLoop.

Section PollLoopOutcome.
Variables (self : Builder) (u : string) (max_attempts0 interval expected : Z).
Hypothesis interval_nonneg : 0 <= interval.

Let answer (n : nat) := respond (session self) n (Get (UPlain u)).
Let loop := poll_loop self u max_attempts0 interval expected.

Lemma poll_loop_first_match k : forall attempts s,
  (k < List.length attempts)%nat ->
  (forall i, (i < k)%nat -> answer_matches expected (answer (sent s + i)) = false) ->
  answer_matches expected (answer (sent s + k)) = true ->
  let o := loop attempts s in
  res o = Ok true /\ List.length (requests (emitted o)) = S k.
Proof.
  unfold loop. induction k as [|k IH]; intros attempts s Hk Hp Hr;
    destruct attempts as [|x rest]; cbn in Hk; try lia;
    cbv zeta; rewrite poll_loop_unfold; fold (answer (sent s)).
  - rewrite Nat.add_0_r in Hr. rewrite Hr. cbn. auto.
  - assert (H0 : answer_matches expected (answer (sent s)) = false)
      by (rewrite <- (Nat.add_0_r (sent s)); apply Hp; lia).
    rewrite H0. cbv zeta.
    destruct (Z.ltb_spec interval 0); [lia|].
    destruct (x <? max_attempts0);
      (match goal with |- context [poll_loop _ _ _ _ _ rest ?s'] =>
         destruct (IH rest s') as (I1 & I2) end;
       [ lia
       | intros i Hi; cbn [sent];
         replace (S (sent s) + i)%nat with (sent s + S i)%nat by lia; apply Hp; lia
       | cbn [sent]; replace (S (sent s) + k)%nat with (sent s + S k)%nat by lia;
         exact Hr
       | cbn [res emitted]; rewrite requests_http, ?requests_sleep;
         split; [exact I1 | cbn [List.length]; now rewrite I2] ]).
Qed.

Lemma poll_loop_exhausts : forall attempts s,
  (forall i, (i < List.length attempts)%nat ->
             answer_matches expected (answer (sent s + i)) = false) ->
  let o := loop attempts s in
  res o = Ok false /\ List.length (requests (emitted o)) = List.length attempts.
Proof.
  unfold loop. induction attempts as [|x rest IH]; intros s Hp.
  - cbn. auto.
  - cbv zeta. rewrite poll_loop_unfold. fold (answer (sent s)).
    assert (H0 : answer_matches expected (answer (sent s)) = false)
      by (rewrite <- (Nat.add_0_r (sent s)); apply Hp; cbn; lia).
    rewrite H0. cbv zeta.
    destruct (Z.ltb_spec interval 0); [lia|].
    destruct (x <? max_attempts0);
      (match goal with |- context [poll_loop _ _ _ _ _ rest ?s'] =>
         destruct (IH s') as (I1 & I2) end;
       [ intros i Hi; cbn [sent];
         replace (S (sent s) + i)%nat with (sent s + S i)%nat by lia;
         apply Hp; cbn; lia
       | cbn [res emitted]; rewrite requests_http, ?requests_sleep;
         split; [exact I1 | cbn [List.length]; now rewrite I2] ]).
Qed.
End PollLoopOutcome.

Lemma poll_interface_run self interface_url u s :
  polling_target self interface_url = Some u ->
  let o' := poll_loop self u
              (get_default (max_attempts (config self)) 60)
              (get_default (interval_seconds (config self)) 30)
              (get_default (expected_status_code (config self)) 200)
              (attempts_range (get_default (max_attempts (config self)) 60)) s in
  poll_interface self interface_url s =
  Outcome (res o') (final o')
          (emitted o' ++ [ECalled (now s) MPollInterface (shown (res o'))]).
Proof.
  intros Ht. cbv zeta. unfold poll_interface, called.
  assert (E : (if truthy_str interface_url
               then ret (get_default interface_url "")
               else match polling_url (config self) with
                    | Some u0 => ret u0
                    | None => raise KeyError
                    end) s = Outcome (Ok u) s []).
  { unfold polling_target in Ht. destruct (truthy_str interface_url).
    - rewrite Ht. reflexivity.
    - rewrite Ht. reflexivity. }
  rewrite (bind_silent _ E).
  destruct (poll_loop _ _ _ _ _ _ s) as [r f e]. reflexivity.
Qed.

(** C5.  With a target URL and a non-negative interval, [poll_interface]
    returns; it sends at most [max_attempts] requests, all to the target; it
    returns [True] at the first answer with the expected status, having sent
    exactly the attempts up to that one; it returns [False] after
    [max_attempts] attempts when none matched, a transport failure counting
    as a mismatch; and it sleeps for the interval between two consecutive
    attempts and at no other place. *)
Theorem poll_interface_attempts
    (self : Builder) (interface_url : option string) (u : string) (s : State) :
  let max_attempts0 := get_default (max_attempts (config self)) 60 in
  let interval := get_default (interval_seconds (config self)) 30 in
  let expected := get_default (expected_status_code (config self)) 200 in
  let o := poll_interface self interface_url s in
  let attempts := requests (emitted o) in
  let answer i := respond (session self) (sent s + i) (Get (UPlain u)) in
  polling_target self interface_url = Some u ->
  0 <= interval ->
  (exists b, res o = Ok b) /\
  (List.length attempts <= Z.to_nat max_attempts0)%nat /\
  Forall (fun r => r = Get (UPlain u)) attempts /\
  (forall k,
      (k < Z.to_nat max_attempts0)%nat ->
      (forall i, (i < k)%nat -> answer_matches expected (answer i) = false) ->
      answer_matches expected (answer k) = true ->
      res o = Ok true /\ List.length attempts = S k) /\
  ((forall i, (i < Z.to_nat max_attempts0)%nat ->
              answer_matches expected (answer i) = false) ->
   res o = Ok false /\ List.length attempts = Z.to_nat max_attempts0) /\
  effects (emitted o) = interleaved (ESleep interval) (exchanges (emitted o)).
Proof.
  intros max_attempts0 interval expected o attempts answer Ht Hi.
  unfold attempts, o. rewrite (@poll_interface_run self interface_url u s Ht). cbv zeta.
  fold max_attempts0 interval expected. cbn [res emitted].
  rewrite requests_app, effects_app. cbn [requests effects flat_map filter app].
  rewrite !app_nil_r.
  assert (Hx : forall l e, exchanges (l ++ [ECalled (now s) MPollInterface e])%list
                           = exchanges l).
  { intros l e. unfold exchanges. rewrite filter_app. cbn. apply app_nil_r. }
  rewrite Hx.
  unfold attempts_range.
  set (n := Z.to_nat max_attempts0).
  destruct (poll_loop_frame self u max_attempts0 interval expected
              (map Z.of_nat (seq 1 n)) s) as (_ & _ & _ & Hlen & Hall).
  rewrite length_map, length_seq in Hlen.
  destruct (@poll_loop_pauses self u max_attempts0 interval expected Hi n 1 s)
    as (Hret & _ & Hpause).
  { unfold counts_up_to_max, n. intros Hn. lia. }
  split; [exact Hret|]. split; [exact Hlen|]. split; [exact Hall|].
  split; [|split; [|exact Hpause]].
  - intros k Hk Hp Hm.
    apply (@poll_loop_first_match self u max_attempts0 interval expected Hi k);
      auto. rewrite length_map, length_seq. exact Hk.
  - intros Hp.
    destruct (@poll_loop_exhausts self u max_attempts0 interval expected Hi
                (map Z.of_nat (seq 1 n)) s) as (I1 & I2).
    { rewrite length_map, length_seq. exact Hp. }
    rewrite length_map, length_seq in I2. auto.
Qed.

(** ** Build trigger *)

Lemma get_build_number_from_queue_returns self r job s :
  exists v, res (get_build_number_from_queue self r job s) = Ok v.
Proof.
  rewrite get_build_number_from_queue_run.
  destruct (truthy_str (location r)); cbn; eauto.
Qed.

Lemma crumb_headers_block (c : value) s :
  (if truthy c then
     token <- py_item c "crumb" ;;
     field <- py_item c "crumbRequestField" ;;
     if hashable field then ret [(field, token)] else raise TypeError
   else ret [])%py s =
  Outcome match prepared_headers c with
          | inr headers => Ok headers
          | inl e => Raised e
          end s [].
Proof.
  unfold prepared_headers. destruct (truthy c); [|reflexivity].
  destruct c; try reflexivity.
  cbn [py_item].
  destruct (assoc "crumb" d) as [token|]; [|reflexivity]. step_ret.
  destruct (assoc "crumbRequestField" d) as [field|]; [|reflexivity]. step_ret.
  destruct (hashable field); reflexivity.
Qed.

Lemma trigger_build_run self job br ps s :
  trigger_build self job br ps s =
  match crumb_headers (crumb self) with
  | inr headers =>
      let req := trigger_request self job br ps headers in
      let a := respond (session self) (sent s) req in
      let s1 := {| current_job := current_job s;
                   current_build_number := current_build_number s;
                   now := now s + Z.of_nat (latency (session self) (sent s));
                   sent := S (sent s) |} in
      match a with
      | Some r =>
          if accepted r then
            let o' := get_build_number_from_queue self r job s1 in
            let v := match res o' with
                     | Ok n => if truthy n then n else VInt (-1)
                     | _ => VNone
                     end in
            Outcome (Ok v) (final o')
                    (EHttp (now s) req a
                     :: emitted o' ++ [ECalled (now s) (MTriggerBuild job) (Ok v)])
          else
            Outcome (Ok VNone) s1
                    [EHttp (now s) req a; ECalled (now s) (MTriggerBuild job) (Ok VNone)]
      | None =>
          Outcome (Ok VNone) s1
                  [EHttp (now s) req a; ECalled (now s) (MTriggerBuild job) (Ok VNone)]
      end
  | inl _ => Outcome (Ok VNone) s [ECalled (now s) (MTriggerBuild job) (Ok VNone)]
  end.
Proof.
  unfold trigger_build. cbv zeta.
  pose proof (crumb_headers_block (crumb self) s) as Hc.
  match goal with |- called _ _ (try_except (bind _ ?K) ?h) s = _ =>
    pose proof (bind_run K Hc) as Hb end.
  unfold crumb_headers.
  destruct (prepared_headers (crumb self)) as [e|headers].
  { rewrite (called_run _ _ (try_run _ Hb)). reflexivity. }
  cbv iota beta in Hb. unfold session_post in Hb.
  destruct (refused headers) as [e|].
  { rewrite bind_raise in Hb. cbn [res final emitted app] in Hb.
    rewrite (called_run _ _ (try_run _ Hb)). reflexivity. }
  match type of Hb with _ = Outcome (res (bind (http ?e ?rq) ?K2 s)) _ _ =>
    pose proof (http_run e rq s) as Hh;
    rewrite (bind_run K2 Hh) in Hb;
    change (trigger_request self job br ps headers) with rq;
    destruct (respond e (sent s) rq) as [r|]
  end.
  2:{ cbn [res final emitted app] in Hb.
      rewrite (called_run _ _ (try_run _ Hb)). reflexivity. }
  cbv iota beta in Hb. unfold accepted.
  destruct ((status_code r =? 200) || (status_code r =? 201)).
  2:{ cbn [ret res final emitted app] in Hb.
      rewrite (called_run _ _ (try_run _ Hb)). reflexivity. }
  cbv zeta. cbv iota in Hb.
  match type of Hb with
    context [bind (get_build_number_from_queue self r job) ?K3 ?s1] =>
    destruct (get_build_number_from_queue_returns self r job s1) as [n Hn];
    destruct (get_build_number_from_queue self r job s1) as [rq sq eq1] eqn:Eq;
    cbn [res] in Hn; subst rq;
    rewrite (bind_run K3 Eq) in Hb
  end.
  cbn [res final emitted] in Hb |- *.
  destruct (truthy n); cbn [ret res final emitted app] in Hb;
    rewrite (called_run _ _ (try_run _ Hb)); cbn [res final emitted app];
    rewrite ?app_nil_r; reflexivity.
Qed.

Lemma get_build_number_from_queue_breaks self r job s k :
  truthy_str (location r) = true ->
  let answer i := respond (session self) (sent s + i)
                    (Get (UPlain (queue_api_url self (get_default (location r) "")))) in
  (k < 30)%nat ->
  (forall i, (i < k)%nat -> is_pending (answer i) = true) ->
  queue_verdict (answer k) = Break ->
  res (get_build_number_from_queue self r job s) = Ok VNone.
Proof.
  intros Hloc answer Hk Hp Hb.
  rewrite get_build_number_from_queue_run, Hloc. cbv zeta. cbn [res].
  rewrite (@queue_loop_breaks self _ k);
    [reflexivity | rewrite length_seq; exact Hk | exact Hp | exact Hb].
Qed.



(** C10.  [trigger_build] always returns a value, and so does queue
    resolution.  A failure while the headers are prepared or a transport
    failure of the POST gives [None].  Once the POST is accepted, an exception
    in a queue poll ends queue resolution quietly and the trigger returns the
    sentinel -1. *)
Theorem trigger_build_catches_exceptions
    (self : Builder) (job_name : string) (branch0 : option string)
    (parameters0 : option params) (s : State) :
  let o := trigger_build self job_name branch0 parameters0 s in
  let post := trigger_request self job_name branch0 parameters0 in
  (exists v, res o = Ok v) /\
  (forall r s', exists v,
      res (get_build_number_from_queue self r job_name s') = Ok v) /\
  (forall e, crumb_headers (crumb self) = inl e -> res o = Ok VNone) /\
  (forall headers,
      crumb_headers (crumb self) = inr headers ->
      respond (session self) (sent s) (post headers) = None ->
      res o = Ok VNone) /\
  (forall headers r k,
      crumb_headers (crumb self) = inr headers ->
      respond (session self) (sent s) (post headers) = Some r ->
      accepted r = true ->
      truthy_str (location r) = true ->
      let answer i :=
        respond (session self) (S (sent s) + i)
          (Get (UPlain (queue_api_url self (get_default (location r) "")))) in
      (k < 30)%nat ->
      (forall i, (i < k)%nat -> is_pending (answer i) = true) ->
      poll_raises (answer k) = true ->
      res o = Ok (VInt (-1))).
Proof.
  intros o post. unfold o, post. rewrite trigger_build_run.
  split; [|split; [|split; [|split]]].
  - destruct (crumb_headers (crumb self)) as [e|headers]; cbn; eauto.
    destruct (respond _ _ _) as [r|]; cbn; eauto.
    destruct (accepted r); cbn; eauto.
  - intros r s'. apply get_build_number_from_queue_returns.
  - intros e ->. reflexivity.
  - intros headers -> Hr. cbv zeta. rewrite Hr. reflexivity.
  - intros headers r k -> Hr Ha Hloc Hk Hp Hx. cbv zeta.
    rewrite Hr, Ha. cbn [res].
    erewrite get_build_number_from_queue_breaks; eauto.
    apply raises_verdict. exact Hx.
Qed.

(** C6.  When the trigger POST is accepted (status 200 or 201) and queue
    resolution finds no build number, because the [Location] header is
    missing, or a poll is rejected (a status other than 200, or a transport
    failure) after pending ones, or all 30 polls are pending, [trigger_build]
    returns the sentinel -1.  With the sentinel a status query is one GET of
    the lastBuild endpoint of the job, and its result is what that answer
    gives.  So a completion wait on the sentinel asks the lastBuild endpoint
    and nothing else, the snapshots it looks at are the answers to these
    queries in order, and it asks at least once when its timeout is
    positive. *)
Theorem unresolved_build_number_falls_back
    (self : Builder) (job_name : string) (branch0 : option string)
    (parameters0 : option params) (s : State)
    (headers : list (value * value)) (r : response) :
  let answer i :=
    respond (session self) (S (sent s) + i)
      (Get (UPlain (queue_api_url self (get_default (location r) "")))) in
  let last_build :=
    Get (ULastBuild (rstrip_slash (jenkins_url (config self))) job_name) in
  let timeout := get_default (timeout_seconds (config self)) 1800 in
  let check_interval := get_default (check_interval_seconds (config self)) 30 in
  crumb_headers (crumb self) = inr headers ->
  respond (session self) (sent s)
    (trigger_request self job_name branch0 parameters0 headers) = Some r ->
  accepted r = true ->
  truthy_str (location r) = false
  \/ (exists k, (k < 30)%nat
                /\ (forall i, (i < k)%nat -> is_pending (answer i) = true)
                /\ is_rejected (answer k) = true)
  \/ (forall i, (i < 30)%nat -> is_pending (answer i) = true) ->
  res (trigger_build self job_name branch0 parameters0 s) = Ok (VInt (-1)) /\
  (forall fuel s',
    Forall (fun q => q = Get (ULastBuild (rstrip_slash (jenkins_url (config self)))
                                         job_name))
           (requests (emitted (wait_for_build_completion fuel self job_name
                                                         (VInt (-1)) s')))) /\
  (forall s',
    let q := get_job_status self job_name (VInt (-1)) s' in
    requests (emitted q) = [last_build] /\
    res q = Ok (status_of_answer (respond (session self) (sent s') last_build))) /\
  (forall fuel s',
    let w := wait_for_build_completion fuel self job_name (VInt (-1)) s' in
    let seen := snapshots (emitted w) in
    requests (emitted w) = repeat last_build (List.length seen) /\
    seen = map (fun k =>
                  (poll_time (session self) check_interval (now s') (sent s') k,
                   status_of_answer
                     (respond (session self) (sent s' + k) last_build)))
               (seq 0 (List.length seen)) /\
    ((0 < fuel)%nat -> 0 < timeout -> requests (emitted w) <> [])).
Proof.
  intros answer last_build timeout check_interval Hh Hr Ha Hq.
  split; [|split; [|split]].
  - rewrite trigger_build_run, Hh. cbv zeta. rewrite Hr, Ha. cbn [res].
    assert (E : res (get_build_number_from_queue self r job_name
                       {| current_job := current_job s;
                          current_build_number := current_build_number s;
                          now := now s + Z.of_nat (latency (session self) (sent s));
                          sent := S (sent s) |}) = Ok VNone).
    { destruct Hq as [Hloc | [(k & Hk & Hp & Hx) | Hp]].
      - rewrite get_build_number_from_queue_run, Hloc. reflexivity.
      - destruct (truthy_str (location r)) eqn:Hloc.
        + eapply get_build_number_from_queue_breaks; eauto.
          apply rejected_verdict. exact Hx.
        + rewrite get_build_number_from_queue_run, Hloc. reflexivity.
      - destruct (truthy_str (location r)) eqn:Hloc.
        + rewrite get_build_number_from_queue_run, Hloc. cbv zeta. cbn [res].
          destruct (@queue_loop_exhausts self
                      (queue_api_url self (get_default (location r) ""))
                      (seq 0 30)
                      {| current_job := current_job s;
                         current_build_number := current_build_number s;
                         now := now s + Z.of_nat (latency (session self) (sent s));
                         sent := S (sent s) |}) as (I1 & _).
          { rewrite length_seq. exact Hp. }
          rewrite I1. reflexivity.
        + rewrite get_build_number_from_queue_run, Hloc. reflexivity. }
    rewrite E. reflexivity.
  - intros fuel s'.
    destruct (wait_for_build_completion_frame fuel self job_name (VInt (-1)) s')
      as (_ & _ & _ & F).
    exact F.
  - intros s'. cbv zeta. rewrite get_job_status_run. split; reflexivity.
  - intros fuel s'.
    destruct (wait_for_build_completion_polls fuel self job_name (VInt (-1)) s')
      as (Hm & Hreq & Hne).
    cbv zeta. split; [exact Hreq|]. split; [exact Hm|].
    intros Hf Ht. rewrite Hreq.
    destruct (snapshots _) as [|x l] eqn:Es; [|discriminate].
    exfalso. exact (Hne Hf Ht eq_refl).
Qed.

(** ** Workflow *)

Lemma trigger_build_frame self job br ps s :
  let o := trigger_build self job br ps s in
  exists v,
    res o = Ok v /\
    current_job (final o) = current_job s /\
    current_build_number (final o) = current_build_number s /\
    steps (emitted o) = [Triggered job (Ok v)].
Proof.
  cbv zeta. rewrite trigger_build_run.
  destruct (crumb_headers (crumb self)) as [e|headers];
    try (cbn; eexists; repeat split; reflexivity).
  cbv zeta. destruct (respond _ _ _) as [r|];
    try (cbn; eexists; repeat split; reflexivity).
  destruct (accepted r); try (cbn; eexists; repeat split; reflexivity).
  rewrite get_build_number_from_queue_run.
  destruct (truthy_str (location r)).
  - cbv zeta. cbn [res final emitted].
    match goal with |- context [queue_loop self ?u ?l ?s'] =>
      destruct (queue_loop_frame self u l s') as (_ & I1 & I2 & _ & I3 & _) end.
    eexists. split; [reflexivity|]. rewrite I1, I2. cbn [current_job current_build_number].
    repeat split.
    cbn [steps flat_map]. fold steps. rewrite !steps_app, I3. reflexivity.
  - cbn. eexists; repeat split; reflexivity.
Qed.

Lemma poll_interface_frame self interface_url s :
  let o := poll_interface self interface_url s in
  current_job (final o) = current_job s /\
  current_build_number (final o) = current_build_number s /\
  steps (emitted o) = [Polled (shown (res o))].
Proof.
  cbv zeta. destruct (polling_target self interface_url) as [u|] eqn:Ht.
  - rewrite (@poll_interface_run self interface_url u s Ht). cbv zeta.
    cbn [res final emitted].
    match goal with |- context [poll_loop self u ?a ?b ?c ?l s] =>
      destruct (poll_loop_frame self u a b c l s) as (I1 & I2 & I3 & _) end.
    rewrite steps_app, I3. auto.
  - unfold polling_target in Ht. unfold poll_interface, called, bind.
    destruct (truthy_str interface_url) eqn:Hi.
    + destruct interface_url; discriminate.
    + rewrite Ht. cbn. auto.
Qed.

Lemma countdown_frame n s :
  let o := countdown n s in
  res o = Ok tt /\
  current_job (final o) = current_job s /\
  current_build_number (final o) = current_build_number s /\
  steps (emitted o) = [].
Proof.
  revert s. induction n as [|n IH]; intros s; [cbn; auto|].
  cbv zeta. cbn [countdown]. rewrite bind_sleep by reflexivity.
  cbn [res final emitted]. rewrite steps_sleep.
  match goal with |- context [countdown n ?s'] =>
    destruct (IH s') as (I1 & I2 & I3 & I4) end.
  auto.
Qed.

Arguments trigger_build : simpl never.
Arguments wait_for_build_completion : simpl never.
Arguments poll_interface : simpl never.

Lemma bind_set_tracking {B} j n (k : unit -> M B) s :
  bind (set_tracking j n) k s =
  k tt {| current_job := j; current_build_number := n;
          now := now s; sent := sent s |}.
Proof. now apply bind_silent. Qed.

Ltac next_bind := rewrite res_bind, emitted_bind, steps_app; cbv beta.

Lemma workflow_loop_steps fuel self br ep wt total : forall rest i s,
  (i + List.length rest = total)%nat ->
  let o := workflow_loop fuel self br ep wt total i rest s in
  workflow_steps ep i (map name rest) (steps (emitted o)) (res o).
Proof.
  induction rest as [|job rest IH]; intros i s Hlen.
  - cbn. constructor.
  - cbv zeta. cbn [workflow_loop map]. next_bind.
    match goal with |- context [trigger_build ?a ?b ?c ?d s] =>
      pose proof (trigger_build_frame a b c d s) as F; cbv zeta in F;
      set (o1 := trigger_build a b c d s) in *
    end.
    destruct F as (v & R1 & _ & _ & S1). rewrite R1, S1.
    generalize (final o1). clear o1 R1 S1.
    intros s1. destruct (is_none v) eqn:Hv.
    { destruct v; try discriminate. cbn. constructor. }
    rewrite !bind_set_tracking.
    match goal with
      |- context [bind (wait_for_build_completion _ _ _ _) _ ?st] =>
      generalize st
    end.
    intros s2. next_bind.
    destruct (wait_for_build_completion_frame fuel self (name job) v s2)
      as (_ & _ & S2 & _).
    rewrite S2. generalize (final (wait_for_build_completion fuel self (name job) v s2)).
    intros s3.
    destruct (res (wait_for_build_completion fuel self (name job) v s2))
      as [[|]| e |] eqn:R2; cbn [negb shown].
    2:{ cbn. apply (@WS_wait_failed ep i (name job) (map name rest) v (Ok false)); auto.
        discriminate. }
    2:{ cbn. apply (@WS_wait_failed ep i (name job) (map name rest) v (Raised e)); auto.
        discriminate. }
    2:{ cbn. apply (@WS_wait_failed ep i (name job) (map name rest) v OutOfFuel); auto.
        discriminate. }
    rewrite !bind_set_tracking.
    generalize {| current_job := None; current_build_number := VNone;
                  now := now s3; sent := sent s3 |}.
    intros s4. next_bind.
    destruct (Z.ltb_spec (Z.of_nat i) (Z.of_nat total - 1)) as [Hnext|Hlast].
    + (* another job follows *)
      destruct rest as [|job' rest']; [cbn in Hlen; lia|].
      next_bind.
      destruct (Nat.eqb i 0 && ep) eqn:Hpoll.
      * apply andb_prop in Hpoll as [Hi0 ->]. apply Nat.eqb_eq in Hi0. subst i.
        destruct (poll_interface_frame self None s4) as (_ & _ & S3).
        rewrite S3. generalize (final (poll_interface self None s4)). intros s5.
        destruct (res (poll_interface self None s4)) as [[|]| e |] eqn:R3;
          cbn [negb shown].
        2:{ cbn. apply (@WS_poll_failed true (name job) (name job') (map name rest')
                          v (Ok false)); auto. discriminate. }
        2:{ cbn. apply (@WS_poll_failed true (name job) (name job') (map name rest')
                          v (Raised e)); auto. discriminate. }
        2:{ cbn. apply (@WS_poll_failed true (name job) (name job') (map name rest')
                          v OutOfFuel); auto. discriminate. }
        next_bind.
        assert (C : forall st, res ((if wt >? 0 then countdown (Z.to_nat wt) else ret tt) st) = Ok tt
                               /\ steps (emitted ((if wt >? 0 then countdown (Z.to_nat wt) else ret tt) st)) = []).
        { intros st. destruct (wt >? 0); [|cbn; auto].
          destruct (countdown_frame (Z.to_nat wt) st) as (I1 & _ & _ & I4). auto. }
        destruct (C s5) as (C1 & C2). rewrite C1, C2.
        cbn [ret res final emitted steps flat_map app].
        match goal with |- context [workflow_loop _ _ _ _ _ _ _ _ ?st] =>
          specialize (IH 1%nat st ltac:(cbn in *; lia)) end.
        cbv zeta in IH. cbn [map] in IH. cbn [app].
        apply WS_polled; auto.
      * destruct (Nat.eqb_spec i 0) as [Hi0|Hi0]; cbn [andb] in Hpoll.
        -- subst ep. cbn [ret res final emitted steps flat_map app negb].
           next_bind.
           assert (C : forall st, res ((if wt >? 0 then countdown (Z.to_nat wt) else ret tt) st) = Ok tt
                               /\ steps (emitted ((if wt >? 0 then countdown (Z.to_nat wt) else ret tt) st)) = []).
           { intros st. destruct (wt >? 0); [|cbn; auto].
             destruct (countdown_frame (Z.to_nat wt) st) as (I1 & _ & _ & I4). auto. }
           destruct (C s4) as (C1 & C2). rewrite C1, C2.
           cbn [ret res final emitted steps flat_map app].
           match goal with |- context [workflow_loop _ _ _ _ _ _ _ _ ?st] =>
             specialize (IH (S i) st ltac:(cbn in *; lia)) end.
           cbv zeta in IH. apply WS_next; auto.
        -- cbn [ret res final emitted steps flat_map app negb].
           next_bind.
           assert (C : forall st, res ((if wt >? 0 then countdown (Z.to_nat wt) else ret tt) st) = Ok tt
                               /\ steps (emitted ((if wt >? 0 then countdown (Z.to_nat wt) else ret tt) st)) = []).
           { intros st. destruct (wt >? 0); [|cbn; auto].
             destruct (countdown_frame (Z.to_nat wt) st) as (I1 & _ & _ & I4). auto. }
           destruct (C s4) as (C1 & C2). rewrite C1, C2.
           cbn [ret res final emitted steps flat_map app].
           match goal with |- context [workflow_loop _ _ _ _ _ _ _ _ ?st] =>
             specialize (IH (S i) st ltac:(cbn in *; lia)) end.
           cbv zeta in IH. apply WS_next; auto. intros; contradiction.
    + (* the last job *)
      assert (rest = []) as -> by (destruct rest; [reflexivity | cbn in Hlen; lia]).
      cbn [ret res final emitted steps flat_map app].
      specialize (IH (S i) s4 ltac:(cbn in *; lia)). cbv zeta in IH.
      apply WS_next; auto.
Qed.

Lemma run_build_workflow_steps fuel self s :
  let o := run_build_workflow fuel self s in
  (get_jobs_list self = [] /\ res o = Ok false /\ steps (emitted o) = []) \/
  (get_jobs_list self <> [] /\
   workflow_steps (get_default (enable_polling (config self)) false) 0
                  (map name (get_jobs_list self)) (steps (emitted o)) (res o)).
Proof.
  cbv zeta. unfold run_build_workflow.
  rewrite res_called, emitted_called, steps_app. cbn [steps flat_map app].
  rewrite app_nil_r.
  destruct (get_jobs_list self) as [|job rest] eqn:E.
  - left. cbn. auto.
  - right. split; [discriminate|].
    apply (workflow_loop_steps fuel self
             (get_default (branch (config self)) "master")
             (get_default (enable_polling (config self)) false)
             (get_default (wait_between_builds (config self)) 30)
             (job :: rest) 0 s).
    reflexivity.
Qed.

Lemma workflow_steps_no_later_poll ep i names ss r :
  workflow_steps ep i names ss r -> i <> 0%nat -> poll_results ss = [].
Proof.
  induction 1; intros Hi; cbn; auto; try congruence.
Qed.

Lemma workflow_steps_trigger_none ep i names ss r :
  workflow_steps ep i names ss r ->
  forall k j,
    nth_error (trigger_results ss) k = Some (j, Ok VNone) ->
    r = Ok false /\ triggered ss = firstn (S k) names /\
    nth_error names k = Some j.
Proof.
  induction 1 as [i | i j rest | i j rest n r Hn Hr | j j' rest n r Hn Hp Hr
                  | j j' rest n ss r Hn Hp H IH | i j rest n ss r Hn Hl H IH];
    intros k j0 Hk; cbn in Hk.
  - destruct k; discriminate.
  - destruct k as [|k]; [|destruct k; discriminate].
    injection Hk as <-. cbn. auto.
  - destruct k as [|k]; [|destruct k; discriminate].
    injection Hk as <- ->. discriminate.
  - destruct k as [|k]; [|destruct k; discriminate].
    injection Hk as <- ->. discriminate.
  - destruct k as [|k]; [injection Hk as <- ->; discriminate|].
    destruct (IH k j0 Hk) as (I1 & I2 & I3).
    cbn [triggered firstn nth_error]. rewrite I2. auto.
  - destruct k as [|k]; [injection Hk as <- ->; discriminate|].
    destruct (IH k j0 Hk) as (I1 & I2 & I3).
    cbn [triggered firstn nth_error]. rewrite I2. auto.
Qed.

Lemma workflow_steps_wait_false ep i names ss r :
  workflow_steps ep i names ss r ->
  forall k j,
    nth_error (wait_results ss) k = Some (j, Ok (VBool false)) ->
    r = Ok false /\ triggered ss = firstn (S k) names /\
    nth_error names k = Some j.
Proof.
  induction 1 as [i | i j rest | i j rest n r Hn Hr | j j' rest n r Hn Hp Hr
                  | j j' rest n ss r Hn Hp H IH | i j rest n ss r Hn Hl H IH];
    intros k j0 Hk; cbn in Hk.
  - destruct k; discriminate.
  - destruct k; discriminate.
  - destruct k as [|k]; [|destruct k; discriminate].
    injection Hk as <- Hs. destruct r as [[|]| |]; try discriminate.
    cbn. auto.
  - destruct k as [|k]; [|destruct k; discriminate].
    discriminate.
  - destruct k as [|k]; [discriminate|].
    destruct (IH k j0 Hk) as (I1 & I2 & I3).
    cbn [triggered firstn nth_error]. rewrite I2. auto.
  - destruct k as [|k]; [discriminate|].
    destruct (IH k j0 Hk) as (I1 & I2 & I3).
    cbn [triggered firstn nth_error]. rewrite I2. auto.
Qed.

Lemma shown_true r : shown r = Ok (VBool true) -> r = Ok true.
Proof. destruct r as [[|]| |]; cbn; congruence. Qed.

Lemma workflow_steps_all_succeed ep i names ss r :
  workflow_steps ep i names ss r ->
  Forall (fun jr => snd jr <> Ok VNone) (trigger_results ss) ->
  Forall (fun jr => snd jr = Ok (VBool true)) (wait_results ss) ->
  Forall (fun p => p = Ok (VBool true)) (poll_results ss) ->
  r = Ok true /\ triggered ss = names.
Proof.
  induction 1 as [i | i j rest | i j rest n r Hn Hr | j j' rest n r Hn Hp Hr
                  | j j' rest n ss r Hn Hp H IH | i j rest n ss r Hn Hl H IH];
    cbn; intros Ht Hw Hq.
  - auto.
  - inversion Ht as [|x l Hx]. cbn in Hx. congruence.
  - inversion Hw as [|x l Hx]. cbn in Hx. apply shown_true in Hx. congruence.
  - inversion Hq as [|x l Hx]. apply shown_true in Hx. congruence.
  - inversion Ht; inversion Hw; inversion Hq; subst.
    destruct IH as (I1 & I2); auto. rewrite I2. auto.
  - inversion Ht; inversion Hw; subst.
    destruct IH as (I1 & I2); auto. rewrite I2. auto.
Qed.

(** C2, amended.  In a run of the workflow: when the trigger of job [k]
    (counting from 0) returns [None], or its completion wait returns
    [False], the workflow returns [False] and the jobs triggered are exactly
    the first [k + 1] of the list, in order; and when the list is not empty
    and every trigger, every completion wait and every external poll that
    took place succeeded, the workflow returns [True] and the jobs triggered
    are exactly those of the list, in order. *)
Theorem workflow_stops_at_first_failure
    (fuel : nat) (self : Builder) (s : State) :
  let o := run_build_workflow fuel self s in
  let ss := steps (emitted o) in
  let names := map name (get_jobs_list self) in
  (forall k j,
      nth_error (trigger_results ss) k = Some (j, Ok VNone) ->
      res o = Ok false /\ triggered ss = firstn (S k) names /\
      nth_error names k = Some j) /\
  (forall k j,
      nth_error (wait_results ss) k = Some (j, Ok (VBool false)) ->
      res o = Ok false /\ triggered ss = firstn (S k) names /\
      nth_error names k = Some j) /\
  (names <> [] ->
   Forall (fun jr => snd jr <> Ok VNone) (trigger_results ss) ->
   Forall (fun jr => snd jr = Ok (VBool true)) (wait_results ss) ->
   Forall (fun p => p = Ok (VBool true)) (poll_results ss) ->
   res o = Ok true /\ triggered ss = names).
Proof.
  intros o ss names. subst o ss names.
  destruct (run_build_workflow_steps fuel self s) as [(E & R & S0) | (E & W)].
  - rewrite S0, E, R. cbn. split; [|split].
    + intros k j Hk. destruct k; discriminate.
    + intros k j Hk. destruct k; discriminate.
    + intros Hn. congruence.
  - split; [|split].
    + intros k j Hk. eapply workflow_steps_trigger_none; eauto.
    + intros k j Hk. eapply workflow_steps_wait_false; eauto.
    + intros _. apply (workflow_steps_all_succeed W).
Qed.

Lemma in_poll_results r ss : In (Polled r) ss -> In r (poll_results ss).
Proof.
  induction ss as [|st ss IH]; [contradiction|].
  intros [-> | H]; [now left|].
  destruct st; cbn; auto.
Qed.

(** C7.  When an external poll takes place in a run of the workflow, polling
    is enabled, the list has at least two jobs, and the poll is the third
    step of the run, right after the trigger and the successful completion
    wait of the first job; no other poll takes place; when the poll does not
    return [True], nothing follows it and only the first job was triggered,
    and when it returns [False] the workflow returns [False]. *)
Theorem external_poll_only_after_first_job
    (fuel : nat) (self : Builder) (s : State) (r : result value) :
  let o := run_build_workflow fuel self s in
  let ss := steps (emitted o) in
  let names := map name (get_jobs_list self) in
  In (Polled r) ss ->
  get_default (enable_polling (config self)) false = true /\
  (2 <= List.length names)%nat /\
  exists j n rest,
    nth_error names 0 = Some j /\
    ss = Triggered j (Ok n) :: Waited j n (Ok (VBool true)) :: Polled r :: rest /\
    poll_results rest = [] /\
    (r <> Ok (VBool true) -> rest = [] /\ triggered ss = [j]) /\
    (r = Ok (VBool false) -> res o = Ok false).
Proof.
  intros o ss names Hin. subst o ss names.
  destruct (run_build_workflow_steps fuel self s) as [(E & R & S0) | (E & W)].
  { rewrite S0 in Hin. contradiction. }
  set (ss := steps (emitted (run_build_workflow fuel self s))) in *.
  set (names := map name (get_jobs_list self)) in *.
  set (result0 := res (run_build_workflow fuel self s)) in *.
  clearbody ss names result0.
  inversion W as [i | i j rest | i j rest n r0 Hn Hr | j j' rest n r0 Hn Hp Hr
                  | j j' rest n ss' r0 Hn Hp H | i j rest n ss' r0 Hn Hl H];
    subst.
  - contradiction.
  - destruct Hin as [Hin | []]. discriminate.
  - destruct Hin as [Hin | [Hin | []]]; discriminate.
  - destruct Hin as [Hin | [Hin | [Hin | []]]]; try discriminate.
    injection Hin as <-.
    split; [exact Hp|]. split; [cbn; lia|].
    exists j, n, []. repeat split; auto.
    intros Hs. destruct result0 as [[|]| |]; cbn in Hs; congruence.
  - assert (Hno : poll_results ss' = [])
      by (eapply workflow_steps_no_later_poll; eauto).
    destruct Hin as [Hin | [Hin | [Hin | Hin]]]; try discriminate.
    + injection Hin as <-.
      split; [exact Hp|]. split; [cbn; lia|].
      exists j, n, ss'. repeat split; auto; try congruence.
    + apply in_poll_results in Hin. rewrite Hno in Hin. contradiction.
  - assert (Hno : poll_results ss' = [])
      by (eapply workflow_steps_no_later_poll; eauto).
    destruct Hin as [Hin | [Hin | Hin]]; try discriminate.
    apply in_poll_results in Hin. rewrite Hno in Hin. contradiction.
Qed.

(** ** The tracked build *)

Lemma tracking_after_app a b h :
  tracking_after (a ++ b)%list h = tracking_after b (tracking_after a h).
Proof. apply fold_left_app. Qed.

Ltac next_final := rewrite final_bind, emitted_bind, steps_app; cbv beta.

Lemma workflow_loop_tracking fuel self br ep wt total : forall rest i s,
  let o := workflow_loop fuel self br ep wt total i rest s in
  tracking (final o) = tracking_after (steps (emitted o)) (tracking s).
Proof.
  induction rest as [|job rest IH]; intros i s; [reflexivity|].
  cbv zeta. cbn [workflow_loop]. next_final. rewrite tracking_after_app.
  match goal with |- context [trigger_build ?a ?b ?c ?d s] =>
    pose proof (trigger_build_frame a b c d s) as F; cbv zeta in F;
    set (o1 := trigger_build a b c d s) in *
  end.
  destruct F as (v & R1 & J1 & N1 & S1). rewrite R1, S1.
  assert (T1 : tracking (final o1) = tracking s)
    by (unfold tracking; now rewrite J1, N1).
  revert T1. generalize (final o1). clear o1 R1 S1 J1 N1. intros s1 T1.
  unfold tracking_after at 2. cbn [fold_left track].
  destruct (is_none v) eqn:Hv; [cbn; exact T1|].
  rewrite !bind_set_tracking.
  match goal with
    |- context [bind (wait_for_build_completion _ _ _ _) _ ?st] =>
    assert (T2 : tracking st = (Some (name job), v)) by reflexivity;
    revert T2; generalize st
  end.
  intros s2 T2. next_final. rewrite tracking_after_app.
  destruct (wait_for_build_completion_frame fuel self (name job) v s2)
    as (J2 & N2 & S2 & _).
  rewrite S2.
  assert (T3 : tracking (final (wait_for_build_completion fuel self (name job) v s2))
               = (Some (name job), v))
    by (unfold tracking in *; now rewrite J2, N2).
  revert T3.
  generalize (final (wait_for_build_completion fuel self (name job) v s2)).
  intros s3 T3.
  destruct (res (wait_for_build_completion fuel self (name job) v s2))
    as [[|]| e |] eqn:R2; cbn [negb shown];
    try (cbn; exact T3).
  unfold tracking_after at 2. cbn [fold_left track].
  rewrite !bind_set_tracking.
  match goal with
    |- context [bind _ _ ?st] =>
    assert (T4 : tracking st = (None, VNone)) by reflexivity;
    revert T4; generalize st
  end.
  intros s4 T4.
  assert (C : forall st,
             res ((if wt >? 0 then countdown (Z.to_nat wt) else ret tt) st) = Ok tt
             /\ steps (emitted ((if wt >? 0 then countdown (Z.to_nat wt) else ret tt) st)) = []
             /\ tracking (final ((if wt >? 0 then countdown (Z.to_nat wt) else ret tt) st))
                = tracking st).
  { intros st. destruct (wt >? 0); [|cbn; auto].
    destruct (countdown_frame (Z.to_nat wt) st) as (I1 & I2 & I3 & I4).
    unfold tracking. rewrite I2, I3. auto. }
  match goal with |- context [bind ?blk _ s4] =>
    assert (G : tracking (final (blk s4)) = tracking s4 /\
                forall h, tracking_after (steps (emitted (blk s4))) h = h);
    [| revert G; generalize blk; intros g (G1 & G2) ]
  end.
  { destruct (Z.of_nat i <? Z.of_nat total - 1); [|cbn; auto].
    rewrite final_bind, emitted_bind, steps_app.
    destruct (Nat.eqb i 0 && ep).
    - destruct (poll_interface_frame self None s4) as (J3 & N3 & S3).
      rewrite S3.
      assert (T5 : tracking (final (poll_interface self None s4)) = tracking s4)
        by (unfold tracking; now rewrite J3, N3).
      revert T5. generalize (final (poll_interface self None s4)). intros s5 T5.
      destruct (res (poll_interface self None s4)) as [[|]| e |];
        cbn [negb shown]; try (cbn; auto).
      rewrite final_bind, emitted_bind, steps_app.
      destruct (C s5) as (C1 & C2 & C3). rewrite C1, C2. cbn.
      split; [congruence | auto].
    - cbn [ret res final emitted steps flat_map app negb].
      rewrite final_bind, emitted_bind, steps_app.
      destruct (C s4) as (C1 & C2 & C3). rewrite C1, C2. cbn.
      split; [congruence | auto]. }
  next_final. rewrite tracking_after_app, G2.
  destruct (res (g s4)) as [[|]| e |].
  - rewrite IH. f_equal. cbn. rewrite G1. exact T4.
  - cbn. rewrite G1. exact T4.
  - cbn. rewrite G1. exact T4.
  - cbn. rewrite G1. exact T4.
Qed.

Lemma run_build_workflow_tracking fuel self s :
  let o := run_build_workflow fuel self s in
  tracking (final o) = tracking_after (steps (emitted o)) (tracking s).
Proof.
  cbv zeta. unfold run_build_workflow.
  rewrite final_called, emitted_called, steps_app. cbn [steps flat_map app].
  rewrite app_nil_r.
  destruct (get_jobs_list self) as [|job rest]; [reflexivity|].
  apply workflow_loop_tracking.
Qed.

Lemma workflow_steps_failed_wait_last ep i names ss r :
  workflow_steps ep i names ss r ->
  forall j n w,
    In (Waited j n w) ss -> w <> Ok (VBool true) ->
    is_none n = false /\
    exists pre, ss = (pre ++ [Triggered j (Ok n); Waited j n w])%list.
Proof.
  induction 1 as [i | i j rest | i j rest n r Hn Hr | j j' rest n r Hn Hp Hr
                  | j j' rest n ss r Hn Hp H IH | i j rest n ss r Hn Hl H IH];
    intros j0 n0 w Hin Hw.
  - contradiction.
  - destruct Hin as [Hin | []]. discriminate.
  - destruct Hin as [Hin | [Hin | []]]; [discriminate|].
    injection Hin as <- <- <-. split; [exact Hn|]. now exists [].
  - destruct Hin as [Hin | [Hin | [Hin | []]]]; try discriminate.
    injection Hin as <- <- <-. congruence.
  - destruct Hin as [Hin | [Hin | [Hin | Hin]]]; try discriminate.
    + injection Hin as <- <- <-. congruence.
    + destruct (IH _ _ _ Hin Hw) as (I1 & pre & ->). split; [exact I1|].
      now exists (Triggered j (Ok n) :: Waited j n (Ok (VBool true))
                  :: Polled (Ok (VBool true)) :: pre).
  - destruct Hin as [Hin | [Hin | Hin]]; try discriminate.
    + injection Hin as <- <- <-. congruence.
    + destruct (IH _ _ _ Hin Hw) as (I1 & pre & ->). split; [exact I1|].
      now exists (Triggered j (Ok n) :: Waited j n (Ok (VBool true)) :: pre).
Qed.

(** Whenever a completion wait of a run returns anything but [True], the
    workflow returns with the tracked build still set to the job and build
    number of that wait. *)
Lemma failed_wait_leaves_build_tracked fuel self s j n w :
  let o := run_build_workflow fuel self s in
  In (Waited j n w) (steps (emitted o)) ->
  w <> Ok (VBool true) ->
  current_job (final o) = Some j /\ current_build_number (final o) = n.
Proof.
  intros o Hin Hw. subst o.
  pose proof (run_build_workflow_tracking fuel self s) as T. cbv zeta in T.
  destruct (run_build_workflow_steps fuel self s) as [(E & R & S0) | (E & W)].
  { rewrite S0 in Hin. contradiction. }
  destruct (@workflow_steps_failed_wait_last _ _ _ _ _ W j n w Hin Hw)
    as (Hn & pre & Hss).
  rewrite Hss, tracking_after_app in T.
  unfold tracking_after at 1 in T. cbn [fold_left track] in T. rewrite Hn in T.
  assert (E2 : track (Some j, n) (Waited j n w) = (Some j, n)).
  { destruct w as [[| [|] | | | |]| |]; try reflexivity. congruence. }
  change (tracking (final (run_build_workflow fuel self s))
          = track (Some j, n) (Waited j n w)) in T.
  rewrite E2 in T. unfold tracking in T. now injection T.
Qed.

(** ** The properties on sample runs *)

Lemma get_jobs_list_legacy_witness :
  let self := sample_builder (sample_config false None) build_peer in
  map name (get_jobs_list self)
    = ["tdms-stock-boot"; "tdms-stock-boot-slave-rights-collection"] /\
  Forall (fun j => parameters j = []) (get_jobs_list self).
Proof.
  intros self.
  destruct (@get_jobs_list_legacy self (or_introl eq_refl))
    as (_ & _ & Hp & _).
  split; [reflexivity | exact Hp].
Defined.

Lemma queue_resolution_polls_witness :
  let self := sample_builder (sample_config false None) queue_peer in
  let o := get_build_number_from_queue self (queued_response "/queue/item/7/")
                                       "boot" idle in
  res o = Ok (VInt 42) /\ List.length (requests (emitted o)) = 3%nat.
Proof.
  intros self o.
  destruct (@queue_resolution_polls self (queued_response "/queue/item/7/")
              "boot" idle eq_refl) as (_ & _ & Hk & _).
  apply (Hk 2%nat (VInt 42)).
  - lia.
  - intros i Hi. destruct i as [|[|i]]; [reflexivity | reflexivity | lia].
  - reflexivity.
Defined.

Lemma build_peer_sends_objects : sends_objects build_peer.
Proof.
  intros n req r v H _ Hj. unfold build_peer, respond in H.
  destruct (n <? 3)%nat; injection H as <-;
    cbn in Hj; injection Hj as <-; reflexivity.
Qed.

Lemma wait_for_build_completion_verdict_witness :
  let self := sample_builder (sample_config false None) build_peer in
  let o := wait_for_build_completion 11 self "boot" (VInt 42) idle in
  res o = Ok true /\
  List.length (snapshots (emitted o)) = 4%nat /\
  requests (emitted o) = repeat (Get (UBuild "http://ci.example" "boot" (VInt 42))) 4.
Proof.
  intros self o.
  destruct (@wait_for_build_completion_verdict 11 self "boot" (VInt 42) idle)
    as (_ & _ & _ & _ & _ & _ & Hq & _ & Hfirst & _).
  - cbn. lia.
  - intros n. cbn. lia.
  - cbn. lia.
  - exact build_peer_sends_objects.
  - destruct (Hfirst 3%nat) as (R & L).
    + intros i Hi. destruct i as [|[|[|i]]]; [reflexivity | reflexivity | reflexivity | lia].
    + reflexivity.
    + vm_compute. reflexivity.
    + split; [exact R|]. split; [exact L|]. unfold o. rewrite Hq, L. reflexivity.
Defined.

Lemma poll_interface_attempts_witness :
  let self := sample_builder (sample_config true None) flaky_endpoint in
  let o := poll_interface self None idle in
  res o = Ok true /\ List.length (requests (emitted o)) = 3%nat.
Proof.
  intros self o.
  destruct (@poll_interface_attempts self None "http://health.example/ready" idle
              eq_refl) as (_ & _ & _ & Hk & _).
  - cbn. lia.
  - apply (Hk 2%nat).
    + cbn. lia.
    + intros i Hi. destruct i as [|[|i]]; [reflexivity | reflexivity | lia].
    + reflexivity.
Defined.

Lemma unresolved_build_number_falls_back_witness :
  let self := sample_builder (sample_config false None)
                             (workflow_peer "SUCCESS" 200) in
  let last_build := Get (ULastBuild "http://ci.example" "boot") in
  let started := final (trigger_build self "boot" None None idle) in
  res (trigger_build self "boot" None None idle) = Ok (VInt (-1)) /\
  requests (emitted (get_job_status self "boot" (VInt (-1)) started))
  = [last_build] /\
  hd_error (requests (emitted (wait_for_build_completion 11 self "boot"
                                                         (VInt (-1)) started)))
  = Some last_build.
Proof.
  intros self last_build started.
  destruct (@unresolved_build_number_falls_back self "boot" None None idle []
              (plain_response 201)) as (R & _ & Q & W).
  - reflexivity.
  - reflexivity.
  - reflexivity.
  - left. reflexivity.
  - split; [exact R|]. split; [exact (proj1 (Q started))|].
    destruct (W 11%nat started) as (Hreq & _ & H).
    assert (Hne : requests (emitted (wait_for_build_completion 11 self "boot"
                                       (VInt (-1)) started)) <> [])
      by (apply H; [lia | cbn; lia]).
    rewrite Hreq in Hne |- *.
    destruct (List.length _); [now elim Hne | reflexivity].
Defined.

Lemma external_poll_only_after_first_job_witness :
  let self := sample_builder
                (sample_config true (Some [JobString "boot"; JobString "slave"]))
                (workflow_peer "SUCCESS" 503) in
  let o := run_build_workflow 11 self idle in
  res o = Ok false /\ triggered (steps (emitted o)) = ["boot"].
Proof.
  intros self o.
  assert (Hin : In (Polled (Ok (VBool false))) (steps (emitted o)))
    by (vm_compute; right; right; left; reflexivity).
  destruct (@external_poll_only_after_first_job 11 self idle (Ok (VBool false)) Hin)
    as (_ & _ & j & n & rest & Hj & _ & _ & Hne & Hf).
  split; [apply Hf; reflexivity|].
  injection Hj as <-.
  apply Hne. discriminate.
Defined.

(** C2 as stated fails: with polling enabled, both jobs configured, every
    trigger and every completion wait that takes place succeeding, and the
    health endpoint answering 503, the workflow returns [False] and the second
    job is never triggered. *)
Lemma all_builds_succeed_yet_workflow_fails :
  let self := sample_builder
                (sample_config true (Some [JobString "boot"; JobString "slave"]))
                (workflow_peer "SUCCESS" 503) in
  let o := run_build_workflow 11 self idle in
  let ss := steps (emitted o) in
  map name (get_jobs_list self) = ["boot"; "slave"] /\
  trigger_results ss = [("boot", Ok (VInt (-1)))] /\
  wait_results ss = [("boot", Ok (VBool true))] /\
  poll_results ss = [Ok (VBool false)] /\
  triggered ss = ["boot"] /\
  res o = Ok false.
Proof. vm_compute. repeat split. Qed.

(** C1 on a failing build: one job is triggered, its completion wait reports
    failure, the workflow returns [False], and the tracked build is still
    set when it returns. *)
Lemma tracking_survives_failed_build :
  let self := sample_builder (sample_config false (Some [JobString "boot"]))
                             (workflow_peer "FAILURE" 200) in
  let o := run_build_workflow 11 self idle in
  steps (emitted o) = [Triggered "boot" (Ok (VInt (-1)));
                       Waited "boot" (VInt (-1)) (Ok (VBool false))] /\
  res o = Ok false /\
  current_job (final o) = Some "boot" /\
  current_build_number (final o) = VInt (-1).
Proof. vm_compute. repeat split. Qed.

(** On a successful run of the same job the tracked build is cleared. *)
Lemma tracking_cleared_after_successful_build :
  let self := sample_builder (sample_config false (Some [JobString "boot"]))
                             (workflow_peer "SUCCESS" 200) in
  let o := run_build_workflow 11 self idle in
  res o = Ok true /\
  current_job (final o) = None /\
  current_build_number (final o) = VNone.
Proof. vm_compute. repeat split. Qed.

(** * Start-up, interruption and the command line: properties *)

(** ** The crumb, the connection test and the stop request *)

Lemma get_crumb_run self s :
  let a := respond (session self) (sent s) (Get (crumb_url self)) in
  get_crumb self s =
  Outcome (Ok (crumb_of_answer a)) (after_request (session self) s)
          [EHttp (now s) (Get (crumb_url self)) a].
Proof.
  unfold get_crumb, try_except, bind, http, crumb_url, crumb_of_answer,
    after_request. simpl.
  destruct (respond (session self) (sent s) _) as [r|]; simpl; [|reflexivity].
  destruct (status_code r =? 200); simpl; [|reflexivity].
  unfold json. destruct (json_body r) as [v|]; [|reflexivity].
  destruct v; reflexivity.
Qed.

Lemma test_connection_run self s :
  let a := respond (session self) (sent s) (Get (api_url self)) in
  test_connection self s =
  Outcome (Ok (connected a)) (after_request (session self) s)
          [EHttp (now s) (Get (api_url self)) a].
Proof.
  unfold test_connection, try_except, bind, http, api_url, connected,
    after_request. simpl.
  destruct (respond (session self) (sent s) _) as [r|]; simpl; [|reflexivity].
  destruct (status_code r =? 200); simpl; [|reflexivity].
  unfold json. destruct (json_body r) as [v|]; [|reflexivity].
  destruct v; reflexivity.
Qed.

Lemma stop_build_run self job bn s :
  stop_build self job bn s =
  match crumb_headers (crumb self) with
  | inr headers =>
      let req := Post (stop_url self job bn) [] headers in
      let a := respond (session self) (sent s) req in
      Outcome (Ok match a with Some r => stopped r | None => false end)
              (after_request (session self) s)
              [EHttp (now s) req a]
  | inl _ => Outcome (Ok false) s []
  end.
Proof.
  unfold stop_build. cbv zeta.
  pose proof (crumb_headers_block (crumb self) s) as Hc.
  match goal with |- try_except (bind _ ?K) ?h s = _ =>
    pose proof (bind_run K Hc) as Hb end.
  unfold crumb_headers.
  destruct (prepared_headers (crumb self)) as [e|headers].
  { rewrite (try_run _ Hb). reflexivity. }
  cbv iota beta in Hb. unfold session_post in Hb.
  destruct (refused headers) as [e|].
  { rewrite bind_raise in Hb. cbn [res final emitted app] in Hb.
    rewrite (try_run _ Hb). reflexivity. }
  match type of Hb with _ = Outcome (res (bind (http ?e ?rq) ?K2 s)) _ _ =>
    pose proof (http_run e rq s) as Hh;
    rewrite (bind_run K2 Hh) in Hb;
    change (Post (stop_url self job bn) [] headers) with rq;
    destruct (respond e (sent s) rq) as [r|]
  end.
  2:{ cbn [res final emitted app] in Hb. rewrite (try_run _ Hb). reflexivity. }
  cbv iota beta in Hb. unfold stopped.
  destruct ((status_code r =? 200) || (status_code r =? 201)
            || (status_code r =? 302));
    cbn [ret res final emitted app] in Hb; rewrite (try_run _ Hb); reflexivity.
Qed.

(** ** The configuration file *)

Lemma load_config_run f s :
  load_config f s = Outcome (Ok (loaded f)) s [].
Proof.
  destruct f as [| | raw typed]; [reflexivity | reflexivity |].
  unfold loaded, load_config, valid_config, has_key, and_then, try_except, bind,
    check_required, py_in, py_get_default, sys_exit, ret, raise.
  destruct raw as [| b | z | str | l | d]; try reflexivity.
  - destruct (is_substring "jenkins_url" str); [|reflexivity].
    destruct (is_substring "username" str); [|reflexivity].
    destruct (is_substring "password_or_token" str); reflexivity.
  - destruct (existsb _ l); [|reflexivity].
    destruct (existsb _ l); [|reflexivity].
    destruct (existsb _ l); reflexivity.
  - destruct (assoc "jenkins_url" d); [|reflexivity].
    destruct (assoc "username" d); [|reflexivity].
    destruct (assoc "password_or_token" d); [|reflexivity].
    cbn.
    destruct (truthy (get_default (assoc "enable_polling" d) (VBool false)));
      [|reflexivity].
    cbn. destruct (assoc "polling_url" d); reflexivity.
Qed.

Arguments load_config : simpl never.
Arguments get_crumb : simpl never.
Arguments test_connection : simpl never.
Arguments stop_build : simpl never.

(** ** Construction *)

Lemma init_run f env s :
  __init__ f env s =
  match loaded f with
  | Normal cfg =>
      let a := respond env (sent s) (Get (crumb_url (unfinished cfg env))) in
      Outcome (Ok (Normal (constructed cfg env a)))
              (after_request env (untracked (now s) (sent s)))
              [EHttp (now s) (Get (crumb_url (unfinished cfg env))) a]
  | SystemExit code => Outcome (Ok (SystemExit code)) s []
  end.
Proof.
  unfold __init__, and_then.
  rewrite (bind_run _ (load_config_run f s)).
  destruct (loaded f) as [cfg|code]; [|reflexivity].
  rewrite bind_set_tracking.
  rewrite (bind_run _ (get_crumb_run (unfinished cfg env) _)).
  reflexivity.
Qed.

Arguments __init__ : simpl never.

(** ** Interruption *)

Lemma ask_loop_run self answers s :
  ask_loop self answers s =
  match decision answers with
  | Some true =>
      let o := stop_build self (tracked_name s) (current_build_number s) s in
      Outcome (Ok tt) (final o) (emitted o)
  | _ => Outcome (Ok tt) s []
  end.
Proof.
  induction answers as [|choice rest IH]; [reflexivity|].
  cbn [ask_loop decision].
  destruct (one_of choice ["y"; "yes"; "是"]).
  - unfold get_tracking. cbv zeta.
    match goal with |- bind ?m ?k s = _ =>
      change (bind m k s) with (bind (ret (current_job s, current_build_number s)) k s)
    end.
    rewrite bind_ret. cbn [fst snd]. fold (tracked_name s).
    pose proof (stop_build_run self (tracked_name s) (current_build_number s) s) as R.
    destruct (crumb_headers (crumb self)); rewrite (bind_run _ R);
      cbn [ret res final emitted]; rewrite R; cbn [res final emitted];
      now rewrite app_nil_r.
  - destruct (one_of choice ["n"; "no"; "否"]); [reflexivity | exact IH].
Qed.

Lemma handle_interrupt_run self answers s :
  handle_interrupt self answers s =
  if is_tracking s then
    match decision answers with
    | Some true =>
        let o := stop_build self (tracked_name s) (current_build_number s) s in
        Outcome (Ok (SystemExit 1)) (final o) (emitted o)
    | _ => Outcome (Ok (SystemExit 1)) s []
    end
  else Outcome (Ok (SystemExit 1)) s [].
Proof.
  unfold handle_interrupt, get_tracking, is_tracking.
  match goal with |- bind ?m ?k s = _ =>
    change (bind m k s) with (bind (ret (current_job s, current_build_number s)) k s)
  end.
  rewrite bind_ret. cbn [fst snd].
  destruct (truthy_str (current_job s) && truthy (current_build_number s)).
  - pose proof (ask_loop_run self answers s) as R.
    destruct (decision answers) as [[|]|].
    + cbv zeta in R.
      destruct (stop_build self (tracked_name s) (current_build_number s) s)
        as [r f e] eqn:E. cbn [res final emitted] in R |- *.
      rewrite (bind_run _ (try_run _ R)). cbn. now rewrite app_nil_r.
    + rewrite (bind_run _ (try_run _ R)). reflexivity.
    + rewrite (bind_run _ (try_run _ R)). reflexivity.
  - rewrite bind_ret. reflexivity.
Qed.

Arguments handle_interrupt : simpl never.

(** ** The command line *)

Lemma and_then_run {A B} {m : M (completion A)} (k : A -> M (completion B))
    {s r s1 e1} :
  m s = Outcome r s1 e1 ->
  and_then m k s =
  match r with
  | Ok (Normal a) => Outcome (res (k a s1)) (final (k a s1)) (e1 ++ emitted (k a s1))
  | Ok (SystemExit code) => Outcome (Ok (SystemExit code)) s1 e1
  | Raised e => Outcome (Raised e) s1 e1
  | OutOfFuel => Outcome OutOfFuel s1 e1
  end.
Proof.
  intros H. unfold and_then. rewrite (bind_run _ H).
  destruct r as [[a|code]| |]; try reflexivity.
  cbn. now rewrite app_nil_r.
Qed.

Lemma and_then_normal {A B} (a : A) (k : A -> M (completion B)) s :
  and_then (ret (Normal a)) k s = k a s.
Proof. unfold and_then. now rewrite bind_ret. Qed.

Lemma and_then_exit {A B} (code : Z) (k : A -> M (completion B)) s :
  and_then (sys_exit code) k s = Outcome (Ok (SystemExit code)) s [].
Proof. unfold and_then, sys_exit. now rewrite bind_ret. Qed.

Lemma main_run fuel args files env s :
  main fuel args files env s =
  match loaded (files (args_config args)) with
  | SystemExit code => Outcome (Ok (SystemExit code)) s []
  | Normal cfg =>
      let q := Get (crumb_url (unfinished cfg env)) in
      let a := respond env (sent s) q in
      let jenkins_builder := constructed cfg env a in
      let s1 := after_request env (untracked (now s) (sent s)) in
      if args_test args then
        let q' := Get (api_url jenkins_builder) in
        let a' := respond env (sent s1) q' in
        Outcome (Ok (SystemExit (if connected a' then 0 else 1)))
                (after_request env s1)
                [EHttp (now s) q a; EHttp (now s1) q' a']
      else if args_dry_run args then
        Outcome (Ok (SystemExit 0)) s1 [EHttp (now s) q a]
      else
        let o := run_build_workflow fuel jenkins_builder s1 in
        Outcome (exit_status (res o)) (final o) (EHttp (now s) q a :: emitted o)
  end.
Proof.
  unfold main.
  pose proof (init_run (files (args_config args)) env s) as Hi.
  destruct (loaded (files (args_config args))) as [cfg|code].
  2:{ rewrite (try_run _ (and_then_run _ Hi)). reflexivity. }
  cbv zeta in Hi |- *.
  set (q := Get (crumb_url (unfinished cfg env))) in *.
  set (a := respond env (sent s) q) in *.
  set (b := constructed cfg env a) in *.
  set (s1 := after_request env (untracked (now s) (sent s))) in *.
  match goal with |- try_except (and_then _ ?K) _ s = _ =>
    pose proof (and_then_run K Hi) as Hb end.
  cbv iota beta in Hb.
  destruct (args_test args).
  - pose proof (test_connection_run b s1) as Ht. cbv zeta in Ht.
    change (session b) with env in Ht.
    rewrite (and_then_run _ (bind_run _ Ht)) in Hb.
    cbn [res final emitted] in Hb.
    destruct (connected (respond env (sent s1) (Get (api_url b))));
      cbn [sys_exit ret res final emitted app] in Hb;
      rewrite (try_run _ Hb); reflexivity.
  - rewrite and_then_normal in Hb.
    destruct (args_dry_run args).
    + rewrite and_then_exit in Hb. cbn [res final emitted app] in Hb.
      rewrite (try_run _ Hb). reflexivity.
    + rewrite and_then_normal in Hb.
      destruct (run_build_workflow fuel b s1) as [r f e] eqn:E.
      rewrite (bind_run _ E) in Hb. cbn [res final emitted].
      destruct r as [[|]| |]; cbn [sys_exit ret res final emitted app] in Hb;
        rewrite ?app_nil_r in Hb; rewrite (try_run _ Hb); try reflexivity.
      cbn. now rewrite app_nil_r.
Qed.

Arguments main : simpl never.

(** ** Fuel *)

Lemma verdict_of_has_fuel v : verdict_of v <> OutOfFuel.
Proof.
  unfold verdict_of. destruct (terminal v); [discriminate|].
  destruct v; try discriminate; destruct (truthy _); discriminate.
Qed.

Section WaitLoopFuel.
Variables (self : Builder) (job : string) (bn : value).
Variables (start timeout interval : Z).
Hypothesis progress : time_passes (session self) interval.

Lemma wait_loop_has_fuel fuel s :
  Z.max 0 (timeout - (now s - start)) < Z.of_nat fuel ->
  res (wait_loop fuel self job bn start timeout interval s) <> OutOfFuel.
Proof.
  revert s. induction fuel as [|fuel IH]; intros s Hf.
  - cbn in Hf. lia.
  - rewrite wait_loop_unfold.
    destruct (Z.ltb_spec (now s - start) timeout) as [Hlt|Hge]; [|discriminate].
    rewrite get_job_status_run. cbv zeta. cbn [res final emitted].
    match goal with |- context [verdict_of ?v] =>
      pose proof (verdict_of_has_fuel v) as Hv; destruct (verdict_of v) as [[b|]| e |]
    end; try discriminate; try congruence.
    destruct (Z.ltb_spec interval 0) as [?|Hi]; [discriminate|].
    cbn [res]. apply IH. cbn [now]. specialize (progress (sent s)). lia.
Qed.
End WaitLoopFuel.

Lemma wait_for_build_completion_has_fuel fuel self job bn s :
  time_passes (session self)
    (get_default (check_interval_seconds (config self)) 30) ->
  (Z.to_nat (get_default (timeout_seconds (config self)) 1800%Z) < fuel)%nat ->
  res (wait_for_build_completion fuel self job bn s) <> OutOfFuel.
Proof.
  intros Hp Hf. unfold wait_for_build_completion. rewrite res_called.
  rewrite bind_time. apply wait_loop_has_fuel; [exact Hp | lia].
Qed.

Lemma poll_loop_has_fuel self u m i e attempts s :
  res (poll_loop self u m i e attempts s) <> OutOfFuel.
Proof.
  revert s. induction attempts as [|attempt rest IH]; intros s; [discriminate|].
  rewrite poll_loop_unfold. cbv zeta.
  destruct (answer_matches _ _); [discriminate|].
  destruct (attempt <? m); [destruct (i <? 0); [discriminate|] |]; apply IH.
Qed.

Lemma poll_interface_has_fuel self interface_url s :
  res (poll_interface self interface_url s) <> OutOfFuel.
Proof.
  destruct (polling_target self interface_url) as [u|] eqn:E.
  - rewrite (poll_interface_run _ _ _ E). apply poll_loop_has_fuel.
  - unfold poll_interface. rewrite res_called.
    unfold polling_target in E.
    destruct (truthy_str interface_url) eqn:T;
      [subst interface_url; discriminate|].
    rewrite E. rewrite bind_raise. discriminate.
Qed.

Lemma pause_returns wt st :
  res ((if wt >? 0 then countdown (Z.to_nat wt) else ret tt) st) = Ok tt.
Proof.
  destruct (wt >? 0); [|reflexivity].
  now destruct (countdown_frame (Z.to_nat wt) st) as (I1 & _).
Qed.

Lemma between_jobs_has_fuel self ep wt total i st :
  res ((if Z.of_nat i <? Z.of_nat total - 1 then
          polled <- (if (Nat.eqb i 0) && ep
                     then poll_interface self None
                     else ret true) ;;
          if negb polled then ret false
          else
            (if wt >? 0 then countdown (Z.to_nat wt) else ret tt) ;;
            ret true
        else ret true)%py st) <> OutOfFuel.
Proof.
  destruct (Z.of_nat i <? Z.of_nat total - 1); [|discriminate].
  rewrite res_bind.
  destruct (Nat.eqb i 0 && ep).
  - pose proof (poll_interface_has_fuel self None st) as P.
    generalize (final (poll_interface self None st)). intros st'.
    destruct (res (poll_interface self None st)) as [[|]| e |];
      cbn [negb]; try discriminate; try congruence.
    rewrite res_bind, pause_returns. discriminate.
  - cbn [ret res final negb]. rewrite res_bind, pause_returns. discriminate.
Qed.

Lemma workflow_loop_has_fuel fuel self br ep wt total :
  time_passes (session self)
    (get_default (check_interval_seconds (config self)) 30) ->
  (Z.to_nat (get_default (timeout_seconds (config self)) 1800%Z) < fuel)%nat ->
  forall rest i s,
    res (workflow_loop fuel self br ep wt total i rest s) <> OutOfFuel.
Proof.
  intros Hp Hf. induction rest as [|job rest IH]; intros i s; [discriminate|].
  cbn [workflow_loop]. rewrite res_bind.
  match goal with |- context [trigger_build ?a ?b ?c ?d s] =>
    pose proof (trigger_build_frame a b c d s) as F; cbv zeta in F;
    set (o1 := trigger_build a b c d s) in *
  end.
  destruct F as (v & R1 & _). rewrite R1.
  generalize (final o1). clear o1 R1. intros s1.
  destruct (is_none v); [discriminate|].
  rewrite !bind_set_tracking.
  match goal with
    |- context [bind (wait_for_build_completion _ _ _ _) _ ?st] => generalize st
  end.
  intros s2. rewrite res_bind.
  pose proof (@wait_for_build_completion_has_fuel fuel self (name job) v s2 Hp Hf) as W.
  generalize (final (wait_for_build_completion fuel self (name job) v s2)).
  intros s3.
  destruct (res (wait_for_build_completion fuel self (name job) v s2))
    as [[|]| e |]; cbn [negb]; try discriminate; try congruence.
  rewrite !bind_set_tracking.
  generalize {| current_job := None; current_build_number := VNone;
                now := now s3; sent := sent s3 |}.
  intros s4. rewrite res_bind.
  pose proof (between_jobs_has_fuel self ep wt total i s4) as G.
  match goal with |- context [final ?blk] => generalize (final blk) end.
  intros s5.
  match type of G with res ?blk <> _ => destruct (res blk) as [[|]| e |] end;
    [apply IH | discriminate | discriminate | congruence].
Qed.

Lemma run_build_workflow_has_fuel fuel self s :
  time_passes (session self)
    (get_default (check_interval_seconds (config self)) 30) ->
  (Z.to_nat (get_default (timeout_seconds (config self)) 1800%Z) < fuel)%nat ->
  res (run_build_workflow fuel self s) <> OutOfFuel.
Proof.
  intros Hp Hf. unfold run_build_workflow. rewrite res_called. cbv zeta.
  destruct (get_jobs_list self); [discriminate|].
  now apply workflow_loop_has_fuel.
Qed.

(** ** What the single requests give *)

Lemma tracking_after_request env s : tracking (after_request env s) = tracking s.
Proof. reflexivity. Qed.



(** X3.  [stop_build] never raises and leaves the tracked build as it was.
    When the crumb headers cannot be prepared, or the library refuses to
    send them (a part that is not a string, for one), it returns [False] and
    nothing goes out.  Otherwise it makes exactly one call of the library,
    [session.post] without form data on
    [<jenkins_url>/job/<job>/<number>/stop] with the crumb header, and
    returns [True] exactly when the response that call returns, at the end
    of the redirects the library follows, has status 200, 201 or 302. *)
Theorem stop_build_posts_once
    (self : Builder) (job_name : string) (build_number : value) (s : State) :
  let o := stop_build self job_name build_number s in
  let u := UPlain (rstrip_slash (jenkins_url (config self)) ++ "/job/"
                   ++ job_name ++ "/" ++ py_str build_number ++ "/stop") in
  (exists b, res o = Ok b) /\
  tracking (final o) = tracking s /\
  (forall e, crumb_headers (crumb self) = inl e ->
             res o = Ok false /\ emitted o = []) /\
  (forall headers,
      crumb_headers (crumb self) = inr headers ->
      requests (emitted o) = [Post u [] headers] /\
      (res o = Ok true <->
       exists r, respond (session self) (sent s) (Post u [] headers) = Some r
                 /\ (status_code r = 200 \/ status_code r = 201
                     \/ status_code r = 302))).
Proof.
  cbv zeta. rewrite stop_build_run. unfold stop_url.
  destruct (crumb_headers (crumb self)) as [e|headers]; cbv zeta;
    cbn [res final emitted].
  - split; [eauto|]. split; [reflexivity|]. split; [auto|].
    intros headers H. discriminate H.
  - split; [eauto|]. split; [reflexivity|]. split.
    { intros e H. discriminate H. }
    intros headers' H. injection H as <-. split; [reflexivity|].
    destruct (respond (session self) (sent s) _) as [r|].
    2:{ split; [intros H; discriminate H | intros (r & H & _); discriminate H]. }
    unfold stopped. split.
    + intros H. injection H as H. exists r. split; [reflexivity|].
      apply orb_prop in H as [H|H]; [apply orb_prop in H as [H|H]|];
        apply Z.eqb_eq in H; auto.
    + intros (r' & H & H'). injection H as <-. f_equal.
      destruct H' as [H'|[H'|H']]; rewrite H'; reflexivity.
Qed.

Lemma stop_build_posts_once_witness :
  let self := {| config := sample_config false None; crumb := numeric_crumb;
                 session := numeric_peer |} in
  let o := stop_build self "boot" (VInt 7) idle in
  res o = Ok false /\ emitted o = [].
Proof.
  intros self o.
  destruct (@stop_build_posts_once self "boot" (VInt 7) idle) as (_ & _ & H & _).
  exact (H InvalidHeader eq_refl).
Defined.

(** ** Loading the configuration and constructing the object *)

Lemma has_key_assoc key d :
  has_key key (VDict d) = true <-> assoc key d <> None.
Proof.
  cbn. destruct (assoc key d); split; congruence.
Qed.

(** X4.  [load_config] changes nothing and sends nothing.  It returns the
    configuration exactly when the file exists and holds a JSON object with
    the keys [jenkins_url], [username] and [password_or_token] and, when the
    value of [enable_polling] is truthy, the key [polling_url]; only the
    presence of the keys is checked.  In every other case (no file, a file
    that is not JSON, a JSON value that is not an object, even a list or a
    string holding the three names, or a missing key) the process exits with
    status 1. *)
Theorem load_config_accepts (f : config_file) (s : State) :
  let o := load_config f s in
  final o = s /\ emitted o = [] /\
  ((exists cfg, res o = Ok (Normal cfg)) \/ res o = Ok (SystemExit 1)) /\
  (forall cfg,
      res o = Ok (Normal cfg) <->
      exists d,
        f = Parsed (VDict d) cfg
        /\ assoc "jenkins_url" d <> None
        /\ assoc "username" d <> None
        /\ assoc "password_or_token" d <> None
        /\ (truthy (get_default (assoc "enable_polling" d) (VBool false)) = true
            -> assoc "polling_url" d <> None)).
Proof.
  cbv zeta. rewrite load_config_run. cbn [res final emitted].
  split; [reflexivity|]. split; [reflexivity|].
  unfold loaded. split.
  { destruct f as [| | raw typed]; auto. destruct (valid_config raw); eauto. }
  intros cfg. split.
  - destruct f as [| | raw typed]; try (intros H; discriminate H).
    destruct (valid_config raw) eqn:V; [|intros H; discriminate H].
    intros H. injection H as <-.
    unfold valid_config in V.
    destruct raw as [| b | z | str | l | d]; try discriminate V.
    apply andb_prop in V as [V V4]. apply andb_prop in V as [V V3].
    apply andb_prop in V as [V1 V2].
    exists d. rewrite <- !has_key_assoc. repeat split; auto.
    intros T. rewrite T in V4. exact V4.
  - intros (d & -> & K1 & K2 & K3 & K4).
    apply has_key_assoc in K1, K2, K3.
    unfold valid_config. rewrite K1, K2, K3. cbn [andb].
    destruct (truthy (get_default (assoc "enable_polling" d) (VBool false))).
    + cbn [negb orb]. apply has_key_assoc in K4; [|reflexivity].
      now rewrite K4.
    + reflexivity.
Qed.


Lemma trigger_build_first_request self job br ps s headers :
  crumb_headers (crumb self) = inr headers ->
  hd_error (requests (emitted (trigger_build self job br ps s)))
  = Some (trigger_request self job br ps headers).
Proof.
  intros H. rewrite trigger_build_run, H. cbv zeta.
  destruct (respond (session self) (sent s) _) as [r|]; [|reflexivity].
  destruct (accepted r); reflexivity.
Qed.

Lemma trigger_build_without_headers self job br ps s e :
  crumb_headers (crumb self) = inl e ->
  res (trigger_build self job br ps s) = Ok VNone
  /\ requests (emitted (trigger_build self job br ps s)) = [].
Proof.
  intros H. rewrite trigger_build_run, H. split; reflexivity.
Qed.

Lemma refused_hashable field token :
  refused [(field, token)] = None -> hashable field = true.
Proof.
  cbn [refused refused_header]. destruct field; try discriminate. reflexivity.
Qed.

Lemma crumb_headers_pair d token field :
  assoc "crumb" d = Some token ->
  assoc "crumbRequestField" d = Some field ->
  crumb_headers (VDict d)
  = if hashable field then
      match refused [(field, token)] with
      | Some e => inl e
      | None => inr [(field, token)]
      end
    else inl TypeError.
Proof.
  intros Hc Hf. unfold crumb_headers, prepared_headers.
  destruct d as [|kv d']; [discriminate Hc|].
  cbn [truthy]. rewrite Hc, Hf. now destruct (hashable field).
Qed.

(** X6.  The crumb an object fetches when it is constructed is the crumb its
    triggers use.  The crumb is the JSON object of a crumb issuer that
    answered with status 200, and [None] otherwise.  If its
    [crumbRequestField] and [crumb] make a header the library does not
    refuse (two strings it can send; or a string and [None], a header the
    library leaves out of the request), the [session.post] of every trigger
    is called with exactly that header.  If the library refuses them (a
    number as token, a string with a line break, a name with a colon, a name
    that is no string) or the name is not hashable, every trigger returns
    [None] and nothing goes out; so it does when the object is not empty
    and lacks one of the two keys.  If the object has no crumb ([None], or
    the empty object), the [session.post] is called without a header. *)
Theorem fetched_crumb_is_sent
    (f : config_file) (env : Env) (s : State) (self : Builder)
    (job_name : string) (branch0 : option string) (parameters0 : option params)
    (s' : State) :
  res (__init__ f env s) = Ok (Normal self) ->
  let a := respond env (sent s)
             (Get (UPlain (rstrip_slash (jenkins_url (config self))
                           ++ "/crumbIssuer/api/json"))) in
  let o := trigger_build self job_name branch0 parameters0 s' in
  let post := trigger_request self job_name branch0 parameters0 in
  (forall d, crumb self = VDict d <->
             exists r, a = Some r /\ status_code r = 200
                       /\ json_body r = Some (VDict d)) /\
  (crumb self = VNone \/ exists d, crumb self = VDict d) /\
  (crumb self = VNone \/ crumb self = VDict [] ->
   hd_error (requests (emitted o)) = Some (post [])) /\
  (forall d token field,
      crumb self = VDict d ->
      assoc "crumb" d = Some token ->
      assoc "crumbRequestField" d = Some field ->
      refused [(field, token)] = None ->
      hd_error (requests (emitted o)) = Some (post [(field, token)])) /\
  (forall d token field,
      crumb self = VDict d ->
      assoc "crumb" d = Some token ->
      assoc "crumbRequestField" d = Some field ->
      refused [(field, token)] <> None \/ hashable field = false ->
      res o = Ok VNone /\ requests (emitted o) = []) /\
  (forall d,
      crumb self = VDict d -> d <> [] ->
      assoc "crumb" d = None \/ assoc "crumbRequestField" d = None ->
      res o = Ok VNone /\ requests (emitted o) = []).
Proof.
  intros Hinit. rewrite init_run in Hinit.
  destruct (loaded f) as [cfg|code]; [|discriminate Hinit].
  cbv zeta in Hinit. cbn [res] in Hinit. injection Hinit as <-.
  cbv zeta. cbn [config crumb constructed].
  change (crumb_url (unfinished cfg env))
    with (UPlain (rstrip_slash (jenkins_url cfg) ++ "/crumbIssuer/api/json")).
  set (a := respond env (sent s) _).
  split; [|split; [|split; [|split; [|split]]]].
  - intros d. unfold crumb_of_answer. destruct a as [r|].
    2:{ split; [intros H; discriminate H | intros (r & H & _); discriminate H]. }
    destruct (Z.eqb_spec (status_code r) 200) as [E|E].
    2:{ split; [intros H; discriminate H|].
        intros (r' & H & H' & _). injection H as <-. contradiction. }
    destruct (json_body r) as [[| b | z | str | l | d0]|] eqn:J; split;
      try (intros H; discriminate H);
      try (intros (r' & H & _ & H'); injection H as <-; rewrite J in H';
           discriminate H').
    + intros H. injection H as <-. eauto.
    + intros (r' & H & _ & H'). injection H as <-. rewrite J in H'.
      now injection H' as <-.
  - unfold crumb_of_answer. destruct a as [r|]; auto.
    destruct (status_code r =? 200); auto.
    destruct (json_body r) as [[| | | | | d0]|]; eauto.
  - intros H. apply trigger_build_first_request. unfold constructed. cbn [crumb].
    destruct H as [-> | ->]; reflexivity.
  - intros d token field Hd Hc Hf Hr. apply trigger_build_first_request.
    unfold constructed. cbn [crumb]. rewrite Hd.
    rewrite (crumb_headers_pair _ Hc Hf), (refused_hashable _ _ Hr).
    now rewrite Hr.
  - intros d token field Hd Hc Hf Hr.
    assert (exists e, crumb_headers (crumb_of_answer a) = inl e) as (e & He).
    { rewrite Hd, (crumb_headers_pair _ Hc Hf).
      destruct (hashable field); [|eauto].
      destruct Hr as [Hr|Hr]; [|discriminate Hr].
      destruct (refused [(field, token)]); [eauto | now elim Hr]. }
    exact (trigger_build_without_headers
             {| config := cfg; crumb := crumb_of_answer a; session := env |}
             job_name branch0 parameters0 s' He).
  - intros d Hd Hne Hmiss.
    assert (exists e, crumb_headers (crumb_of_answer a) = inl e) as (e & He).
    { rewrite Hd. unfold crumb_headers, prepared_headers.
      destruct d as [|kv d']; [contradiction|]. cbn [truthy].
      destruct (assoc "crumb" (kv :: d')); [|eauto].
      destruct Hmiss as [Hm|Hm]; [discriminate Hm|]. rewrite Hm. eauto. }
    exact (trigger_build_without_headers
             {| config := cfg; crumb := crumb_of_answer a; session := env |}
             job_name branch0 parameters0 s' He).
Qed.

Lemma fetched_crumb_is_sent_witness :
  let cfg := sample_config false None in
  let trigger env crumb0 :=
    trigger_build (constructed cfg env (Some (json_response crumb0)))
                  "boot" None None (untracked 1 1) in
  let protected := protected_peer (plain_response 200) "SUCCESS" in
  hd_error (requests (emitted (trigger protected sample_crumb)))
  = Some (Post (UBuildWithParameters "http://ci.example" "boot")
               [("BRANCH", "master")]
               [(VStr "Jenkins-Crumb", VStr "0a1b")]) /\
  res (trigger numeric_peer numeric_crumb) = Ok VNone /\
  requests (emitted (trigger numeric_peer numeric_crumb)) = [].
Proof.
  intros cfg trigger protected. split.
  - destruct (@fetched_crumb_is_sent (sample_file cfg) protected idle
                (constructed cfg protected (Some (json_response sample_crumb)))
                "boot" None None (untracked 1 1) eq_refl)
      as (_ & _ & _ & H & _).
    exact (H _ (VStr "0a1b") (VStr "Jenkins-Crumb") eq_refl eq_refl eq_refl
             eq_refl).
  - destruct (@fetched_crumb_is_sent (sample_file cfg) numeric_peer idle
                (constructed cfg numeric_peer (Some (json_response numeric_crumb)))
                "boot" None None (untracked 1 1) eq_refl)
      as (_ & _ & _ & _ & H & _).
    destruct (H _ (VInt 12345) (VStr "Jenkins-Crumb") eq_refl eq_refl eq_refl)
      as (H1 & H2); [left; discriminate|].
    split; [exact H1 | exact H2].
Defined.

(** ** Interruption: properties *)

Lemma stop_build_at_most_one self job bn s :
  let o := stop_build self job bn s in
  (List.length (emitted o) <= 1)%nat /\ tracking (final o) = tracking s.
Proof.
  cbv zeta. rewrite stop_build_run.
  destruct (crumb_headers (crumb self)); cbn; auto.
Qed.


(** X8.  The calls of the library that are carried out for
    [handle_interrupt]: a [session.post] on the stop URL of the tracked
    build, with the crumb header, exactly when a job name and a truthy build
    number are tracked, the first answer that is a yes or a no is a yes, and
    the crumb headers can be prepared and are not refused by the library;
    and no other call.  In particular no stop is asked for on a no, on
    unrecognised answers only, when the input ends, or with a crumb the
    library refuses. *)
Theorem handle_interrupt_stops_on_yes
    (self : Builder) (answers : list string) (s : State) (req : request) :
  let o := handle_interrupt self answers s in
  In req (requests (emitted o)) <->
  exists j headers,
    current_job s = Some j /\ j <> ""
    /\ truthy (current_build_number s) = true
    /\ decision answers = Some true
    /\ crumb_headers (crumb self) = inr headers
    /\ req = Post (UPlain (rstrip_slash (jenkins_url (config self)) ++ "/job/"
                           ++ j ++ "/" ++ py_str (current_build_number s)
                           ++ "/stop")) [] headers.
Proof.
  cbv zeta. rewrite handle_interrupt_run. unfold is_tracking, truthy_str.
  destruct (current_job s) as [j|] eqn:Ej.
  2:{ cbn. split; [contradiction|]. intros (j & h & H & _). discriminate H. }
  destruct (String.eqb_spec j "") as [E0|E0]; cbn [negb andb].
  { cbn. split; [contradiction|].
    intros (j' & h & H & H' & _). injection H as <-. contradiction. }
  destruct (truthy (current_build_number s)) eqn:Et.
  2:{ cbn. split; [contradiction|]. intros (j' & h & _ & _ & H & _). discriminate H. }
  destruct (decision answers) as [[|]|] eqn:Ed;
    try (cbn; split; [contradiction|];
         intros (j' & h & _ & _ & _ & H & _); discriminate H).
  cbv zeta. cbn [res final emitted]. rewrite stop_build_run.
  unfold tracked_name, stop_url. rewrite Ej.
  destruct (crumb_headers (crumb self)) as [e|headers] eqn:Ec.
  { cbn. split; [contradiction|].
    intros (j' & h & _ & _ & _ & _ & H & _). discriminate H. }
  cbv zeta. cbn [emitted]. rewrite requests_http. cbn [requests flat_map In].
  split.
  - intros [<-|[]]. exists j, headers. repeat split; auto.
  - intros (j' & h & H1 & _ & _ & _ & H5 & ->).
    injection H1 as <-. injection H5 as <-. now left.
Qed.

(** X9.  Answers that are neither a yes nor a no are asked again: they do
    not change what [handle_interrupt] does. *)
Theorem handle_interrupt_asks_again
    (self : Builder) (unrecognised answers : list string) (s : State) :
  Forall (fun choice => one_of choice ["y"; "yes"; "是"] = false
                        /\ one_of choice ["n"; "no"; "否"] = false)
         unrecognised ->
  handle_interrupt self (unrecognised ++ answers)%list s
  = handle_interrupt self answers s.
Proof.
  intros H. rewrite !handle_interrupt_run.
  assert (D : decision (unrecognised ++ answers)%list = decision answers).
  { induction H as [|choice l [H1 H2] _ IH]; [reflexivity|].
    cbn [app decision]. now rewrite H1, H2. }
  now rewrite D.
Qed.

Lemma handle_interrupt_asks_again_witness :
  let self := sample_builder (sample_config false None)
                             (workflow_peer "SUCCESS" 200) in
  handle_interrupt self ["maybe"; ""; "yes"] (tracking_boot (VInt 42))
  = handle_interrupt self ["yes"] (tracking_boot (VInt 42)).
Proof.
  intros self.
  apply (@handle_interrupt_asks_again self ["maybe"; ""] ["yes"]).
  repeat constructor.
Defined.

(** X10.  The sentinel -1 is not read as the latest build by the stop
    request.  When the build number could not be resolved the tracked number
    is -1; with headers the library sends, an interrupt answered with a yes
    then begins with a [session.post] on [<jenkins_url>/job/<job>/-1/stop],
    whereas the status query of the same build is a [session.get] on the
    [lastBuild] endpoint. *)
Theorem interrupt_stops_sentinel_build
    (self : Builder) (answers : list string) (s s' : State) (j : string)
    (headers : list (value * value)) :
  current_job s = Some j -> j <> "" ->
  current_build_number s = VInt (-1) ->
  decision answers = Some true ->
  crumb_headers (crumb self) = inr headers ->
  hd_error (requests (emitted (handle_interrupt self answers s)))
  = Some (Post (UPlain (rstrip_slash (jenkins_url (config self)) ++ "/job/" ++ j
                        ++ "/-1/stop")) [] headers) /\
  hd_error (requests (emitted (get_job_status self j (VInt (-1)) s')))
  = Some (Get (ULastBuild (rstrip_slash (jenkins_url (config self))) j)).
Proof.
  intros Ej E0 En Ed Ec. split.
  - rewrite handle_interrupt_run. unfold is_tracking, truthy_str.
    rewrite Ej, En, Ed.
    destruct (String.eqb_spec j "") as [|_]; [contradiction|].
    cbn [negb andb truthy Z.eqb]. cbv zeta. cbn [res final emitted].
    rewrite stop_build_run, Ec. unfold tracked_name, stop_url. rewrite Ej.
    reflexivity.
  - rewrite get_job_status_run. reflexivity.
Qed.

Lemma interrupt_stops_sentinel_build_witness :
  let self := sample_builder (sample_config false None)
                             (workflow_peer "SUCCESS" 200) in
  hd_error (requests (emitted (handle_interrupt self ["y"]
                                 (tracking_boot (VInt (-1))))))
  = Some (Post (UPlain "http://ci.example/job/boot/-1/stop") [] []) /\
  hd_error (requests (emitted (get_job_status self "boot" (VInt (-1)) idle)))
  = Some (Get (ULastBuild "http://ci.example" "boot")).
Proof.
  intros self.
  apply (@interrupt_stops_sentinel_build self ["y"] (tracking_boot (VInt (-1)))
           idle "boot" []); try reflexivity.
  discriminate.
Defined.

(** ** The command line: properties *)







(** * Edges and errors of the workflow methods *)

(** ** The completion wait *)

Lemma wait_for_build_completion_run fuel self job bn s :
  let o' := wait_loop fuel self job bn (now s)
              (get_default (timeout_seconds (config self)) 1800)
              (get_default (check_interval_seconds (config self)) 30) s in
  wait_for_build_completion fuel self job bn s =
  Outcome (res o') (final o')
          (emitted o' ++ [ECalled (now s) (MWaitForBuildCompletion job bn)
                                  (shown (res o'))]).
Proof.
  cbv zeta. unfold wait_for_build_completion. cbv zeta.
  match goal with |- called _ _ ?body s = _ =>
    assert (E : body s = wait_loop fuel self job bn (now s)
                           (get_default (timeout_seconds (config self)) 1800)
                           (get_default (check_interval_seconds (config self)) 30) s)
      by (now rewrite bind_time)
  end.
  destruct (wait_loop fuel self job bn (now s) _ _ s) as [r f e] eqn:W.
  rewrite (called_run _ _ E). cbn [res final emitted].
  destruct r as [b| |]; reflexivity.
Qed.

(** X14.  With a [timeout_seconds] that is zero or negative
    [wait_for_build_completion] gives up at once: it returns [False] without
    asking for the status of the build even once, and without sleeping. *)
Theorem nonpositive_timeout_fails_at_once
    (fuel : nat) (self : Builder) (job_name : string) (build_number : value)
    (s : State) :
  (0 < fuel)%nat ->
  get_default (timeout_seconds (config self)) 1800 <= 0 ->
  let o := wait_for_build_completion fuel self job_name build_number s in
  res o = Ok false /\ effects (emitted o) = [] /\ final o = s.
Proof.
  intros Hf Ht. cbv zeta. rewrite wait_for_build_completion_run. cbv zeta.
  destruct fuel as [|fuel]; [lia|]. rewrite wait_loop_unfold.
  destruct (Z.ltb_spec (now s - now s)
              (get_default (timeout_seconds (config self)) 1800)); [lia|].
  cbn. auto.
Qed.

Lemma nonpositive_timeout_fails_at_once_witness :
  let self := sample_builder
                (with_build_config (sample_config false None) 0 2) build_peer in
  let o := wait_for_build_completion 1 self "boot" (VInt 42) idle in
  res o = Ok false /\ effects (emitted o) = [] /\ final o = idle.
Proof.
  intros self o.
  apply (@nonpositive_timeout_fails_at_once 1 self "boot" (VInt 42) idle).
  - lia.
  - cbn. lia.
Defined.

(** X15.  [wait_for_build_completion] has no handler of its own: when the
    first status answer has status 200 and a JSON body that is truthy and not
    an object (a non-empty array, a number, a string), reading its fields
    raises [AttributeError], which escapes after that one request. *)
Theorem non_object_status_raises
    (fuel : nat) (self : Builder) (job_name : string) (build_number : value)
    (s : State) (r : response) (v : value) :
  (0 < fuel)%nat ->
  0 < get_default (timeout_seconds (config self)) 1800 ->
  respond (session self) (sent s)
    (Get (status_url self job_name build_number)) = Some r ->
  status_code r = 200 ->
  json_body r = Some v ->
  truthy v = true ->
  is_object v = false ->
  let o := wait_for_build_completion fuel self job_name build_number s in
  res o = Raised AttributeError /\
  requests (emitted o) = [Get (status_url self job_name build_number)].
Proof.
  intros Hf Ht Ha Hc Hj Hv Ho. cbv zeta.
  rewrite wait_for_build_completion_run. cbv zeta.
  destruct fuel as [|fuel]; [lia|]. rewrite wait_loop_unfold.
  destruct (Z.ltb_spec (now s - now s)
              (get_default (timeout_seconds (config self)) 1800)); [|lia].
  rewrite get_job_status_run. cbv zeta. cbn [res final emitted].
  rewrite Ha. unfold status_of_answer. rewrite Hc, Hj. cbn [Z.eqb Pos.eqb].
  assert (V : verdict_of v = Raised AttributeError).
  { unfold verdict_of, terminal.
    destruct v as [| b | z | str | l | d]; try discriminate Ho;
      cbn in Hv |- *; now rewrite ?Hv. }
  rewrite V. cbn. auto.
Qed.

Lemma non_object_status_raises_witness :
  let self := sample_builder (sample_config false None) odd_status_peer in
  let o := wait_for_build_completion 11 self "boot" (VInt 42) idle in
  res o = Raised AttributeError /\
  requests (emitted o) = [Get (UBuild "http://ci.example" "boot" (VInt 42))].
Proof.
  intros self o.
  apply (@non_object_status_raises 11 self "boot" (VInt 42) idle
           (json_response (VList [VStr "SUCCESS"])) (VList [VStr "SUCCESS"]));
    try reflexivity; cbn; lia.
Defined.



(** ** The endpoint poll *)

(** X17.  Without a URL to poll, neither as argument nor as [polling_url] of
    the configuration, [poll_interface] raises [KeyError] at once: nothing
    is sent, and the exception is not caught. *)
Theorem poll_without_url_raises
    (self : Builder) (interface_url : option string) (s : State) :
  polling_target self interface_url = None ->
  let o := poll_interface self interface_url s in
  res o = Raised KeyError /\ effects (emitted o) = [] /\ final o = s.
Proof.
  intros H. cbv zeta. unfold polling_target in H.
  unfold poll_interface, called.
  destruct (truthy_str interface_url) eqn:T; [subst interface_url; discriminate T|].
  rewrite H, bind_raise. cbn [res final emitted app effects filter].
  repeat split.
Qed.

Lemma poll_without_url_raises_witness :
  let self := sample_builder (without_polling_url (sample_config true None))
                             flaky_endpoint in
  let o := poll_interface self (Some "") idle in
  res o = Raised KeyError /\ effects (emitted o) = [] /\ final o = idle.
Proof.
  intros self o.
  apply (@poll_without_url_raises self (Some "") idle). reflexivity.
Defined.

(** ** Exceptions in the workflow *)

Lemma shown_raised r e : shown r = Raised e <-> r = Raised e.
Proof. destruct r as [b| |]; cbn; split; congruence. Qed.

Lemma workflow_steps_raised ep i names ss r :
  workflow_steps ep i names ss r ->
  forall e,
    r = Raised e <->
    (exists j n, In (Waited j n (Raised e)) ss) \/ In (Polled (Raised e)) ss.
Proof.
  induction 1 as [i | i j rest | i j rest n r Hn Hr | j j' rest n r Hn Hp Hr
                  | j j' rest n ss r Hn Hp Hs IH | i j rest n ss r Hn Hi Hs IH];
    intros e.
  - split; [discriminate|]. intros [(j & n & [])|[]].
  - split; [discriminate|].
    intros [(j' & n & [H|[]])|[H|[]]]; discriminate H.
  - rewrite <- shown_raised. split.
    + intros H. left. exists j, n. right. left. now rewrite H.
    + intros [(j' & n' & [H|[H|[]]])|[H|[H|[]]]]; try discriminate H.
      now injection H.
  - rewrite <- shown_raised. split.
    + intros H. right. right. right. left. now rewrite H.
    + intros [(j0 & n' & [H|[H|[H|[]]]])|[H|[H|[H|[]]]]]; try discriminate H.
      now injection H.
  - rewrite IH. split.
    + intros [(j0 & n0 & H)|H].
      * left. exists j0, n0. right. right. right. exact H.
      * right. right. right. right. exact H.
    + intros [(j0 & n0 & [H|[H|[H|H]]])|[H|[H|[H|H]]]]; try discriminate H.
      * left. eauto.
      * now right.
  - rewrite IH. split.
    + intros [(j0 & n0 & H)|H].
      * left. exists j0, n0. right. right. exact H.
      * right. right. right. exact H.
    + intros [(j0 & n0 & [H|[H|H]])|[H|[H|H]]]; try discriminate H.
      * left. eauto.
      * now right.
Qed.

(** X18.  [run_build_workflow] catches nothing: an exception in which one
    of its completion waits or its endpoint poll ends is the outcome of
    [run_build_workflow] itself, unchanged.  Its triggers all return, since
    [trigger_build] catches what is raised inside it. *)
Theorem exceptions_escape_workflow
    (fuel : nat) (self : Builder) (s : State) :
  let o := run_build_workflow fuel self s in
  let ss := steps (emitted o) in
  (forall e,
     (exists j n, In (Waited j n (Raised e)) ss) \/ In (Polled (Raised e)) ss ->
     res o = Raised e) /\
  Forall (fun jr => exists v, snd jr = Ok v) (trigger_results ss).
Proof.
  cbv zeta. split.
  - intros e.
    destruct (run_build_workflow_steps fuel self s) as [(_ & R & S)|(_ & W)].
    + rewrite S. intros [(j & n & [])|[]].
    + apply (workflow_steps_raised W e).
  - destruct (run_build_workflow_steps fuel self s) as [(_ & _ & S)|(_ & W)].
    + rewrite S. constructor.
    + induction W; cbn [trigger_results]; repeat constructor; cbn; eauto.
Qed.

Lemma exceptions_escape_workflow_witness :
  let self := sample_builder (sample_config false None) odd_status_peer in
  res (run_build_workflow 11 self idle) = Raised AttributeError.
Proof.
  intros self.
  destruct (@exceptions_escape_workflow 11 self idle) as (H & _).
  apply H. left. exists "tdms-stock-boot", (VInt (-1)).
  vm_compute. right. left. reflexivity.
Defined.

(** ** The job list *)

Lemma flat_map_job_of_entry_nil es :
  flat_map job_of_entry es = [] <-> Forall (fun e => usable e = false) es.
Proof.
  induction es as [|e es IH]; cbn [flat_map].
  - split; auto.
  - split.
    + intros H. apply app_eq_nil in H as [He Hes]. constructor.
      * destruct e as [[n|] d p | str |]; cbn in He |- *; congruence.
      * now apply IH.
    + intros H. inversion H as [|? ? He Hes]; subst.
      apply IH in Hes. rewrite Hes.
      destruct e as [[n|] d p | str |]; cbn in He |- *; congruence.
Qed.

(** X19.  The job list is empty exactly when [jobs] is a non-empty list none
    of whose entries is a string or an object with a [name]; [first_job] and
    [second_job] are not consulted then.  On an empty job list
    [run_build_workflow] returns [False] without a request, a sleep or a
    change of the tracked build. *)
Theorem no_usable_job_fails_without_traffic
    (fuel : nat) (self : Builder) (s : State) :
  let o := run_build_workflow fuel self s in
  (get_jobs_list self = [] <->
   exists e es, jobs (config self) = Some (e :: es)
                /\ Forall (fun x => usable x = false) (e :: es)) /\
  (get_jobs_list self = [] ->
   res o = Ok false /\ effects (emitted o) = [] /\ steps (emitted o) = []
   /\ final o = s).
Proof.
  cbv zeta. split.
  - unfold get_jobs_list.
    destruct (jobs (config self)) as [[|e es]|] eqn:J.
    + split; [discriminate|]. intros (e & es & H & _). discriminate H.
    + rewrite flat_map_job_of_entry_nil. split.
      * intros H. exists e, es. auto.
      * intros (e' & es' & H & H'). now injection H as <- <-.
    + split; [discriminate|]. intros (e & es & H & _). discriminate H.
  - intros H. unfold run_build_workflow, called. rewrite H. cbn. auto.
Qed.

(** ** The trigger *)

Lemma assoc_dict_set_same {A} k (v : A) d : assoc k (dict_set k v d) = Some v.
Proof.
  induction d as [|[k' v'] d IH]; cbn.
  - now rewrite String.eqb_refl.
  - destruct (String.eqb_spec k' k) as [->|N]; cbn.
    + now rewrite String.eqb_refl.
    + destruct (String.eqb_spec k' k); [contradiction | exact IH].
Qed.

Lemma assoc_dict_set_other {A} k k0 (v : A) d :
  k0 <> k -> assoc k0 (dict_set k v d) = assoc k0 d.
Proof.
  intros N. induction d as [|[k' v'] d IH]; cbn.
  - destruct (String.eqb_spec k k0); [congruence | reflexivity].
  - destruct (String.eqb_spec k' k) as [->|N']; cbn.
    + destruct (String.eqb_spec k k0); [congruence | reflexivity].
    + destruct (String.eqb_spec k' k0); [reflexivity | exact IH].
Qed.

Lemma assoc_dict_update_absent {A} k (other : list (string * A)) : forall d,
  ~ In k (map fst other) -> assoc k (dict_update d other) = assoc k d.
Proof.
  unfold dict_update.
  induction other as [|[k' v'] other IH]; intros d H; [reflexivity|].
  cbn [fold_left fst snd]. cbn [map fst In] in H.
  rewrite IH by tauto. apply assoc_dict_set_other. intros ->. tauto.
Qed.

Lemma assoc_dict_update_present {A} k (v : A) other : forall d,
  NoDup (map fst other) -> In (k, v) other ->
  assoc k (dict_update d other) = Some v.
Proof.
  unfold dict_update.
  induction other as [|[k' v'] other IH]; intros d N H; [contradiction|].
  cbn [fold_left fst snd]. cbn [map fst] in N.
  inversion N as [|? ? Hk Hn]; subst.
  destruct H as [H|H].
  - injection H as -> ->.
    change (fold_left _ other ?x) with (dict_update x other).
    rewrite assoc_dict_update_absent by exact Hk. apply assoc_dict_set_same.
  - now apply IH.
Qed.

Lemma assoc_singleton {A} k k0 (v : A) :
  assoc k [(k0, v)] <> None -> k = k0.
Proof.
  cbn [assoc]. destruct (String.eqb_spec k0 k); [auto|]. intros H. now elim H.
Qed.

(** X20.  The form data of a trigger POST holds the job's own parameters and
    a [BRANCH] field, and nothing else.  Every parameter of the job has the
    value the job gives it, so a parameter named [BRANCH] overrides the
    branch; without one, [BRANCH] is the branch argument or, when that is
    missing or empty, the [branch] of the configuration or [master]. *)
Theorem trigger_form_data
    (self : Builder) (job_name : string) (branch0 : option string)
    (parameters0 : option params) (headers : list (value * value))
    (s : State) :
  crumb_headers (crumb self) = inr headers ->
  NoDup (map fst (get_default parameters0 [])) ->
  exists data,
    hd_error (requests (emitted (trigger_build self job_name branch0
                                               parameters0 s)))
    = Some (Post (UBuildWithParameters
                    (rstrip_slash (jenkins_url (config self))) job_name)
                 data headers) /\
    (forall k v, In (k, v) (get_default parameters0 []) ->
                 assoc k data = Some v) /\
    (~ In "BRANCH" (map fst (get_default parameters0 [])) ->
     assoc "BRANCH" data
     = Some (if truthy_str branch0 then get_default branch0 ""
             else get_default (branch (config self)) "master")) /\
    (forall k, assoc k data <> None ->
               k = "BRANCH" \/ In k (map fst (get_default parameters0 []))).
Proof.
  intros Hc Hn. exists (build_params self branch0 parameters0).
  split; [exact (trigger_build_first_request self job_name branch0 parameters0
                   s Hc)|].
  unfold build_params.
  set (b := if truthy_str branch0 then get_default branch0 ""
            else get_default (branch (config self)) "master").
  destruct parameters0 as [[|p ps]|]; cbn [get_default] in *.
  - split; [intros k v []|]. split; [reflexivity|].
    intros k H. left. exact (@assoc_singleton _ _ _ _ H).
  - split; [|split].
    + intros k v H. now apply assoc_dict_update_present.
    + intros H. now rewrite assoc_dict_update_absent.
    + intros k H.
      destruct (in_dec string_dec k (map fst (p :: ps))) as [I|I]; [auto|].
      rewrite assoc_dict_update_absent in H by exact I.
      left. exact (@assoc_singleton _ _ _ _ H).
  - split; [intros k v []|]. split; [reflexivity|].
    intros k H. left. exact (@assoc_singleton _ _ _ _ H).
Qed.

Lemma trigger_form_data_witness :
  let self := sample_builder (sample_config false None)
                             (workflow_peer "SUCCESS" 200) in
  exists data,
    hd_error (requests (emitted
      (trigger_build self "boot" (Some "main")
                     (Some [("BRANCH", "release"); ("TARGET", "qa")]) idle)))
    = Some (Post (UBuildWithParameters "http://ci.example" "boot") data []) /\
    assoc "BRANCH" data = Some "release" /\
    assoc "TARGET" data = Some "qa".
Proof.
  intros self.
  destruct (@trigger_form_data self "boot" (Some "main")
              (Some [("BRANCH", "release"); ("TARGET", "qa")]) [] idle eq_refl)
    as (data & H1 & H2 & _).
  - cbn. repeat constructor; cbn; intuition discriminate.
  - exists data. split; [exact H1|]. split; apply H2; cbn; auto.
Defined.

Lemma get_build_number_from_queue_requests self r job s :
  (List.length (requests (emitted (get_build_number_from_queue self r job s)))
   <= 30)%nat.
Proof.
  rewrite get_build_number_from_queue_run.
  destruct (truthy_str (location r)); [|cbn; lia].
  cbv zeta. cbn [emitted]. rewrite requests_app. cbn [requests flat_map].
  rewrite app_nil_r.
  destruct (queue_loop_frame self (queue_api_url self (get_default (location r) ""))
              (seq 0 30) s) as (_ & _ & _ & _ & _ & H & _).
  now rewrite length_seq in H.
Qed.

(** X21.  [trigger_build] always returns, and what it returns is [None] or
    a truthy value (a build number, or the sentinel -1): never 0, [False] or
    an empty value.  It returns a truthy value exactly when the crumb
    headers could be prepared, the library did not refuse them, and the
    response its [session.post] returned, at the end of the redirects the
    library follows, has status 200 or 201.  It calls the library at most 31
    times, the [session.post] and up to 30 [session.get] on the queue item,
    and leaves the tracked build as it was. *)
Theorem trigger_build_result_shape
    (self : Builder) (job_name : string) (branch0 : option string)
    (parameters0 : option params) (s : State) :
  let o := trigger_build self job_name branch0 parameters0 s in
  exists v,
    res o = Ok v /\
    (v = VNone \/ truthy v = true) /\
    (truthy v = true <->
     exists headers r,
       crumb_headers (crumb self) = inr headers
       /\ respond (session self) (sent s)
            (trigger_request self job_name branch0 parameters0 headers) = Some r
       /\ (status_code r = 200 \/ status_code r = 201)) /\
    (List.length (requests (emitted o)) <= 31)%nat /\
    tracking (final o) = tracking s.
Proof.
  cbv zeta.
  destruct (trigger_build_frame self job_name branch0 parameters0 s)
    as (v0 & _ & Fj & Fn & _).
  assert (T : tracking (final (trigger_build self job_name branch0 parameters0 s))
              = tracking s) by (unfold tracking; now rewrite Fj, Fn).
  revert T. rewrite trigger_build_run. clear v0 Fj Fn.
  destruct (crumb_headers (crumb self)) as [e|headers] eqn:Ec.
  { intros T. exists VNone. cbn. repeat split; auto; try lia; try discriminate.
    intros (h & r & H & _). discriminate H. }
  cbv zeta.
  destruct (respond (session self) (sent s) _) as [r|] eqn:Er.
  2:{ intros T. exists VNone. cbn. repeat split; auto; try lia; try discriminate.
      intros (h & r & H1 & H2 & _). injection H1 as <-. rewrite Er in H2.
      discriminate H2. }
  destruct (accepted r) eqn:Ea.
  2:{ intros T. exists VNone. cbn. repeat split; auto; try lia; try discriminate.
      intros (h & r' & H1 & H2 & H3). injection H1 as <-. rewrite Er in H2.
      injection H2 as <-. unfold accepted in Ea.
      destruct H3 as [H3|H3]; rewrite H3 in Ea; discriminate Ea. }
  intros T.
  match goal with |- context [get_build_number_from_queue self r job_name ?s1] =>
    destruct (get_build_number_from_queue_returns self r job_name s1) as [n Hn];
    pose proof (get_build_number_from_queue_requests self r job_name s1) as Hq;
    rewrite Hn in *
  end.
  exists (if truthy n then n else VInt (-1)).
  assert (Tv : truthy (if truthy n then n else VInt (-1)) = true)
    by (destruct (truthy n) eqn:Tn; [exact Tn | reflexivity]).
  cbn [res final emitted].
  split; [reflexivity|]. split; [now right|]. split; [|split; [|exact T]].
  - split; [|intros _; exact Tv]. intros _. exists headers, r.
    split; [reflexivity|]. split; [exact Er|].
    unfold accepted in Ea. apply orb_prop in Ea as [Ea|Ea];
      apply Z.eqb_eq in Ea; auto.
  - rewrite requests_http, requests_app. cbn [requests flat_map].
    rewrite app_nil_r. cbn [List.length]. lia.
Qed.

(** ** The tracked build when the workflow ends *)

Lemma workflow_steps_success_tracking ep i names ss r :
  workflow_steps ep i names ss r -> r = Ok true ->
  forall h, tracking_after ss h = match names with
                                  | [] => h
                                  | _ => (None, VNone)
                                  end.
Proof.
  induction 1 as [i | i j rest | i j rest n r Hn Hr | j j' rest n r Hn Hp Hr
                  | j j' rest n ss r Hn Hp Hs IH | i j rest n ss r Hn Hi Hs IH];
    intros E h; try discriminate E; try contradiction.
  - reflexivity.
  - unfold tracking_after. cbn [fold_left track]. rewrite ?Hn.
    exact (IH E (None, VNone)).
  - unfold tracking_after. cbn [fold_left track]. rewrite ?Hn.
    fold (tracking_after ss (None, VNone)). rewrite (IH E).
    now destruct rest.
Qed.

(** X22.  What is tracked when [run_build_workflow] ends.  After a run that
    returned [True] nothing is tracked.  After a run that stopped because a
    completion wait did not return [True] (a failed build, a timeout, an
    exception) that build is still tracked: the early [return False] skips
    the statements that clear the tracked build. *)
Theorem tracking_when_workflow_ends
    (fuel : nat) (self : Builder) (s : State) :
  let o := run_build_workflow fuel self s in
  (res o = Ok true ->
   current_job (final o) = None /\ current_build_number (final o) = VNone) /\
  (forall j n w,
      In (Waited j n w) (steps (emitted o)) ->
      w <> Ok (VBool true) ->
      current_job (final o) = Some j /\ current_build_number (final o) = n).
Proof.
  cbv zeta. split.
  - intros R.
    pose proof (run_build_workflow_tracking fuel self s) as T. cbv zeta in T.
    destruct (run_build_workflow_steps fuel self s) as [(_ & R' & _)|(N & W)].
    + rewrite R in R'. discriminate R'.
    + rewrite (workflow_steps_success_tracking W R) in T.
      destruct (get_jobs_list self); [contradiction|].
      cbn [map] in T. unfold tracking in T. now injection T.
  - intros j n w. apply failed_wait_leaves_build_tracked.
Qed.

(** ** The sleeps of the queue polling *)

Lemma pauses_app a b : pauses (a ++ b)%list = (pauses a ++ pauses b)%list.
Proof. apply flat_map_app. Qed.

Section QueuePauses.
Variables (self : Builder) (u : string).

Let answer (n : nat) := respond (session self) n (Get (UPlain u)).

Lemma queue_loop_pauses : forall attempts s,
  let o := queue_loop self u attempts s in
  let polls := List.length (requests (emitted o)) in
  let sleeps := pauses (emitted o) in
  Forall (fun secs => secs = 2) sleeps /\
  (polls = List.length sleeps \/ polls = S (List.length sleeps)) /\
  ((forall i, (i < List.length attempts)%nat ->
              is_pending (answer (sent s + i)) = true) ->
   List.length sleeps = List.length attempts).
Proof.
  induction attempts as [|x rest IH]; intros s.
  - cbn. auto.
  - cbv zeta. rewrite queue_loop_unfold. cbv zeta.
    destruct (queue_verdict _) as [v| |] eqn:V; cbn [res final emitted].
    + cbn. repeat split; auto. intros H.
      specialize (H 0%nat ltac:(cbn; lia)). unfold answer in H.
      rewrite Nat.add_0_r in H. apply pending_verdict in H. congruence.
    + cbn. repeat split; auto. intros H.
      specialize (H 0%nat ltac:(cbn; lia)). unfold answer in H.
      rewrite Nat.add_0_r in H. apply pending_verdict in H. congruence.
    + match goal with |- context [queue_loop self u rest ?s'] =>
        pose proof (IH s') as IH'; cbv zeta in IH';
        set (o' := queue_loop self u rest s') in *
      end.
      destruct IH' as (I1 & I2 & I3).
      rewrite requests_http, requests_sleep.
      cbn [pauses flat_map app List.length].
      fold (pauses (emitted o')).
      split; [constructor; auto|]. split; [lia|].
      intros H. f_equal. apply I3. intros i Hi. cbn [sent].
      specialize (H (S i) ltac:(cbn; lia)).
      now rewrite Nat.add_succ_r in H.
Qed.
End QueuePauses.

(** X23.  Queue resolution sleeps two seconds after every poll that leaves
    it waiting, the last one included: every sleep is of 2 seconds, there
    are as many sleeps as polls or one less, and when all 30 polls leave it
    waiting it has slept 30 times (60 seconds) before it gives up. *)
Theorem queue_polling_sleeps
    (self : Builder) (response0 : response) (job_name : string) (s : State) :
  let o := get_build_number_from_queue self response0 job_name s in
  let polls := List.length (requests (emitted o)) in
  let sleeps := pauses (emitted o) in
  let answer i :=
    respond (session self) (sent s + i)
      (Get (UPlain (queue_api_url self (get_default (location response0) "")))) in
  Forall (fun secs => secs = 2) sleeps /\
  (List.length sleeps <= polls <= 30)%nat /\
  (polls = List.length sleeps \/ polls = S (List.length sleeps)) /\
  (truthy_str (location response0) = true ->
   (forall i, (i < 30)%nat -> is_pending (answer i) = true) ->
   List.length sleeps = 30%nat /\ res o = Ok VNone).
Proof.
  cbv zeta.
  pose proof (get_build_number_from_queue_requests self response0 job_name s) as Hq.
  revert Hq. rewrite get_build_number_from_queue_run.
  destruct (truthy_str (location response0)).
  2:{ cbn. intros _. repeat split; auto; try lia; discriminate. }
  cbv zeta. cbn [res final emitted]. rewrite requests_app, pauses_app.
  cbn [requests pauses flat_map]. rewrite !app_nil_r. intros Hq.
  set (u := queue_api_url self (get_default (location response0) "")) in *.
  destruct (queue_loop_pauses self u (seq 0 30) s) as (I1 & I2 & I3).
  split; [exact I1|]. split; [lia|]. split; [exact I2|].
  intros _ H. rewrite length_seq in I3. split; [exact (I3 H)|].
  destruct (queue_loop_exhausts self u (seq 0 30) s) as (R & _).
  { now rewrite length_seq. }
  now rewrite R.
Qed.

(** ** Status queries *)


(** ** Trailing slashes of the server URL *)

Lemma rstrip_slash_app_slash s : rstrip_slash (s ++ "/") = rstrip_slash s.
Proof.
  induction s as [|c r IH]; [reflexivity|].
  cbn [append rstrip_slash]. now rewrite IH.
Qed.

Lemma bind_ext {A B} (m m' : M A) (k k' : A -> M B) s :
  m s = m' s -> (forall a s1, k a s1 = k' a s1) -> bind m k s = bind m' k' s.
Proof.
  intros Hm Hk. unfold bind. rewrite Hm.
  destruct (m' s) as [[a| |] s1 e1]; try reflexivity. now rewrite Hk.
Qed.

Section SameServer.
Variables (self : Builder) (u : string).
Hypothesis same : rstrip_slash u = rstrip_slash (jenkins_url (config self)).

Let self' := with_jenkins_url self u.

Lemma get_job_status_same job bn s :
  get_job_status self' job bn s = get_job_status self job bn s.
Proof.
  rewrite !get_job_status_run. unfold status_url.
  cbn [self' with_jenkins_url config session jenkins_url]. now rewrite same.
Qed.

Lemma wait_loop_same job bn start timeout interval fuel : forall s,
  wait_loop fuel self' job bn start timeout interval s
  = wait_loop fuel self job bn start timeout interval s.
Proof.
  induction fuel as [|fuel IH]; intros s; [reflexivity|].
  rewrite !wait_loop_unfold, get_job_status_same.
  destruct (now s - start <? timeout); [|reflexivity].
  cbv zeta. destruct (res (get_job_status self job bn s)); try reflexivity.
  destruct (verdict_of a) as [[b|]| e |]; try reflexivity.
  destruct (interval <? 0); [reflexivity|]. now rewrite IH.
Qed.

Lemma wait_for_build_completion_same fuel job bn s :
  wait_for_build_completion fuel self' job bn s
  = wait_for_build_completion fuel self job bn s.
Proof.
  rewrite !wait_for_build_completion_run. cbv zeta.
  cbn [self' with_jenkins_url config timeout_seconds check_interval_seconds].
  now rewrite wait_loop_same.
Qed.

Lemma queue_loop_same q attempts : forall s,
  queue_loop self' q attempts s = queue_loop self q attempts s.
Proof.
  induction attempts as [|x rest IH]; intros s; [reflexivity|].
  rewrite !queue_loop_unfold. cbv zeta.
  cbn [self' with_jenkins_url session].
  destruct (queue_verdict _); try reflexivity. now rewrite IH.
Qed.

Lemma get_build_number_from_queue_same r job s :
  get_build_number_from_queue self' r job s
  = get_build_number_from_queue self r job s.
Proof.
  rewrite !get_build_number_from_queue_run.
  destruct (truthy_str (location r)); [|reflexivity].
  cbv zeta. unfold queue_api_url.
  cbn [self' with_jenkins_url config jenkins_url]. rewrite same.
  now rewrite queue_loop_same.
Qed.

Lemma trigger_build_same job br ps s :
  trigger_build self' job br ps s = trigger_build self job br ps s.
Proof.
  rewrite !trigger_build_run.
  change (crumb self') with (crumb self).
  destruct (crumb_headers (crumb self)) as [e|headers]; [reflexivity|].
  cbv zeta. unfold trigger_request, build_params.
  cbn [self' with_jenkins_url config session jenkins_url branch].
  rewrite same.
  destruct (respond (session self) (sent s) _) as [r|]; [|reflexivity].
  destruct (accepted r); [|reflexivity].
  change (with_jenkins_url self u) with self'.
  now rewrite get_build_number_from_queue_same.
Qed.

Lemma poll_loop_same q m i x attempts : forall s,
  poll_loop self' q m i x attempts s = poll_loop self q m i x attempts s.
Proof.
  induction attempts as [|attempt rest IH]; intros s; [reflexivity|].
  rewrite !poll_loop_unfold. cbv zeta.
  cbn [self' with_jenkins_url session].
  destruct (answer_matches _ _); [reflexivity|].
  destruct (attempt <? m); [destruct (i <? 0); [reflexivity|] |];
    now rewrite IH.
Qed.

Lemma poll_interface_same interface_url s :
  poll_interface self' interface_url s = poll_interface self interface_url s.
Proof.
  destruct (polling_target self interface_url) as [q|] eqn:T.
  - assert (T' : polling_target self' interface_url = Some q) by exact T.
    rewrite (poll_interface_run _ _ _ T), (poll_interface_run _ _ _ T').
    cbv zeta.
    cbn [self' with_jenkins_url config max_attempts interval_seconds
         expected_status_code].
    now rewrite poll_loop_same.
  - unfold poll_interface, called.
    cbn [self' with_jenkins_url config polling_url].
    unfold polling_target in T.
    destruct (truthy_str interface_url) eqn:E; [subst; discriminate E|].
    rewrite T, !bind_raise. reflexivity.
Qed.

Lemma workflow_loop_same fuel br ep wt total : forall rest i s,
  workflow_loop fuel self' br ep wt total i rest s
  = workflow_loop fuel self br ep wt total i rest s.
Proof.
  induction rest as [|job rest IH]; intros i s; [reflexivity|].
  cbn [workflow_loop].
  apply bind_ext; [apply trigger_build_same|]. intros v s1.
  destruct (is_none v); [reflexivity|].
  apply bind_ext; [reflexivity|]. intros _ s2.
  apply bind_ext; [apply wait_for_build_completion_same|]. intros b s3.
  destruct (negb b); [reflexivity|].
  apply bind_ext; [reflexivity|]. intros _ s4.
  apply bind_ext.
  - destruct (Z.of_nat i <? Z.of_nat total - 1); [|reflexivity].
    apply bind_ext; [|reflexivity].
    destruct (Nat.eqb i 0 && ep); [apply poll_interface_same | reflexivity].
  - intros go_on s5. destruct go_on; [apply IH | reflexivity].
Qed.

Lemma run_build_workflow_same fuel s :
  run_build_workflow fuel self' s = run_build_workflow fuel self s.
Proof.
  unfold run_build_workflow, called.
  change (get_jobs_list self') with (get_jobs_list self).
  cbn [self' with_jenkins_url config branch enable_polling wait_between_builds].
  cbv zeta.
  destruct (get_jobs_list self) as [|job rest]; [reflexivity|].
  change (with_jenkins_url self u) with self'.
  now rewrite workflow_loop_same.
Qed.

Lemma single_requests_same job bn s :
  get_crumb self' s = get_crumb self s
  /\ test_connection self' s = test_connection self s
  /\ stop_build self' job bn s = stop_build self job bn s.
Proof.
  rewrite !get_crumb_run, !test_connection_run, !stop_build_run.
  unfold crumb_url, api_url, stop_url.
  cbn [self' with_jenkins_url config session jenkins_url crumb].
  rewrite same. auto.
Qed.
End SameServer.

(** X25.  Trailing slashes of [jenkins_url] do not matter: with a slash
    appended to the configured URL the workflow, the crumb request, the
    connection test and the stop request do exactly what they do without
    it, and send the same requests. *)
Theorem trailing_slash_does_not_matter
    (fuel : nat) (self : Builder) (job_name : string) (build_number : value)
    (s : State) :
  let self' := with_jenkins_url self (jenkins_url (config self) ++ "/") in
  run_build_workflow fuel self' s = run_build_workflow fuel self s /\
  get_crumb self' s = get_crumb self s /\
  test_connection self' s = test_connection self s /\
  stop_build self' job_name build_number s
  = stop_build self job_name build_number s.
Proof.
  cbv zeta.
  pose proof (rstrip_slash_app_slash (jenkins_url (config self))) as H.
  split; [exact (@run_build_workflow_same self _ H fuel s)|].
  exact (@single_requests_same self _ H job_name build_number s).
Qed.

(** ** A negative polling interval *)



(** ** How long the completion wait takes *)

Section WaitLoopDeadline.
Variables (self : Builder) (job : string) (bn : value).
Variables (start timeout interval slowest bound : Z).
Hypothesis interval_nonneg : 0 <= interval.
Hypothesis latency_bound :
  forall n, Z.of_nat (latency (session self) n) <= slowest.
Hypothesis bound_ok : start + timeout - 1 + slowest + interval <= bound.

Lemma wait_loop_deadline fuel : forall s,
  now s <= bound ->
  now (final (wait_loop fuel self job bn start timeout interval s)) <= bound.
Proof.
  induction fuel as [|fuel IH]; intros s Hs; [exact Hs|].
  rewrite wait_loop_unfold.
  destruct (Z.ltb_spec (now s - start) timeout) as [Hlt|Hge]; [|exact Hs].
  rewrite get_job_status_run. cbv zeta. cbn [res final emitted].
  pose proof (latency_bound (sent s)) as L.
  destruct (verdict_of _) as [[b|]| e |]; cbn [final now]; try lia.
  destruct (Z.ltb_spec interval 0); cbn [final now]; [lia|].
  apply IH. cbn [now]. lia.
Qed.
End WaitLoopDeadline.

(** X27.  The timeout of [wait_for_build_completion] is kept up to one
    round.  Take a check interval that is not negative, rounds that take
    time (a status query and the sleep after it never take 0 seconds
    together, without which the loop need not end) and status queries that
    take at most [slowest] seconds.  Then a wait with a positive timeout
    ends, by returning or raising, and it ends less than
    [timeout + slowest + check_interval] seconds after it began. *)
Theorem wait_keeps_timeout
    (fuel : nat) (self : Builder) (job_name : string) (build_number : value)
    (s : State) (slowest : Z) :
  let timeout := get_default (timeout_seconds (config self)) 1800 in
  let check_interval := get_default (check_interval_seconds (config self)) 30 in
  let o := wait_for_build_completion fuel self job_name build_number s in
  0 < timeout ->
  0 <= check_interval ->
  time_passes (session self) check_interval ->
  (Z.to_nat timeout < fuel)%nat ->
  (forall n, Z.of_nat (latency (session self) n) <= slowest) ->
  res o <> OutOfFuel /\
  now s <= now (final o) < now s + timeout + slowest + check_interval.
Proof.
  intros timeout check_interval o Ht Hi Hp Hf Hl. subst o.
  split;
    [exact (@wait_for_build_completion_has_fuel fuel self job_name
              build_number s Hp Hf)|].
  clear Hp Hf.
  rewrite wait_for_build_completion_run. cbv zeta. cbn [final].
  fold timeout check_interval.
  pose proof (Hl 0%nat) as L0.
  split.
  - clear Ht. generalize (now s) at 2 as start. intros start.
    generalize timeout. intros t.
    revert s. induction fuel as [|fuel IH]; intros s; [cbn; lia|].
    rewrite wait_loop_unfold.
    destruct (now s - start <? t); [|cbn; lia].
    rewrite get_job_status_run. cbv zeta. cbn [res final emitted].
    destruct (verdict_of _) as [[b|]| e |]; cbn [final now]; try lia.
    destruct (Z.ltb_spec check_interval 0); cbn [final now]; [lia|].
    match goal with |- context [wait_loop fuel _ _ _ _ _ _ ?s'] =>
      specialize (IH s') end.
    cbn [now] in IH. lia.
  - assert (H : now (final (wait_loop fuel self job_name build_number (now s)
                              timeout check_interval s))
                <= now s + timeout - 1 + slowest + check_interval).
    { apply (@wait_loop_deadline self job_name build_number (now s) timeout
               check_interval slowest _ Hi Hl (Z.le_refl _)). lia. }
    lia.
Qed.

Lemma wait_keeps_timeout_witness :
  let self := sample_builder (sample_config false None)
                             (workflow_peer "SUCCESS" 200) in
  let o := wait_for_build_completion 11 self "boot" (VInt 7) idle in
  res o <> OutOfFuel /\ 0 <= now (final o) < 0 + 10 + 1 + 2.
Proof.
  intros self o.
  apply (@wait_keeps_timeout 11 self "boot" (VInt 7) idle 1).
  - cbn. lia.
  - cbn. lia.
  - intros n. cbn. lia.
  - cbn. lia.
  - intros n. cbn. lia.
Defined.
